(** * api_server.py: the model worker and its HTTP endpoints

    A shallow embedding of [src/api_server.py]: the request dictionary and its
    Python values, the exceptions the worker raises, [ModelWorker.generate]
    as a state-and-exception computation over the process state (semaphore
    counter, files of the cache directory, log of collaborator calls), the
    [/send] and [/status/{uid}] endpoints, and the Base64 codec the status
    endpoint answers with. *)

From Stdlib Require Import String Ascii List ZArith NArith Lia Bool PrimFloat.
From Stdlib.Strings Require Import Byte.
Import ListNotations.
Open Scope string_scope.
Open Scope Z_scope.

Set Warnings "-register-all".

(** ** Python values *)

(** What a request dictionary holds: the JSON values of the body, and the
    objects the worker stores back into it (images, meshes, the generator). *)
Inductive pyval : Type :=
| VNone
| VBool (b : bool)
| VInt (z : Z)
| VFloat (f : float)
| VStr (s : string)
| VList (l : list pyval)
| VDict (d : list (string * pyval))
| VImage (id : N)
| VMesh (id : N)
| VOpaque (id : N).

(** A [dict] keeps its keys in insertion order; a key occurs once. *)
Definition dict := list (string * pyval).

Definition bytes := list byte.

(** [d.get(k)] without a default. *)
Fixpoint dict_get (k : string) (d : dict) : option pyval :=
  match d with
  | [] => None
  | (k', v) :: d' => if String.eqb k k' then Some v else dict_get k d'
  end.

(** [k in d]. *)
Definition dict_mem (k : string) (d : dict) : bool :=
  match dict_get k d with Some _ => true | None => false end.

(** [d.get(k, dflt)]. *)
Definition dict_get_default (k : string) (dflt : pyval) (d : dict) : pyval :=
  match dict_get k d with Some v => v | None => dflt end.

(** [d[k] = v]: an existing key keeps its position, a new one goes last. *)
Fixpoint dict_set (k : string) (v : pyval) (d : dict) : dict :=
  match d with
  | [] => [(k, v)]
  | (k', v') :: d' =>
      if String.eqb k k' then (k, v) :: d' else (k', v') :: dict_set k v d'
  end.

(** Python's truth value of an object, as [if x:] tests it. *)
Definition truthy (v : pyval) : bool :=
  match v with
  | VNone => false
  | VBool b => b
  | VInt z => negb (Z.eqb z 0)
  | VFloat f => negb (PrimFloat.eqb f 0%float)
  | VStr s => negb (String.eqb s "")
  | VList l => match l with [] => false | _ => true end
  | VDict d => match d with [] => false | _ => true end
  | VImage _ | VMesh _ | VOpaque _ => true
  end.

(** [type(v).__name__], as error messages show it. *)
Definition type_name (v : pyval) : string :=
  match v with
  | VNone => "NoneType"
  | VBool _ => "bool"
  | VInt _ => "int"
  | VFloat _ => "float"
  | VStr _ => "str"
  | VList _ => "list"
  | VDict _ => "dict"
  | VImage _ => "Image"
  | VMesh _ => "Trimesh"
  | VOpaque _ => "object"
  end.

(** ** Exceptions and results *)

(** The exceptions of the model are classes derived from Python's
    [Exception]: the built-in ones the worker raises or runs into,
    [torch.cuda.CudaError], and [OtherError cls] for any other such class
    (a library's own). [KeyboardInterrupt], [SystemExit] and the other
    classes that derive from [BaseException] alone are not modelled. *)
Inductive exn : Type :=
| ValueError (msg : string)
| TypeError (msg : string)
| KeyError (key : string)
| AttributeError (msg : string)
| NameError (msg : string)
| CudaError (msg : string)
| OtherError (cls msg : string).

Inductive result (A : Type) : Type :=
| Ok (a : A)
| Raise (e : exn).
Arguments Ok {A} a.
Arguments Raise {A} e.

(** [key in container] for a string key. *)
Definition py_contains (key : string) (container : pyval) : result bool :=
  match container with
  | VDict d => Ok (dict_mem key d)
  | VList l =>
      Ok (existsb (fun x => match x with VStr s => String.eqb s key | _ => false end) l)
  | VStr s => Ok (match index 0 key s with Some _ => true | None => false end)
  | _ => Raise (TypeError ("argument of type '" ++ type_name container ++
                         "' is not iterable"))
  end.

(** [container[key]] for a string key. *)
Definition py_getitem (key : string) (container : pyval) : result pyval :=
  match container with
  | VDict d =>
      match dict_get key d with Some v => Ok v | None => Raise (KeyError key) end
  | VList _ => Raise (TypeError "list indices must be integers or slices, not str")
  | VStr _ => Raise (TypeError "string indices must be integers, not 'str'")
  | _ => Raise (TypeError ("'" ++ type_name container ++
                         "' object is not subscriptable"))
  end.

(** ** The process state *)

(** Calls to the collaborators. The Model Pipeline Adapter is [EvPipeline]:
    [multiview = false] is [self.pipeline], [true] is [self.pipeline_mv]. *)
Inductive event : Type :=
| EvLoadImage (image : pyval)
| EvRembg (image : pyval)
| EvTrimeshLoadGlb (mesh_b64 : pyval)
| EvManualSeed (device : string) (seed : pyval)
| EvPipeline (multiview : bool) (kwargs : dict)
| EvFloaterRemover (mesh : pyval)
| EvDegenerateFaceRemover (mesh : pyval)
| EvFaceReducer (mesh : pyval) (max_facenum : pyval)
| EvPipelineTex (mesh : pyval) (image : pyval)
| EvTempFile (suffix : string)
| EvExport (mesh : pyval) (path : string)
| EvTrimeshLoad (path : string)
| EvEmptyCache.

(** [sem_value] is [model_semaphore._value], [sem_waiters] the length of
    [model_semaphore._waiters]; [files] lists the writes to disk that
    [generate] makes itself (the temporary file and the exports), latest
    first. The records that [logger.info], [print] and [traceback] send
    through the logging handlers to [gradio_cache/controller.log] are not
    part of the state, nor is what a library writes on its own. *)
Record World : Type := mkWorld {
  sem_value : Z;
  sem_waiters : Z;
  files : list (string * bytes)
}.

Fixpoint read_file (path : string) (fs : list (string * bytes)) : option bytes :=
  match fs with
  | [] => None
  | (p, bs) :: fs' => if String.eqb path p then Some bs else read_file path fs'
  end.

(** What running a piece of code gives: it returned or raised, the state
    it left, and the collaborator calls it made, in order. An exception
    keeps the state and the calls reached so far. *)
Record Run (A : Type) : Type := mkRun {
  outcome : result A;
  final : World;
  calls : list event
}.
Arguments mkRun {A} outcome final calls.
Arguments outcome {A} r.
Arguments final {A} r.
Arguments calls {A} r.

Definition M (A : Type) : Type := World -> Run A.

Definition ret {A} (a : A) : M A := fun w => mkRun (Ok a) w [].

Definition raise {A} (e : exn) : M A := fun w => mkRun (Raise e) w [].

Definition bind {A B} (m : M A) (k : A -> M B) : M B :=
  fun w =>
    let r := m w in
    match outcome r with
    | Ok a =>
        let r' := k a (final r) in
        mkRun (outcome r') (final r') (calls r ++ calls r')
    | Raise e => mkRun (Raise e) (final r) (calls r)
    end.

Notation "x <- m ;; k" := (bind m (fun x => k))
  (at level 61, m at next level, right associativity).
Notation "m ;;; k" := (bind m (fun _ => k))
  (at level 61, right associativity).
Notation "' pat <- m ;; k" := (bind m (fun x => let 'pat := x in k))
  (at level 61, pat pattern, m at next level, right associativity).

(** A collaborator call: recorded, then it returns or raises. *)
Definition call {A} (ev : event) (r : result A) : M A :=
  fun w => mkRun r w [ev].

(** An operation of the interpreter itself (subscript, [in]). *)
Definition lift {A} (r : result A) : M A := fun w => mkRun r w [].

Definition write_file (path : string) (bs : bytes) : M unit :=
  fun w => mkRun (Ok tt) (mkWorld (sem_value w) (sem_waiters w) ((path, bs) :: files w)) [].

(** ** Module-level definitions *)

Definition SAVE_DIR : string := "gradio_cache".

(** [posixpath.join] of two components. *)
Fixpoint ends_with_sep (s : string) : bool :=
  match s with
  | EmptyString => false
  | String c EmptyString => Ascii.eqb c "/"%char
  | String _ s' => ends_with_sep s'
  end.

Definition os_path_join (a b : string) : string :=
  match b with
  | String "/"%char _ => b
  | _ => if (String.eqb a "" || ends_with_sep a)%bool then a ++ b else a ++ "/" ++ b
  end.

(** The libraries the module imports, as far as [generate] calls them. Each
    returns or raises. [load_image_from_base64] is the module's own
    two-liner around [Image.open]; [trimesh_load_glb] is
    [trimesh.load(BytesIO(base64.b64decode(x)), file_type='glb')];
    [manual_seed d s] is [torch.Generator(d).manual_seed(s)];
    [mesh_export m p] gives the bytes [m.export(p)] writes to [p];
    [format_value] renders a value that is not a string inside an f-string. *)
Record Externals : Type := mkExternals {
  load_image_from_base64 : pyval -> result pyval;
  trimesh_load_glb : pyval -> result pyval;
  manual_seed : string -> pyval -> result pyval;
  FloaterRemover : pyval -> result pyval;
  DegenerateFaceRemover : pyval -> result pyval;
  FaceReducer : pyval -> pyval -> result pyval;
  NamedTemporaryFile : string -> result string;
  mesh_export : pyval -> string -> result bytes;
  trimesh_load : string -> bytes -> result pyval;
  empty_cache : result unit;
  format_value : pyval -> string
}.

(** ** ModelWorker *)

(** The attributes [__init__] assigns. [pipeline_mv = None] is Python's
    [None] (line 185); [pipeline_tex = None] stands for an attribute that
    was never assigned (lines 191-192 have no [else]). [pipeline_t2i] has
    no field: its assignment is commented out (lines 187-190). *)
Record ModelWorker : Type := mkModelWorker {
  device : string;
  enable_multiview : bool;
  rembg : pyval -> result pyval;
  pipeline : dict -> result pyval;
  pipeline_mv : option (dict -> result pyval);
  pipeline_tex : option (pyval -> pyval -> result pyval)
}.

(** What the [from_pretrained] calls and [BackgroundRemover()] give. *)
Record Pretrained : Type := mkPretrained {
  background_remover : pyval -> result pyval;
  shape_pipeline : dict -> result pyval;
  shape_pipeline_mv : dict -> result pyval;
  paint_pipeline : pyval -> pyval -> result pyval
}.

(** [ModelWorker.__init__]. *)
Definition init (P : Pretrained) (dev : string) (enable_tex enable_mv : bool)
  : ModelWorker :=
  {| device := dev;
     enable_multiview := enable_mv;
     rembg := background_remover P;
     pipeline := shape_pipeline P;
     pipeline_mv := if enable_mv then Some (shape_pipeline_mv P) else None;
     pipeline_tex := if enable_tex then Some (paint_pipeline P) else None |}.

Definition views : list string := ["front"; "left"; "back"].

Definition no_attribute (name : string) : exn :=
  AttributeError ("'ModelWorker' object has no attribute '" ++ name ++ "'").

Section Generate.

Variable ext : Externals.

(** [f'{v}']. *)
Definition fstr (v : pyval) : string :=
  match v with VStr s => s | _ => format_value ext v end.

(** Lines 216-222: the loop over the three views. *)
Fixpoint load_views (self : ModelWorker) (imgs : pyval) (vs : list string)
  (images : dict) : M dict :=
  match vs with
  | [] => ret images
  | view :: vs' =>
      present <- lift (py_contains view imgs) ;;
      if (present : bool) then
        raw <- lift (py_getitem view imgs) ;;
        img <- call (EvLoadImage raw) (load_image_from_base64 ext raw) ;;
        img' <- call (EvRembg img) (rembg self img) ;;
        load_views self imgs vs' (dict_set view img' images)
      else
        raise (ValueError ("Missing " ++ view ++ " image for multiview generation"))
  end.

(** Lines 212-249: the inputs are read and the pipeline is chosen. The
    result is the updated [params] and [pipeline_to_use], tagged with
    whether it is the multiview one. *)
Definition input_stage (self : ModelWorker) (is_multiview : pyval) (params : dict)
  : M (dict * (bool * (dict -> result pyval))) :=
  if truthy is_multiview then
    params <-
      (match dict_get "images" params with
       | Some imgs =>
           images <- load_views self imgs views [] ;;
           ret (dict_set "image" (VDict images) params)
       | None => raise (ValueError "No images provided for multiview generation")
       end) ;;
    match pipeline_mv self with
    | None => raise (ValueError "Multiview pipeline not loaded. Enable multiview mode.")
    | Some p => ret (params, (true, p))
    end
  else
    params <-
      (match dict_get "image" params with
       | Some image =>
           image <- call (EvLoadImage image) (load_image_from_base64 ext image) ;;
           image <- call (EvRembg image) (rembg self image) ;;
           ret (dict_set "image" image params)
       | None =>
           match dict_get "text" params with
           | Some text => raise (no_attribute "pipeline_t2i")
           | None => raise (ValueError "No input image or text provided")
           end
       end) ;;
    ret (params, (false, pipeline self)).

(** Lines 257-267: the defaults of the mode, for the keys the request
    leaves out. *)
Definition with_defaults (is_multiview : pyval) (params : dict) : dict :=
  let params :=
    if truthy is_multiview then
      let params := dict_set "octree_resolution"
                      (dict_get_default "octree_resolution" (VInt 380) params) params in
      let params := dict_set "num_inference_steps"
                      (dict_get_default "num_inference_steps" (VInt 50) params) params in
      dict_set "num_chunks" (dict_get_default "num_chunks" (VInt 20000) params) params
    else
      let params := dict_set "octree_resolution"
                      (dict_get_default "octree_resolution" (VInt 128) params) params in
      let params := dict_set "num_inference_steps"
                      (dict_get_default "num_inference_steps" (VInt 5) params) params in
      dict_set "mc_algo" (VStr "mc") params in
  dict_set "guidance_scale"
    (dict_get_default "guidance_scale" (VFloat 5%float) params) params.

(** Lines 251-272: the supplied mesh is decoded, or the generator is
    seeded, the defaults are filled in and the pipeline is run. The
    record of the time taken (line 272) goes to the logger and is left
    out, as all logging is. *)
Definition shape_stage (self : ModelWorker) (is_multiview : pyval) (params : dict)
  (pipeline_to_use : bool * (dict -> result pyval)) : M (dict * pyval) :=
  match dict_get "mesh" params with
  | Some m =>
      mesh <- call (EvTrimeshLoadGlb m) (trimesh_load_glb ext m) ;;
      ret (params, mesh)
  | None =>
      let seed := dict_get_default "seed" (VInt 1234) params in
      gen <- call (EvManualSeed (device self) seed) (manual_seed ext (device self) seed) ;;
      let params := with_defaults is_multiview (dict_set "generator" gen params) in
      mesh <- call (EvPipeline (fst pipeline_to_use) params) (snd pipeline_to_use params) ;;
      ret (params, mesh)
  end.

(** Lines 274-281: post-processing, when [texture] is set. *)
Definition texture_stage (self : ModelWorker) (is_multiview : pyval) (params : dict)
  (mesh : pyval) : M pyval :=
  if truthy (dict_get_default "texture" (VBool false) params) then
    mesh <- call (EvFloaterRemover mesh) (FloaterRemover ext mesh) ;;
    mesh <- call (EvDegenerateFaceRemover mesh) (DegenerateFaceRemover ext mesh) ;;
    let max_facenum := dict_get_default "face_count" (VInt 40000) params in
    mesh <- call (EvFaceReducer mesh max_facenum) (FaceReducer ext mesh max_facenum) ;;
    texture_image <-
      (if truthy is_multiview then
         image <- lift (py_getitem "image" (VDict params)) ;;
         lift (py_getitem "front" image)
       else lift (py_getitem "image" (VDict params))) ;;
    match pipeline_tex self with
    | None => raise (no_attribute "pipeline_tex")
    | Some tex => call (EvPipelineTex mesh texture_image) (tex mesh texture_image)
    end
  else ret mesh.

(** Lines 283-291: the mesh goes through a temporary file to
    [SAVE_DIR/{uid}.{type}]. *)
Definition export_stage (uid : string) (params : dict) (mesh : pyval)
  : M (string * string) :=
  let type := dict_get_default "type" (VStr "glb") params in
  let suffix := "." ++ fstr type in
  temp_file <- call (EvTempFile suffix) (NamedTemporaryFile ext suffix) ;;
  write_file temp_file [] ;;;
  bs <- call (EvExport mesh temp_file) (mesh_export ext mesh temp_file) ;;
  write_file temp_file bs ;;;
  mesh <- call (EvTrimeshLoad temp_file) (trimesh_load ext temp_file bs) ;;
  let save_path := os_path_join SAVE_DIR (uid ++ "." ++ fstr type) in
  bs <- call (EvExport mesh save_path) (mesh_export ext mesh save_path) ;;
  write_file save_path bs ;;;
  call EvEmptyCache (empty_cache ext) ;;;
  ret (save_path, uid).

(** [ModelWorker.generate(self, uid, params)], lines 207-291. *)
Definition generate (self : ModelWorker) (uid : string) (params : dict)
  : M (string * string) :=
  let is_multiview := dict_get_default "multiview" (VBool false) params in
  '(params, pipeline_to_use) <- input_stage self is_multiview params ;;
  '(params, mesh) <- shape_stage self is_multiview params pipeline_to_use ;;
  mesh <- texture_stage self is_multiview params mesh ;;
  export_stage uid params mesh.

End Generate.

(** ** Base64 *)

(** [base64.b64encode] and [base64.b64decode] of the Python library, after
    RFC 4648 section 4: three bytes become four characters of the standard
    alphabet, and a last group of one or two bytes is padded with [=]. The
    decoder here accepts canonical encodings only; on the encoder's output
    it agrees with Python's, which skips characters outside the alphabet. *)
Module Base64.

Local Open Scope N_scope.

Definition b64char (n : N) : ascii :=
  if n <? 26 then ascii_of_N (65 + n)
  else if n <? 52 then ascii_of_N (71 + n)
  else if n <? 62 then ascii_of_N (n - 4)
  else if n =? 62 then "+"%char
  else "/"%char.

Definition b64val (c : ascii) : option N :=
  let n := N_of_ascii c in
  if (65 <=? n) && (n <=? 90) then Some (n - 65)
  else if (97 <=? n) && (n <=? 122) then Some (n - 71)
  else if (48 <=? n) && (n <=? 57) then Some (n + 4)
  else if n =? 43 then Some 62
  else if n =? 47 then Some 63
  else None.

Definition byte_of_N (n : N) : byte :=
  match Byte.of_N n with Some b => b | None => x00 end.

Definition pad : ascii := "="%char.

Fixpoint b64encode (bs : bytes) : string :=
  match bs with
  | [] => EmptyString
  | [a] =>
      let a := Byte.to_N a in
      String (b64char (a / 4)) (String (b64char ((a mod 4) * 16))
        (String pad (String pad EmptyString)))
  | [a; b] =>
      let a := Byte.to_N a in
      let b := Byte.to_N b in
      String (b64char (a / 4)) (String (b64char ((a mod 4) * 16 + b / 16))
        (String (b64char ((b mod 16) * 4)) (String pad EmptyString)))
  | a :: b :: c :: rest =>
      let a := Byte.to_N a in
      let b := Byte.to_N b in
      let c := Byte.to_N c in
      String (b64char (a / 4)) (String (b64char ((a mod 4) * 16 + b / 16))
        (String (b64char ((b mod 16) * 4 + c / 64)) (String (b64char (c mod 64))
          (b64encode rest))))
  end.

(** One group of four characters: three bytes, or fewer when padded. *)
Definition decode_group (c1 c2 c3 c4 : ascii) : option bytes :=
  match b64val c1, b64val c2 with
  | Some n1, Some n2 =>
      let b1 := byte_of_N (n1 * 4 + n2 / 16) in
      match b64val c3, b64val c4 with
      | Some n3, Some n4 =>
          Some [b1; byte_of_N ((n2 mod 16) * 16 + n3 / 4);
                byte_of_N ((n3 mod 4) * 64 + n4)]
      | Some n3, None =>
          if Ascii.eqb c4 pad
          then Some [b1; byte_of_N ((n2 mod 16) * 16 + n3 / 4)]
          else None
      | None, _ =>
          if Ascii.eqb c3 pad && Ascii.eqb c4 pad then Some [b1] else None
      end
  | _, _ => None
  end.

Fixpoint b64decode (s : string) : option bytes :=
  match s with
  | EmptyString => Some []
  | String c1 (String c2 (String c3 (String c4 rest))) =>
      match decode_group c1 c2 c3 c4 with
      | Some ([_; _; _] as bs) =>
          match b64decode rest with
          | Some bs' => Some (bs ++ bs')%list
          | None => None
          end
      | Some bs => match rest with EmptyString => Some bs | _ => None end
      | None => None
      end
  | _ => None
  end.

End Base64.

(** ** The HTTP endpoints *)

Inductive Response : Type :=
| FileResponse (path : string)
| JSONResponse (content : dict) (status_code : Z).

Definition server_error_msg : string :=
  "**NETWORK ERROR DUE TO HIGH TRAFFIC. PLEASE REGENERATE OR REFRESH THIS PAGE.**".

Definition error_response : Response :=
  JSONResponse [("text", VStr server_error_msg); ("error_code", VInt 1)] 404.

(** Which [except] clause of the synchronous handlers catches an exception,
    by what the clause prints. [ValueError] stands for the class and its
    subclasses. *)
Definition except_clause (e : exn) : string :=
  match e with
  | ValueError _ => "Caught ValueError:"
  | CudaError _ => "Caught torch.cuda.CudaError:"
  | _ => "Caught Unknown Error"
  end.

Section Endpoints.

Variable ext : Externals.

(** The module-level name [worker]. Its assignment in the main block is
    commented out (lines 521-523), so the name is bound only when the
    embedding application binds it: [None] is the unbound name. *)
Variable worker : option ModelWorker.

Definition worker_unbound : exn := NameError "name 'worker' is not defined".

(** The [try] of the synchronous handlers around [worker.generate]: every
    exception becomes the same envelope. *)
Definition respond (uid : string) (params : dict) : M Response :=
  fun w =>
    match worker with
    | None => mkRun (Ok error_response) w []
    | Some self =>
        let r := generate ext self uid params w in
        match outcome r with
        | Ok (file_path, _) => mkRun (Ok (FileResponse file_path)) (final r) (calls r)
        | Raise _ => mkRun (Ok error_response) (final r) (calls r)
        end
    end.

(** [POST /generate] from line 318 on, the body being decoded to a
    dictionary; [uid] is the fresh [uuid4]. *)
Definition route_generate (uid : string) (params : dict) : M Response :=
  respond uid params.

(** [worker.generate(uid, params)] for whatever the body decodes to:
    [generate] starts with [params.get('multiview', False)] (line 210),
    which only a dictionary has. *)
Definition generate_body (self : ModelWorker) (uid : string) (body : pyval)
  : M (string * string) :=
  match body with
  | VDict params => generate ext self uid params
  | _ => raise (AttributeError ("'" ++ type_name body ++ "' object has no attribute 'get'"))
  end.

(** [POST /generate], lines 314-344, from the request on. [body] is what
    [await request.json()] gives (line 317): the decoded body, or the
    exception of the decoder when the body is not JSON. That line stands
    before the [try], so its exception leaves the handler; the three
    [except] clauses answer alike. *)
Definition post_generate (uid : string) (body : result pyval) : M Response :=
  fun w =>
    match body with
    | Raise e => mkRun (Raise e) w []
    | Ok params =>
        match worker with
        | None => mkRun (Ok error_response) w []
        | Some self =>
            let r := generate_body self uid params w in
            match outcome r with
            | Ok (file_path, _) => mkRun (Ok (FileResponse file_path)) (final r) (calls r)
            | Raise _ => mkRun (Ok error_response) (final r) (calls r)
            end
        end
    end.

(** [GET /status/{uid}], lines 492-502. The [print] of line 495 goes to
    the logger through the redirected [sys.stdout] and is left out. *)
Definition status (uid : string) : M Response :=
  fun w =>
    let save_file_path := os_path_join SAVE_DIR (uid ++ ".glb") in
    match read_file save_file_path (files w) with
    | None => mkRun (Ok (JSONResponse [("status", VStr "processing")] 200)) w []
    | Some content =>
        let base64_str := Base64.b64encode content in
        mkRun (Ok (JSONResponse [("status", VStr "completed");
                                 ("model_base64", VStr base64_str)] 200)) w []
    end.

(** The fields of [POST /generate-multiview-form], lines 409-421; [None] is
    a field the form leaves out. *)
Record MultiviewForm : Type := mkMultiviewForm {
  front_image : bytes;
  left_image : bytes;
  back_image : bytes;
  form_seed : option Z;
  form_octree_resolution : option Z;
  form_num_inference_steps : option Z;
  form_num_chunks : option Z;
  form_guidance_scale : option float;
  form_texture : option bool;
  form_face_count : option Z
}.

Definition Form {A} (dflt : A) (field : option A) : A :=
  match field with Some a => a | None => dflt end.

(** Lines 434-451: the dictionary the multiview form hands to
    [worker.generate]. *)
Definition multiview_form_params (f : MultiviewForm) : dict :=
  [("images", VDict [("front", VStr (Base64.b64encode (front_image f)));
                     ("left", VStr (Base64.b64encode (left_image f)));
                     ("back", VStr (Base64.b64encode (back_image f)))]);
   ("multiview", VBool true);
   ("seed", VInt (Form 12345 (form_seed f)));
   ("octree_resolution", VInt (Form 380 (form_octree_resolution f)));
   ("num_inference_steps", VInt (Form 50 (form_num_inference_steps f)));
   ("num_chunks", VInt (Form 20000 (form_num_chunks f)));
   ("guidance_scale", VFloat (Form 5%float (form_guidance_scale f)));
   ("texture", VBool (Form false (form_texture f)));
   ("face_count", VInt (Form 40000 (form_face_count f)))].

Definition generate_multiview_form (uid : string) (f : MultiviewForm) : M Response :=
  respond uid (multiview_form_params f).

(** *** [/send] and the threads it starts *)

(** The server between requests: the process state and the runs of
    [worker.generate] that threads have started and not yet left. *)
Record Server : Type := mkServer {
  world : World;
  running : list (string * dict)
}.

(** [POST /send], lines 482-489: [threading.Thread(target=worker.generate,
    args=(uid, params)).start()], then the answer. With [worker] unbound
    the handler raises before a thread exists. The thread is started
    before the answer is built (line 487); the run is recorded as in
    progress from then on, and what it does to the state is applied in
    one step when the thread leaves [generate] ([thread_exit]). *)
Definition route_send (uid : string) (params : dict) (s : Server)
  : result Response * Server :=
  match worker with
  | None => (Raise worker_unbound, s)
  | Some _ =>
      (Ok (JSONResponse [("uid", VStr uid)] 200),
       mkServer (world s) (running s ++ [(uid, params)])%list)
  end.

(** A started run leaves [generate], by return or by exception; whatever
    it raised is lost with the thread. *)
Definition thread_exit (i : nat) (s : Server) : Server :=
  match worker, nth_error (running s) i with
  | Some self, Some (uid, params) =>
      mkServer (final (generate ext self uid params (world s)))
               (firstn i (running s) ++ skipn (S i) (running s))%list
  | _, _ => s
  end.

(** A burst of submissions to [/send]. *)
Definition burst (reqs : list (string * dict)) (s : Server) : Server :=
  fold_left (fun s r => snd (route_send (fst r) (snd r) s)) reqs s.

End Endpoints.

(** The name [worker] in the module as it stands: the assignment in the
    main block is commented out (lines 521-523) and no other line binds
    the name. *)
Definition shipped_worker : option ModelWorker := None.

(** The main block, line 519: [asyncio.Semaphore(limit_model_concurrency)]. *)
Definition initial_world (limit_model_concurrency : Z) : World :=
  mkWorld limit_model_concurrency 0 [].

Definition initial_server (limit_model_concurrency : Z) : Server :=
  mkServer (initial_world limit_model_concurrency) [].

(** [ModelWorker.get_queue_length], lines 194-199. *)
Definition get_queue_length (limit_model_concurrency : Z) (w : World) : Z :=
  limit_model_concurrency - sem_value w + sem_waiters w.

(** Permits of the gate held at the moment. *)
Definition permits_in_use (limit_model_concurrency : Z) (w : World) : Z :=
  limit_model_concurrency - sem_value w.

(** ** Reading a run *)

Definition is_adapter_call (ev : event) : bool :=
  match ev with EvPipeline _ _ => true | _ => false end.

Definition adapter_calls (evs : list event) : list event := filter is_adapter_call evs.

Definition is_seed_call (ev : event) : bool :=
  match ev with EvManualSeed _ _ => true | _ => false end.

Definition seed_calls (evs : list event) : list event := filter is_seed_call evs.

Inductive step : Type := Floater | Degenerate | Reducer | Texturing.

Definition step_of (ev : event) : option step :=
  match ev with
  | EvFloaterRemover _ => Some Floater
  | EvDegenerateFaceRemover _ => Some Degenerate
  | EvFaceReducer _ _ => Some Reducer
  | EvPipelineTex _ _ => Some Texturing
  | _ => None
  end.

Definition is_postprocess_call (ev : event) : bool :=
  match step_of ev with Some _ => true | None => false end.

Definition postprocess_calls (evs : list event) : list event :=
  filter is_postprocess_call evs.

Fixpoint steps_of (evs : list event) : list step :=
  match evs with
  | [] => []
  | ev :: evs' =>
      match step_of ev with
      | Some s => s :: steps_of evs'
      | None => steps_of evs'
      end
  end.

Definition fixed_order : list step := [Floater; Degenerate; Reducer; Texturing].

(** The calls each part of [generate] can make. *)
Definition is_input_call (ev : event) : bool :=
  match ev with EvLoadImage _ | EvRembg _ => true | _ => false end.

Definition is_shape_call (ev : event) : bool :=
  match ev with
  | EvTrimeshLoadGlb _ | EvManualSeed _ _ | EvPipeline _ _ => true
  | _ => false
  end.

Definition is_export_call (ev : event) : bool :=
  match ev with
  | EvTempFile _ | EvExport _ _ | EvTrimeshLoad _ | EvEmptyCache => true
  | _ => false
  end.

(** A computation that leaves the semaphore as it found it. *)
Definition keeps_gate {A} (m : M A) : Prop :=
  forall w,
    sem_value (final (m w)) = sem_value w /\
    sem_waiters (final (m w)) = sem_waiters w.

(** A computation all of whose calls are of the kind [P]. *)
Definition only {A} (P : event -> bool) (m : M A) : Prop :=
  forall w, Forall (fun ev => P ev = true) (calls (m w)).

(** The keys [shape_stage] assigns in [params]. *)
Definition shape_keys : list string :=
  ["generator"; "octree_resolution"; "num_inference_steps"; "num_chunks";
   "mc_algo"; "guidance_scale"].

(** The four ways a run of [generate] ends: in its input part, while the
    shape is made, in post-processing, or in the export (which returns or
    raises). Each gives the calls made up to there. *)
Inductive generate_run (ext : Externals) (self : ModelWorker) (uid : string)
  (params : dict) (w : World) : Run (string * string) -> Prop :=
| run_input_raises (e : exn) :
    let is_mv := dict_get_default "multiview" (VBool false) params in
    let r1 := input_stage ext self is_mv params w in
    outcome r1 = Raise e ->
    generate_run ext self uid params w (mkRun (Raise e) (final r1) (calls r1))
| run_shape_raises (p1 : dict) (pu : bool * (dict -> result pyval)) (e : exn) :
    let is_mv := dict_get_default "multiview" (VBool false) params in
    let r1 := input_stage ext self is_mv params w in
    let r2 := shape_stage ext self is_mv p1 pu (final r1) in
    outcome r1 = Ok (p1, pu) ->
    outcome r2 = Raise e ->
    generate_run ext self uid params w
      (mkRun (Raise e) (final r2) (calls r1 ++ calls r2))
| run_texture_raises (p1 : dict) (pu : bool * (dict -> result pyval))
    (p2 : dict) (mesh : pyval) (e : exn) :
    let is_mv := dict_get_default "multiview" (VBool false) params in
    let r1 := input_stage ext self is_mv params w in
    let r2 := shape_stage ext self is_mv p1 pu (final r1) in
    let r3 := texture_stage ext self is_mv p2 mesh (final r2) in
    outcome r1 = Ok (p1, pu) ->
    outcome r2 = Ok (p2, mesh) ->
    outcome r3 = Raise e ->
    generate_run ext self uid params w
      (mkRun (Raise e) (final r3) (calls r1 ++ calls r2 ++ calls r3))
| run_export (p1 : dict) (pu : bool * (dict -> result pyval))
    (p2 : dict) (mesh mesh' : pyval) :
    let is_mv := dict_get_default "multiview" (VBool false) params in
    let r1 := input_stage ext self is_mv params w in
    let r2 := shape_stage ext self is_mv p1 pu (final r1) in
    let r3 := texture_stage ext self is_mv p2 mesh (final r2) in
    let r4 := export_stage ext uid p2 mesh' (final r3) in
    outcome r1 = Ok (p1, pu) ->
    outcome r2 = Ok (p2, mesh) ->
    outcome r3 = Ok mesh' ->
    generate_run ext self uid params w
      (mkRun (outcome r4) (final r4) (calls r1 ++ calls r2 ++ calls r3 ++ calls r4)).


(** ** Sample collaborators

    Collaborators that always return, for running the worker on concrete
    requests. *)

Definition sample_ext : Externals :=
  {| load_image_from_base64 := fun _ => Ok (VImage 1);
     trimesh_load_glb := fun _ => Ok (VMesh 10);
     manual_seed := fun _ _ => Ok (VOpaque 7);
     FloaterRemover := fun _ => Ok (VMesh 11);
     DegenerateFaceRemover := fun _ => Ok (VMesh 12);
     FaceReducer := fun _ _ => Ok (VMesh 13);
     NamedTemporaryFile := fun sfx => Ok ("/tmp/tmpabc" ++ sfx);
     mesh_export := fun _ _ => Ok [x67; x6c; x54; x46]%byte;
     trimesh_load := fun _ _ => Ok (VMesh 14);
     empty_cache := Ok tt;
     format_value := fun _ => "None" |}.

Definition sample_models : Pretrained :=
  {| background_remover := fun _ => Ok (VImage 2);
     shape_pipeline := fun _ => Ok (VMesh 3);
     shape_pipeline_mv := fun _ => Ok (VMesh 4);
     paint_pipeline := fun _ _ => Ok (VMesh 5) |}.

(** The same models with a shape pipeline that fails on the device. *)
Definition failing_models : Pretrained :=
  {| background_remover := fun _ => Ok (VImage 2);
     shape_pipeline := fun _ => Raise (CudaError "out of memory");
     shape_pipeline_mv := fun _ => Raise (CudaError "out of memory");
     paint_pipeline := fun _ _ => Ok (VMesh 5) |}.


(** ** StreamToLogger

    Lines 96-127: the file-like object that [build_logger] installs as
    [sys.stdout] and [sys.stderr]. Text written to a stream may hold any
    Unicode character, and [str.splitlines] and [str.rstrip] know
    characters beyond one byte, so the text of a stream is a list of code
    points. *)
Module StreamToLogger.

Local Open Scope N_scope.
Local Open Scope list_scope.

Definition text := list N.

Definition LF : N := 10.
Definition CR : N := 13.

(** The line boundaries of [str.splitlines]. *)
Definition is_linebreak (c : N) : bool :=
  (c =? 10) || (c =? 11) || (c =? 12) || (c =? 13) || (c =? 28) || (c =? 29) ||
  (c =? 30) || (c =? 133) || (c =? 8232) || (c =? 8233).

(** The characters [str.rstrip()] removes. *)
Definition is_space (c : N) : bool :=
  ((9 <=? c) && (c <=? 13)) || ((28 <=? c) && (c <=? 32)) || (c =? 133) ||
  (c =? 160) || (c =? 5760) || ((8192 <=? c) && (c <=? 8202)) || (c =? 8232) ||
  (c =? 8233) || (c =? 8239) || (c =? 8287) || (c =? 12288).

(** [s.splitlines(True)], with the line read so far in [cur]: a line ends
    after a boundary, CR LF counts as one, and the ends are kept. *)
Fixpoint splitlines_from (cur s : text) : list text :=
  match s with
  | [] => match cur with [] => [] | _ => [cur] end
  | c :: s' =>
      if is_linebreak c then
        match s' with
        | d :: s'' =>
            if (c =? CR) && (d =? LF)
            then (cur ++ [c; d]) :: splitlines_from [] s''
            else (cur ++ [c]) :: splitlines_from [] s'
        | [] => [cur ++ [c]]
        end
      else splitlines_from (cur ++ [c]) s'
  end.

Definition splitlines (s : text) : list text := splitlines_from [] s.

(** [s.rstrip()]. *)
Fixpoint rstrip (s : text) : text :=
  match s with
  | [] => []
  | c :: s' =>
      match rstrip s' with
      | [] => if is_space c then [] else [c]
      | r => c :: r
      end
  end.

(** The stream: its level, its buffer, and the calls it has made to
    [self.logger.log], oldest first. *)
Record t : Type := mk {
  log_level : Z;
  linebuf : text;
  logged : list (Z * text)
}.

(** The body of the loop of [write], lines 119-122. *)
Definition write_line (self : t) (line : text) : t :=
  if last line 0 =? LF
  then mk (log_level self) (linebuf self)
          (logged self ++ [(log_level self, rstrip line)])
  else mk (log_level self) (linebuf self ++ line) (logged self).

(** [write], lines 110-122. *)
Definition write (self : t) (buf : text) : t :=
  let temp_linebuf := linebuf self ++ buf in
  fold_left write_line (splitlines temp_linebuf)
    (mk (log_level self) [] (logged self)).

(** [flush], lines 124-127. *)
Definition flush (self : t) : t :=
  match linebuf self with
  | [] => mk (log_level self) [] (logged self)
  | _ => mk (log_level self) []
           (logged self ++ [(log_level self, rstrip (linebuf self))])
  end.

(** The test of line 119. *)
Definition ends_in_LF (line : text) : bool := last line 0 =? LF.

(** Text in which the newline is the only line boundary. *)
Definition plain (s : text) : Prop :=
  Forall (fun c => is_linebreak c = true -> c = LF) s.

(** The lines of a text that a newline closes, and what follows the last
    of them. *)
Fixpoint split_nl (cur s : text) : list text * text :=
  match s with
  | [] => ([], cur)
  | c :: s' =>
      if c =? LF then
        let '(lines, rest) := split_nl [] s' in ((cur ++ [c]) :: lines, rest)
      else split_nl (cur ++ [c]) s'
  end.

(** The code points of an ASCII string. *)
Definition of_string (s : string) : text :=
  map N_of_ascii (list_ascii_of_string s).

End StreamToLogger.

(** ** More of the endpoints *)

(** The fields of [POST /generate-form], lines 347-356. *)
Record ImageForm : Type := mkImageForm {
  image_upload : bytes;
  image_seed : option Z;
  image_octree_resolution : option Z;
  image_num_inference_steps : option Z;
  image_guidance_scale : option float;
  image_texture : option bool;
  image_face_count : option Z
}.

(** Lines 367-378: the dictionary the single-image form hands to
    [worker.generate]. *)
Definition image_form_params (f : ImageForm) : dict :=
  [("image", VStr (Base64.b64encode (image_upload f)));
   ("seed", VInt (Form 1234 (image_seed f)));
   ("octree_resolution", VInt (Form 128 (image_octree_resolution f)));
   ("num_inference_steps", VInt (Form 5 (image_num_inference_steps f)));
   ("guidance_scale", VFloat (Form 5%float (image_guidance_scale f)));
   ("texture", VBool (Form false (image_texture f)));
   ("face_count", VInt (Form 40000 (image_face_count f)))].

(** [POST /generate-form], lines 347-406. *)
Definition generate_form (ext : Externals) (worker : option ModelWorker)
  (uid : string) (f : ImageForm) : M Response :=
  respond ext worker uid (image_form_params f).

(** [ModelWorker.get_status], lines 201-205. *)
Definition get_status (limit_model_concurrency : Z) (w : World) : dict :=
  [("speed", VInt 1);
   ("queue_length", VInt (get_queue_length limit_model_concurrency w))].

(** Where [generate] saves the result of a request, line 287. *)
Definition save_path_of (ext : Externals) (uid : string) (params : dict) : string :=
  os_path_join SAVE_DIR
    (uid ++ "." ++ fstr ext (dict_get_default "type" (VStr "glb") params)).

(** The suffix of the temporary file, line 284. *)
Definition temp_suffix (ext : Externals) (params : dict) : string :=
  "." ++ fstr ext (dict_get_default "type" (VStr "glb") params).

(** One thing that happens to the server: a request is served by one of
    the handlers, or a thread that [/send] started leaves [generate]. The
    synchronous handlers run [worker.generate] inside the handler itself. *)
Inductive server_step (ext : Externals) (worker : option ModelWorker)
  : Server -> Server -> Prop :=
| step_send (uid : string) (params : dict) (s : Server) :
    server_step ext worker s (snd (route_send worker uid params s))
| step_thread_exit (i : nat) (s : Server) :
    server_step ext worker s (thread_exit ext worker i s)
| step_generate (uid : string) (params : dict) (s : Server) :
    server_step ext worker s
      (mkServer (final (route_generate ext worker uid params (world s))) (running s))
| step_generate_form (uid : string) (f : ImageForm) (s : Server) :
    server_step ext worker s
      (mkServer (final (generate_form ext worker uid f (world s))) (running s))
| step_generate_multiview_form (uid : string) (f : MultiviewForm) (s : Server) :
    server_step ext worker s
      (mkServer (final (generate_multiview_form ext worker uid f (world s))) (running s))
| step_status (uid : string) (s : Server) :
    server_step ext worker s
      (mkServer (final (status uid (world s))) (running s)).

(** The states the server gets to from its start. *)
Inductive reachable (ext : Externals) (worker : option ModelWorker)
  (limit_model_concurrency : Z) : Server -> Prop :=
| reachable_start :
    reachable ext worker limit_model_concurrency (initial_server limit_model_concurrency)
| reachable_step (s s' : Server) :
    reachable ext worker limit_model_concurrency s ->
    server_step ext worker s s' ->
    reachable ext worker limit_model_concurrency s'.

(** [s.startswith('/')]. *)
Definition starts_with_sep (s : string) : bool :=
  match s with
  | String c _ => Ascii.eqb c "/"%char
  | EmptyString => false
  end.

(** A run with one more call in front of its calls, and a run as it is:
    what [bind] makes of the run that follows a call or a write. *)
Definition after_call {A} (ev : event) (r : Run A) : Run A :=
  mkRun (outcome r) (final r) (ev :: calls r).

Definition rerun {A} (r : Run A) : Run A :=
  mkRun (outcome r) (final r) (calls r).

(** A computation that writes no file. *)
Definition keeps_files {A} (m : M A) : Prop :=
  forall w, files (final (m w)) = files w.

(** * Properties *)

(** ** Dictionaries *)

Lemma dict_get_set_same (k : string) (v : pyval) (d : dict) :
  dict_get k (dict_set k v d) = Some v.
Proof.
  induction d as [|[k' v'] d IH]; simpl.
  - now rewrite String.eqb_refl.
  - destruct (String.eqb k k') eqn:E; simpl.
    + now rewrite String.eqb_refl.
    + now rewrite E.
Qed.

Lemma dict_get_set_other (k k' : string) (v : pyval) (d : dict) :
  k <> k' -> dict_get k' (dict_set k v d) = dict_get k' d.
Proof.
  intros Hne. induction d as [|[k0 v0] d IH]; simpl.
  - destruct (String.eqb_spec k' k); congruence.
  - destruct (String.eqb_spec k k0) as [->|Hk]; simpl.
    + destruct (String.eqb_spec k' k0); congruence.
    + now rewrite IH.
Qed.

Lemma dict_get_default_set_other (k k' : string) (v dflt : pyval) (d : dict) :
  k <> k' -> dict_get_default k' dflt (dict_set k v d) = dict_get_default k' dflt d.
Proof.
  intros Hne. unfold dict_get_default. now rewrite dict_get_set_other.
Qed.

(** ** Runs *)

Lemma bind_ok {A B} (m : M A) (k : A -> M B) (w : World) (a : A) :
  outcome (m w) = Ok a ->
  bind m k w =
    mkRun (outcome (k a (final (m w)))) (final (k a (final (m w))))
          (calls (m w) ++ calls (k a (final (m w))))%list.
Proof. intros H. unfold bind. now rewrite H. Qed.

Lemma bind_raise {A B} (m : M A) (k : A -> M B) (w : World) (e : exn) :
  outcome (m w) = Raise e ->
  bind m k w = mkRun (Raise e) (final (m w)) (calls (m w)).
Proof. intros H. unfold bind. now rewrite H. Qed.

(** The calls of a sequence start with the calls of its first part. *)
Lemma calls_bind_prefix {A B} (m : M A) (k : A -> M B) (w : World) :
  exists rest, calls (bind m k w) = (calls (m w) ++ rest)%list.
Proof.
  unfold bind. destruct (outcome (m w)); simpl.
  - eauto.
  - exists []. now rewrite app_nil_r.
Qed.

(** Stepping through a sequence, one call or one write at a time. *)
Lemma bind_call_Ok {A B} (ev : event) (a : A) (k : A -> M B) (w : World) :
  bind (call ev (Ok a)) k w = after_call ev (k a w).
Proof. reflexivity. Qed.

Lemma bind_call_Raise {A B} (ev : event) (e : exn) (k : A -> M B) (w : World) :
  bind (call ev (Raise e)) k w = mkRun (Raise e) w [ev].
Proof. reflexivity. Qed.

Lemma bind_write_file {B} (path : string) (bs : bytes) (k : unit -> M B) (w : World) :
  bind (write_file path bs) k w =
    rerun (k tt (mkWorld (sem_value w) (sem_waiters w) ((path, bs) :: files w))).
Proof. reflexivity. Qed.

Lemma bind_ret {A B} (a : A) (k : A -> M B) (w : World) :
  bind (ret a) k w = rerun (k a w).
Proof. reflexivity. Qed.

Ltac run_step :=
  first [ rewrite bind_call_Ok | rewrite bind_write_file | rewrite bind_ret ];
  cbn [after_call rerun outcome final calls files].

(** ** The gate is out of the worker's reach *)

Lemma keeps_gate_ret {A} (a : A) : keeps_gate (ret a).
Proof. now intros w. Qed.

Lemma keeps_gate_raise {A} (e : exn) : keeps_gate (@raise A e).
Proof. now intros w. Qed.

Lemma keeps_gate_call {A} (ev : event) (r : result A) : keeps_gate (call ev r).
Proof. now intros w. Qed.

Lemma keeps_gate_lift {A} (r : result A) : keeps_gate (lift r).
Proof. now intros w. Qed.

Lemma keeps_gate_write_file (path : string) (bs : bytes) :
  keeps_gate (write_file path bs).
Proof. now intros w. Qed.

Lemma keeps_gate_bind {A B} (m : M A) (k : A -> M B) :
  keeps_gate m -> (forall a, keeps_gate (k a)) -> keeps_gate (bind m k).
Proof.
  intros Hm Hk w. unfold bind.
  destruct (Hm w) as [Hv Hq].
  destruct (outcome (m w)) as [a|e]; simpl.
  - destruct (Hk a (final (m w))) as [Hv' Hq']. split; congruence.
  - now split.
Qed.

Create HintDb gate.
#[local] Hint Resolve keeps_gate_ret keeps_gate_raise keeps_gate_call
  keeps_gate_lift keeps_gate_write_file : gate.

Ltac gate_step :=
  match goal with
  | |- keeps_gate (bind _ _) => apply keeps_gate_bind; [|intros ?]
  | |- keeps_gate (if ?b then _ else _) => destruct b
  | |- keeps_gate (match ?x with _ => _ end) => destruct x
  | |- keeps_gate (let '_ := ?x in _) => destruct x
  | |- keeps_gate _ => solve [auto with gate]
  end.

Section GateFacts.

Variable ext : Externals.
Variable self : ModelWorker.

Lemma keeps_gate_load_views (imgs : pyval) (vs : list string) (images : dict) :
  keeps_gate (load_views ext self imgs vs images).
Proof.
  revert images. induction vs as [|view vs IH]; intros images; simpl.
  - auto with gate.
  - repeat gate_step.
Qed.

Lemma keeps_gate_input_stage (is_multiview : pyval) (params : dict) :
  keeps_gate (input_stage ext self is_multiview params).
Proof.
  unfold input_stage.
  destruct (truthy is_multiview).
  - apply keeps_gate_bind.
    + destruct (dict_get "images" params).
      * apply keeps_gate_bind; [apply keeps_gate_load_views | intros; auto with gate].
      * auto with gate.
    + intros p. repeat gate_step.
  - repeat gate_step.
Qed.

Lemma keeps_gate_shape_stage (is_multiview : pyval) (params : dict)
  (p : bool * (dict -> result pyval)) :
  keeps_gate (shape_stage ext self is_multiview params p).
Proof. unfold shape_stage. repeat gate_step. Qed.

Lemma keeps_gate_texture_stage (is_multiview : pyval) (params : dict) (mesh : pyval) :
  keeps_gate (texture_stage ext self is_multiview params mesh).
Proof. unfold texture_stage. repeat gate_step. Qed.

Lemma keeps_gate_export_stage (uid : string) (params : dict) (mesh : pyval) :
  keeps_gate (export_stage ext uid params mesh).
Proof. unfold export_stage. repeat gate_step. Qed.

Lemma keeps_gate_generate (uid : string) (params : dict) :
  keeps_gate (generate ext self uid params).
Proof.
  unfold generate.
  apply keeps_gate_bind; [apply keeps_gate_input_stage | intros [p1 pu]].
  apply keeps_gate_bind; [apply keeps_gate_shape_stage | intros [p2 mesh]].
  apply keeps_gate_bind; [apply keeps_gate_texture_stage | intros mesh'].
  apply keeps_gate_export_stage.
Qed.

End GateFacts.

(** A run whose shape pipeline raises: it ends in that exception, and the
    semaphore, which the run never touched, shows its five permits. *)
Example forced_failure_run :
  let r := generate sample_ext (init failing_models "cuda" false false) "job"
             [("image", VStr "aGVsbG8=")] (initial_world 5) in
  outcome r = Raise (CudaError "out of memory") /\
  sem_value (final r) = 5 /\
  get_queue_length 5 (final r) = 0.
Proof. vm_compute. repeat split. Qed.

(** ** Submissions through [/send] *)

Lemma burst_from (self : ModelWorker) (reqs : list (string * dict)) (s : Server) :
  world (burst (Some self) reqs s) = world s /\
  running (burst (Some self) reqs s) = (running s ++ reqs)%list.
Proof.
  revert s. induction reqs as [|[uid params] reqs IH]; intros s; simpl.
  - now rewrite app_nil_r.
  - change (burst (Some self) ((uid, params) :: reqs) s)
      with (burst (Some self) reqs (mkServer (world s) (running s ++ [(uid, params)]))).
    destruct (IH (mkServer (world s) (running s ++ [(uid, params)]))) as [Hw Hr].
    rewrite Hw, Hr. simpl. now rewrite <- app_assoc.
Qed.

(** Were [worker] bound, as the lines commented out in the main block
    would bind it, a burst of [n] submissions to [/send] would start [n]
    runs of [ModelWorker.generate] at once, whatever the capacity: the
    handler starts a thread per request and nothing on the way acquires
    the semaphore, whose counter still shows every permit free. *)
Lemma bound_worker_burst_is_not_gated (self : ModelWorker)
  (limit_model_concurrency : Z) (reqs : list (string * dict)) :
  length (running (burst (Some self) reqs (initial_server limit_model_concurrency)))
    = length reqs /\
  permits_in_use limit_model_concurrency
    (world (burst (Some self) reqs (initial_server limit_model_concurrency))) = 0 /\
  get_queue_length limit_model_concurrency
    (world (burst (Some self) reqs (initial_server limit_model_concurrency))) = 0.
Proof.
  destruct (burst_from self reqs (initial_server limit_model_concurrency)) as [Hw Hr].
  rewrite Hw, Hr. unfold permits_in_use, get_queue_length. simpl.
  repeat split; lia.
Qed.

(** With a bound worker and capacity one, two submissions give two
    simultaneous runs. *)
Example two_runs_with_capacity_one :
  length (running (burst (Some (init sample_models "cuda" false false))
                     [("job-a", [("image", VStr "aGVsbG8=")]);
                      ("job-b", [("image", VStr "aGVsbG8=")])]
                     (initial_server 1))) = 2%nat.
Proof. reflexivity. Qed.

(** A run that ends gives no permit back either: the counter is the same
    before and after any thread leaves [generate]. *)
Lemma thread_exit_keeps_gate (ext : Externals) (worker : option ModelWorker)
  (i : nat) (s : Server) :
  sem_value (world (thread_exit ext worker i s)) = sem_value (world s).
Proof.
  unfold thread_exit.
  destruct worker as [self|]; [|reflexivity].
  destruct (nth_error (running s) i) as [[uid params]|]; [|reflexivity].
  simpl. apply keeps_gate_generate.
Qed.

(** ** The parts of a run *)

Lemma generate_run_spec (ext : Externals) (self : ModelWorker) (uid : string)
  (params : dict) (w : World) :
  generate_run ext self uid params w (generate ext self uid params w).
Proof.
  unfold generate, bind.
  destruct (outcome (input_stage ext self _ params w)) as [[p1 pu]|e] eqn:E1.
  - destruct (outcome (shape_stage ext self _ p1 pu _)) as [[p2 mesh]|e] eqn:E2.
    + destruct (outcome (texture_stage ext self _ p2 mesh _)) as [mesh'|e] eqn:E3.
      * cbn [outcome final calls].
        now apply (run_export ext self uid params w p1 pu p2 mesh mesh').
      * cbn [outcome final calls].
        now apply (run_texture_raises ext self uid params w p1 pu p2 mesh e).
    + cbn [outcome final calls].
      now apply (run_shape_raises ext self uid params w p1 pu e).
  - now apply run_input_raises.
Qed.

Lemma bind_Ok_inv {A B} (m : M A) (k : A -> M B) (w : World) (b : B) :
  outcome (bind m k w) = Ok b ->
  exists a, outcome (m w) = Ok a /\ outcome (k a (final (m w))) = Ok b.
Proof.
  unfold bind. destruct (outcome (m w)) as [a|e]; simpl; intros H.
  - now exists a.
  - discriminate.
Qed.

(** *** Which calls a part can make *)

Lemma only_ret {A} (P : event -> bool) (a : A) : only P (ret a).
Proof. intros w. constructor. Qed.

Lemma only_raise {A} (P : event -> bool) (e : exn) : only P (@raise A e).
Proof. intros w. constructor. Qed.

Lemma only_lift {A} (P : event -> bool) (r : result A) : only P (lift r).
Proof. intros w. constructor. Qed.

Lemma only_write_file (P : event -> bool) (path : string) (bs : bytes) :
  only P (write_file path bs).
Proof. intros w. constructor. Qed.

Lemma only_call {A} (P : event -> bool) (ev : event) (r : result A) :
  P ev = true -> only P (call ev r).
Proof. intros H w. simpl. now repeat constructor. Qed.

Lemma only_bind {A B} (P : event -> bool) (m : M A) (k : A -> M B) :
  only P m -> (forall a, only P (k a)) -> only P (bind m k).
Proof.
  intros Hm Hk w. unfold bind.
  destruct (outcome (m w)) as [a|e]; simpl.
  - apply Forall_app. split; [apply Hm | apply Hk].
  - apply Hm.
Qed.

Create HintDb calls.
#[local] Hint Resolve only_ret only_raise only_lift only_write_file : calls.

Ltac only_step :=
  match goal with
  | |- only _ (bind _ _) => apply only_bind; [|intros ?]
  | |- only _ (call _ _) => apply only_call; reflexivity
  | |- only _ (if ?b then _ else _) => destruct b
  | |- only _ (match ?x with _ => _ end) => destruct x
  | |- only _ _ => solve [auto with calls]
  end.

Section StageCalls.

Variable ext : Externals.
Variable self : ModelWorker.

Lemma only_load_views (imgs : pyval) (vs : list string) (images : dict) :
  only is_input_call (load_views ext self imgs vs images).
Proof.
  revert images. induction vs as [|view vs IH]; intros images; simpl.
  - auto with calls.
  - repeat only_step.
Qed.

Lemma only_input_stage (is_multiview : pyval) (params : dict) :
  only is_input_call (input_stage ext self is_multiview params).
Proof.
  unfold input_stage.
  destruct (truthy is_multiview).
  - apply only_bind.
    + destruct (dict_get "images" params).
      * apply only_bind; [apply only_load_views | intros; auto with calls].
      * auto with calls.
    + intros p. repeat only_step.
  - repeat only_step.
Qed.

Lemma only_shape_stage (is_multiview : pyval) (params : dict)
  (p : bool * (dict -> result pyval)) :
  only is_shape_call (shape_stage ext self is_multiview params p).
Proof. unfold shape_stage. repeat only_step. Qed.

Lemma only_texture_stage (is_multiview : pyval) (params : dict) (mesh : pyval) :
  only is_postprocess_call (texture_stage ext self is_multiview params mesh).
Proof. unfold texture_stage. repeat only_step. Qed.

Lemma only_export_stage (uid : string) (params : dict) (mesh : pyval) :
  only is_export_call (export_stage ext uid params mesh).
Proof. unfold export_stage. repeat only_step. Qed.

End StageCalls.

(** Calls of one kind leave nothing when another kind is filtered. *)
Lemma filter_other_kind (P Q : event -> bool) (evs : list event) :
  (forall ev, P ev = true -> Q ev = false) ->
  Forall (fun ev => P ev = true) evs -> filter Q evs = [].
Proof.
  intros Hpq H. induction H as [|ev evs Hev _ IH]; simpl.
  - reflexivity.
  - now rewrite (Hpq ev Hev).
Qed.

Lemma steps_of_app (evs evs' : list event) :
  steps_of (evs ++ evs') = (steps_of evs ++ steps_of evs')%list.
Proof.
  induction evs as [|ev evs IH]; simpl.
  - reflexivity.
  - destruct (step_of ev); simpl; now rewrite IH.
Qed.

Lemma steps_of_other_kind (P : event -> bool) (evs : list event) :
  (forall ev, P ev = true -> step_of ev = None) ->
  Forall (fun ev => P ev = true) evs -> steps_of evs = [].
Proof.
  intros Hp H. induction H as [|ev evs Hev _ IH]; simpl.
  - reflexivity.
  - now rewrite (Hp ev Hev).
Qed.

Lemma input_call_no_step (ev : event) : is_input_call ev = true -> step_of ev = None.
Proof. now destruct ev. Qed.

Lemma shape_call_no_step (ev : event) : is_shape_call ev = true -> step_of ev = None.
Proof. now destruct ev. Qed.

Lemma export_call_no_step (ev : event) : is_export_call ev = true -> step_of ev = None.
Proof. now destruct ev. Qed.

Lemma input_call_not_adapter (ev : event) :
  is_input_call ev = true -> is_adapter_call ev = false.
Proof. now destruct ev. Qed.

Lemma postprocess_call_not_adapter (ev : event) :
  is_postprocess_call ev = true -> is_adapter_call ev = false.
Proof. now destruct ev. Qed.

Lemma export_call_not_adapter (ev : event) :
  is_export_call ev = true -> is_adapter_call ev = false.
Proof. now destruct ev. Qed.

Lemma input_call_not_seed (ev : event) :
  is_input_call ev = true -> is_seed_call ev = false.
Proof. now destruct ev. Qed.

Lemma postprocess_call_not_seed (ev : event) :
  is_postprocess_call ev = true -> is_seed_call ev = false.
Proof. now destruct ev. Qed.

Lemma export_call_not_seed (ev : event) :
  is_export_call ev = true -> is_seed_call ev = false.
Proof. now destruct ev. Qed.

(** *** What the parts do to [params] *)

Section StageParams.

Variable ext : Externals.
Variable self : ModelWorker.

(** The input part assigns [params['image']] and nothing else, and hands on
    the pipeline of the mode. *)
Lemma input_stage_Ok (is_multiview : pyval) (params p1 : dict)
  (pu : bool * (dict -> result pyval)) (w : World) :
  outcome (input_stage ext self is_multiview params w) = Ok (p1, pu) ->
  (forall k, k <> "image" -> dict_get k p1 = dict_get k params) /\
  fst pu = truthy is_multiview /\
  (if truthy is_multiview then pipeline_mv self = Some (snd pu)
   else snd pu = pipeline self).
Proof.
  unfold input_stage. destruct (truthy is_multiview); intros H.
  - apply bind_Ok_inv in H. destruct H as (p & Hp & H).
    destruct (pipeline_mv self) as [mv|]; [|discriminate].
    injection H as <- <-.
    destruct (dict_get "images" params) as [imgs|]; [|discriminate].
    apply bind_Ok_inv in Hp. destruct Hp as (images & _ & Hp).
    injection Hp as <-.
    repeat split. intros k Hk. apply dict_get_set_other. congruence.
  - apply bind_Ok_inv in H. destruct H as (p & Hp & H).
    injection H as <- <-.
    destruct (dict_get "image" params) as [image|].
    + apply bind_Ok_inv in Hp. destruct Hp as (img & _ & Hp).
      apply bind_Ok_inv in Hp. destruct Hp as (img' & _ & Hp).
      injection Hp as <-.
      repeat split. intros k Hk. apply dict_get_set_other. congruence.
    + destruct (dict_get "text" params); discriminate.
Qed.

Lemma with_defaults_other (is_multiview : pyval) (params : dict) (k : string) :
  ~ In k shape_keys ->
  dict_get k (with_defaults is_multiview params) = dict_get k params.
Proof.
  unfold shape_keys. simpl. intros Hk. unfold with_defaults.
  destruct (truthy is_multiview);
    repeat (rewrite dict_get_set_other; [|intros E; apply Hk; rewrite <- E; auto 10]);
    reflexivity.
Qed.

(** The shape part leaves every key outside [shape_keys] as it was. *)
Lemma shape_stage_Ok (is_multiview : pyval) (p1 p2 : dict)
  (pu : bool * (dict -> result pyval)) (mesh : pyval) (w : World) (k : string) :
  outcome (shape_stage ext self is_multiview p1 pu w) = Ok (p2, mesh) ->
  ~ In k shape_keys ->
  dict_get k p2 = dict_get k p1.
Proof.
  unfold shape_stage. intros H Hk.
  destruct (dict_get "mesh" p1) as [m|].
  - apply bind_Ok_inv in H. destruct H as (mesh0 & _ & H).
    now injection H as <- <-.
  - apply bind_Ok_inv in H. destruct H as (gen & _ & H).
    apply bind_Ok_inv in H. destruct H as (mesh0 & _ & H).
    injection H as <- <-.
    rewrite with_defaults_other by assumption.
    apply dict_get_set_other. intros <-. apply Hk. simpl. auto.
Qed.

(** With a [mesh] in the request the shape part decodes it and calls
    nothing else. *)
Lemma shape_stage_mesh (is_multiview : pyval) (p1 : dict)
  (pu : bool * (dict -> result pyval)) (m : pyval) (w : World) :
  dict_get "mesh" p1 = Some m ->
  shape_stage ext self is_multiview p1 pu w =
    mkRun (match trimesh_load_glb ext m with
           | Ok mesh => Ok (p1, mesh)
           | Raise e => Raise e
           end) w [EvTrimeshLoadGlb m].
Proof.
  intros Hm. unfold shape_stage, bind, call, ret. rewrite Hm. simpl.
  now destruct (trimesh_load_glb ext m).
Qed.

(** Without one it seeds the generator, fills in the defaults and runs the
    pipeline once. *)
Lemma shape_stage_no_mesh (is_multiview : pyval) (p1 : dict)
  (pu : bool * (dict -> result pyval)) (w : World) :
  dict_get "mesh" p1 = None ->
  let seed := dict_get_default "seed" (VInt 1234) p1 in
  calls (shape_stage ext self is_multiview p1 pu w) =
    EvManualSeed (device self) seed ::
    match manual_seed ext (device self) seed with
    | Ok gen =>
        [EvPipeline (fst pu) (with_defaults is_multiview (dict_set "generator" gen p1))]
    | Raise _ => []
    end.
Proof.
  intros Hm. unfold shape_stage, bind, call, ret. rewrite Hm. simpl.
  destruct (manual_seed ext (device self) _) as [gen|e]; simpl; [|reflexivity].
  now destruct (snd pu _).
Qed.

End StageParams.

(** *** The defaults of the two modes *)

Lemma with_defaults_guidance_scale (is_multiview : pyval) (params : dict) :
  dict_get "guidance_scale" (with_defaults is_multiview params) =
    Some (dict_get_default "guidance_scale" (VFloat 5%float) params).
Proof.
  unfold with_defaults. rewrite dict_get_set_same. f_equal.
  destruct (truthy is_multiview);
    now rewrite !dict_get_default_set_other by discriminate.
Qed.

Lemma with_defaults_octree_resolution (is_multiview : pyval) (params : dict) :
  dict_get "octree_resolution" (with_defaults is_multiview params) =
    Some (dict_get_default "octree_resolution"
            (VInt (if truthy is_multiview then 380 else 128)) params).
Proof.
  unfold with_defaults.
  destruct (truthy is_multiview);
    rewrite !dict_get_set_other by discriminate; apply dict_get_set_same.
Qed.

Lemma with_defaults_num_inference_steps (is_multiview : pyval) (params : dict) :
  dict_get "num_inference_steps" (with_defaults is_multiview params) =
    Some (dict_get_default "num_inference_steps"
            (VInt (if truthy is_multiview then 50 else 5)) params).
Proof.
  unfold with_defaults.
  destruct (truthy is_multiview);
    rewrite !dict_get_set_other by discriminate;
    rewrite dict_get_set_same;
    now rewrite !dict_get_default_set_other by discriminate.
Qed.

Lemma with_defaults_num_chunks (is_multiview : pyval) (params : dict) :
  truthy is_multiview = true ->
  dict_get "num_chunks" (with_defaults is_multiview params) =
    Some (dict_get_default "num_chunks" (VInt 20000) params).
Proof.
  intros Hmv. unfold with_defaults. rewrite Hmv.
  rewrite !dict_get_set_other by discriminate.
  rewrite dict_get_set_same.
  now rewrite !dict_get_default_set_other by discriminate.
Qed.

(** *** Post-processing *)

Section Texture.

Variable ext : Externals.
Variable self : ModelWorker.

Lemma texture_stage_off (is_multiview : pyval) (params : dict) (mesh : pyval)
  (w : World) :
  truthy (dict_get_default "texture" (VBool false) params) = false ->
  texture_stage ext self is_multiview params mesh w = mkRun (Ok mesh) w [].
Proof. intros H. unfold texture_stage. now rewrite H. Qed.

(** Whatever happens in it, post-processing runs an initial part of the
    fixed sequence: a step is never reached before the steps ahead of it. *)
Lemma texture_stage_steps (is_multiview : pyval) (params : dict) (mesh : pyval)
  (w : World) :
  exists n,
    steps_of (calls (texture_stage ext self is_multiview params mesh w)) =
      firstn n fixed_order.
Proof.
  unfold texture_stage, bind, call, lift, ret, raise.
  destruct (truthy (dict_get_default "texture" (VBool false) params));
    [|now exists 0%nat].
  cbn [outcome final calls].
  destruct (FloaterRemover ext mesh) as [m1|]; [|now exists 1%nat].
  cbn [outcome final calls].
  destruct (DegenerateFaceRemover ext m1) as [m2|]; [|now exists 2%nat].
  cbn [outcome final calls].
  destruct (FaceReducer ext m2 _) as [m3|]; [|now exists 3%nat].
  cbn [outcome final calls].
  destruct (truthy is_multiview); cbn [outcome final calls].
  - destruct (py_getitem "image" (VDict params)) as [image|];
      cbn [outcome final calls]; [|now exists 3%nat].
    destruct (py_getitem "front" image) as [img|];
      cbn [outcome final calls]; [|now exists 3%nat].
    destruct (pipeline_tex self) as [tex|]; [now exists 4%nat | now exists 3%nat].
  - destruct (py_getitem "image" (VDict params)) as [img|];
      cbn [outcome final calls]; [|now exists 3%nat].
    destruct (pipeline_tex self) as [tex|]; [now exists 4%nat | now exists 3%nat].
Qed.

(** Post-processing that returns has run the four steps, each on the mesh
    the step before it returned. *)
Lemma texture_stage_Ok (is_multiview : pyval) (params : dict) (mesh mesh' : pyval)
  (w : World) :
  truthy (dict_get_default "texture" (VBool false) params) = true ->
  outcome (texture_stage ext self is_multiview params mesh w) = Ok mesh' ->
  exists m1 m2 m3 img tex,
    FloaterRemover ext mesh = Ok m1 /\
    DegenerateFaceRemover ext m1 = Ok m2 /\
    FaceReducer ext m2 (dict_get_default "face_count" (VInt 40000) params) = Ok m3 /\
    pipeline_tex self = Some tex /\
    tex m3 img = Ok mesh' /\
    calls (texture_stage ext self is_multiview params mesh w) =
      [EvFloaterRemover mesh; EvDegenerateFaceRemover m1;
       EvFaceReducer m2 (dict_get_default "face_count" (VInt 40000) params);
       EvPipelineTex m3 img].
Proof.
  intros Htex. unfold texture_stage, bind, call, lift, ret, raise. rewrite Htex.
  cbn [outcome final calls].
  destruct (FloaterRemover ext mesh) as [m1|] eqn:E1; [|discriminate].
  cbn [outcome final calls].
  destruct (DegenerateFaceRemover ext m1) as [m2|] eqn:E2; [|discriminate].
  cbn [outcome final calls].
  destruct (FaceReducer ext m2 _) as [m3|] eqn:E3; [|discriminate].
  cbn [outcome final calls].
  destruct (truthy is_multiview); cbn [outcome final calls].
  - destruct (py_getitem "image" (VDict params)) as [image|];
      cbn [outcome final calls]; [|discriminate].
    destruct (py_getitem "front" image) as [img|];
      cbn [outcome final calls]; [|discriminate].
    destruct (pipeline_tex self) as [tex|] eqn:E4; [|discriminate].
    cbn [outcome final calls]. intros H.
    exists m1, m2, m3, img, tex. now repeat split.
  - destruct (py_getitem "image" (VDict params)) as [img|];
      cbn [outcome final calls]; [|discriminate].
    destruct (pipeline_tex self) as [tex|] eqn:E4; [|discriminate].
    cbn [outcome final calls]. intros H.
    exists m1, m2, m3, img, tex. now repeat split.
Qed.

End Texture.

Lemma no_step_not_postprocess (ev : event) :
  step_of ev = None -> is_postprocess_call ev = false.
Proof. unfold is_postprocess_call. now intros ->. Qed.

Lemma input_call_not_postprocess (ev : event) :
  is_input_call ev = true -> is_postprocess_call ev = false.
Proof. intros H. now apply no_step_not_postprocess, input_call_no_step. Qed.

Lemma shape_call_not_postprocess (ev : event) :
  is_shape_call ev = true -> is_postprocess_call ev = false.
Proof. intros H. now apply no_step_not_postprocess, shape_call_no_step. Qed.

Lemma export_call_not_postprocess (ev : event) :
  is_export_call ev = true -> is_postprocess_call ev = false.
Proof. intros H. now apply no_step_not_postprocess, export_call_no_step. Qed.

(** The steps of a whole run are the steps of its post-processing part. *)
Lemma steps_of_run (ext : Externals) (self : ModelWorker) (uid : string)
  (params : dict) (w : World) :
  exists n, steps_of (calls (generate ext self uid params w)) = firstn n fixed_order.
Proof.
  destruct (generate_run_spec ext self uid params w) as
    [e is_mv r1 E1 | p1 pu e is_mv r1 r2 E1 E2
     | p1 pu p2 mesh e is_mv r1 r2 r3 E1 E2 E3
     | p1 pu p2 mesh mesh' is_mv r1 r2 r3 r4 E1 E2 E3];
    cbn [calls]; rewrite ?steps_of_app.
  - exists 0%nat.
    apply (steps_of_other_kind is_input_call); [apply input_call_no_step|].
    apply only_input_stage.
  - exists 0%nat.
    rewrite (steps_of_other_kind is_input_call (calls r1));
      [|apply input_call_no_step | apply only_input_stage].
    apply (steps_of_other_kind is_shape_call); [apply shape_call_no_step|].
    apply only_shape_stage.
  - rewrite (steps_of_other_kind is_input_call (calls r1));
      [|apply input_call_no_step | apply only_input_stage].
    rewrite (steps_of_other_kind is_shape_call (calls r2));
      [|apply shape_call_no_step | apply only_shape_stage].
    apply texture_stage_steps.
  - rewrite (steps_of_other_kind is_input_call (calls r1));
      [|apply input_call_no_step | apply only_input_stage].
    rewrite (steps_of_other_kind is_shape_call (calls r2));
      [|apply shape_call_no_step | apply only_shape_stage].
    rewrite (steps_of_other_kind is_export_call (calls r4));
      [|apply export_call_no_step | apply only_export_stage].
    cbn [app]. rewrite app_nil_r. apply texture_stage_steps.
Qed.

(** A run that returns with texture requested went through the four steps
    and had a texture pipeline to call. *)
Lemma textured_run_returns (ext : Externals) (self : ModelWorker)
  (uid : string) (params : dict) (w : World) (res : string * string) :
  truthy (dict_get_default "texture" (VBool false) params) = true ->
  outcome (generate ext self uid params w) = Ok res ->
  exists m0 m1 m2 m3 max_facenum img tex,
    postprocess_calls (calls (generate ext self uid params w)) =
      [EvFloaterRemover m0; EvDegenerateFaceRemover m1;
       EvFaceReducer m2 max_facenum; EvPipelineTex m3 img] /\
    FloaterRemover ext m0 = Ok m1 /\
    DegenerateFaceRemover ext m1 = Ok m2 /\
    FaceReducer ext m2 max_facenum = Ok m3 /\
    pipeline_tex self = Some tex.
Proof.
  intros Htex.
  destruct (generate_run_spec ext self uid params w) as
    [e is_mv r1 E1 | p1 pu e is_mv r1 r2 E1 E2
     | p1 pu p2 mesh e is_mv r1 r2 r3 E1 E2 E3
     | p1 pu p2 mesh mesh' is_mv r1 r2 r3 r4 E1 E2 E3];
    cbn [outcome calls]; try discriminate.
  intros _.
  assert (Htex2 : truthy (dict_get_default "texture" (VBool false) p2) = true).
  { unfold dict_get_default.
    rewrite (shape_stage_Ok ext self is_mv p1 p2 pu mesh (final r1) "texture" E2)
      by (unfold shape_keys; simpl; intuition discriminate).
    destruct (input_stage_Ok ext self is_mv params p1 pu w E1) as (Hk & _).
    rewrite Hk by discriminate. exact Htex. }
  destruct (texture_stage_Ok ext self is_mv p2 mesh mesh' (final r2) Htex2 E3)
    as (m1 & m2 & m3 & img & tex & F1 & F2 & F3 & F4 & _ & Hc).
  exists mesh, m1, m2, m3, (dict_get_default "face_count" (VInt 40000) p2), img, tex.
  repeat split; try assumption.
  unfold postprocess_calls. rewrite !filter_app.
  rewrite (filter_other_kind is_input_call is_postprocess_call (calls r1));
    [|apply input_call_not_postprocess | apply only_input_stage].
  rewrite (filter_other_kind is_shape_call is_postprocess_call (calls r2));
    [|apply shape_call_not_postprocess | apply only_shape_stage].
  rewrite (filter_other_kind is_export_call is_postprocess_call (calls r4));
    [|apply export_call_not_postprocess | apply only_export_stage].
  fold r3 in Hc. rewrite Hc. reflexivity.
Qed.

(** C7. In every run of [generate] the post-processing steps that are
    reached form an initial part of floater removal, degenerate-face
    removal, face reduction, texturing: none is reordered. When texture is
    requested and the run returns, the four steps have all run, once each
    and in that order, every step on the mesh its predecessor returned. *)
Theorem C7_postprocessing_order (ext : Externals) (self : ModelWorker)
  (uid : string) (params : dict) (w : World) :
  (exists n,
     steps_of (calls (generate ext self uid params w)) = firstn n fixed_order) /\
  (truthy (dict_get_default "texture" (VBool false) params) = true ->
   forall res, outcome (generate ext self uid params w) = Ok res ->
   exists m0 m1 m2 m3 max_facenum img,
     postprocess_calls (calls (generate ext self uid params w)) =
       [EvFloaterRemover m0; EvDegenerateFaceRemover m1;
        EvFaceReducer m2 max_facenum; EvPipelineTex m3 img] /\
     FloaterRemover ext m0 = Ok m1 /\
     DegenerateFaceRemover ext m1 = Ok m2 /\
     FaceReducer ext m2 max_facenum = Ok m3).
Proof.
  split; [apply steps_of_run|].
  intros Htex res Hres.
  destruct (textured_run_returns ext self uid params w res Htex Hres)
    as (m0 & m1 & m2 & m3 & fc & img & tex & Hc & F1 & F2 & F3 & _).
  exists m0, m1, m2, m3, fc, img. now repeat split.
Qed.

(** A textured run on the sample collaborators: the four steps, in order. *)
Lemma C7_textured_run :
  exists m0 m1 m2 m3 max_facenum img,
    postprocess_calls
      (calls (generate sample_ext (init sample_models "cuda" true false) "job"
                [("image", VStr "aGVsbG8="); ("texture", VBool true)]
                (initial_world 5))) =
      [EvFloaterRemover m0; EvDegenerateFaceRemover m1;
       EvFaceReducer m2 max_facenum; EvPipelineTex m3 img] /\
    FloaterRemover sample_ext m0 = Ok m1 /\
    DegenerateFaceRemover sample_ext m1 = Ok m2 /\
    FaceReducer sample_ext m2 max_facenum = Ok m3.
Proof.
  exact (proj2 (C7_postprocessing_order sample_ext
                  (init sample_models "cuda" true false) "job"
                  [("image", VStr "aGVsbG8="); ("texture", VBool true)]
                  (initial_world 5))
               eq_refl ("gradio_cache/job.glb", "job") eq_refl).
Defined.

(** *** A run, part by part *)

Section RunParts.

Variable ext : Externals.
Variable self : ModelWorker.
Variable uid : string.
Variable params : dict.
Variable w : World.

(** A run whose input part raises makes the calls of that part only. *)
Lemma generate_input_raises (e : exn) :
  outcome (input_stage ext self
             (dict_get_default "multiview" (VBool false) params) params w) = Raise e ->
  generate ext self uid params w =
    mkRun (Raise e)
      (final (input_stage ext self
                (dict_get_default "multiview" (VBool false) params) params w))
      (calls (input_stage ext self
                (dict_get_default "multiview" (VBool false) params) params w)).
Proof. intros E. unfold generate. now apply bind_raise. Qed.

(** A run whose input part returns goes on with the shape part, then with
    post-processing calls, then with export calls. *)
Lemma generate_input_returns (p1 : dict) (pu : bool * (dict -> result pyval)) :
  outcome (input_stage ext self
             (dict_get_default "multiview" (VBool false) params) params w)
    = Ok (p1, pu) ->
  exists c3 c4,
    calls (generate ext self uid params w) =
      (calls (input_stage ext self
                (dict_get_default "multiview" (VBool false) params) params w) ++
       calls (shape_stage ext self
                (dict_get_default "multiview" (VBool false) params) p1 pu
                (final (input_stage ext self
                          (dict_get_default "multiview" (VBool false) params)
                          params w))) ++
       c3 ++ c4)%list /\
    Forall (fun ev => is_postprocess_call ev = true) c3 /\
    Forall (fun ev => is_export_call ev = true) c4.
Proof.
  intros E.
  destruct (generate_run_spec ext self uid params w) as
    [e is_mv r1 E1 | p1' pu' e is_mv r1 r2 E1 E2
     | p1' pu' p2 mesh e is_mv r1 r2 r3 E1 E2 E3
     | p1' pu' p2 mesh mesh' is_mv r1 r2 r3 r4 E1 E2 E3];
    cbn [calls].
  - unfold r1, is_mv in E1. congruence.
  - assert (Heq : (p1', pu') = (p1, pu)) by (unfold r1, is_mv in E1; congruence).
    injection Heq as -> ->.
    exists [], []. rewrite app_nil_r. repeat split; constructor.
  - assert (Heq : (p1', pu') = (p1, pu)) by (unfold r1, is_mv in E1; congruence).
    injection Heq as -> ->.
    exists (calls r3), []. rewrite app_nil_r. repeat split.
    + apply only_texture_stage.
    + constructor.
  - assert (Heq : (p1', pu') = (p1, pu)) by (unfold r1, is_mv in E1; congruence).
    injection Heq as -> ->.
    exists (calls r3), (calls r4). repeat split.
    + apply only_texture_stage.
    + apply only_export_stage.
Qed.

End RunParts.

(** ** The parameter normaliser *)

(** C5. A request that the input part accepts, with no [mesh] field and a
    seed the generator takes, reaches the Model Pipeline Adapter exactly
    once, with the pipeline of its mode, and the arguments of that call
    carry the defaults of the mode for every key the request leaves out
    ([d.get(key, default)] of the request is the default then):
    [octree_resolution] 128 and [num_inference_steps] 5 for a single
    image; 380, 50 and [num_chunks] 20000 for multiview; [guidance_scale]
    5.0 for both. *)
Theorem C5_mode_defaults (ext : Externals) (self : ModelWorker) (uid : string)
  (params : dict) (w : World) (p1 : dict) (pu : bool * (dict -> result pyval))
  (gen : pyval) :
  outcome (input_stage ext self
             (dict_get_default "multiview" (VBool false) params) params w)
    = Ok (p1, pu) ->
  dict_get "mesh" params = None ->
  manual_seed ext (device self) (dict_get_default "seed" (VInt 1234) params) = Ok gen ->
  exists kwargs,
    adapter_calls (calls (generate ext self uid params w)) =
      [EvPipeline (truthy (dict_get_default "multiview" (VBool false) params)) kwargs] /\
    dict_get "guidance_scale" kwargs =
      Some (dict_get_default "guidance_scale" (VFloat 5%float) params) /\
    (truthy (dict_get_default "multiview" (VBool false) params) = false ->
     dict_get "octree_resolution" kwargs =
       Some (dict_get_default "octree_resolution" (VInt 128) params) /\
     dict_get "num_inference_steps" kwargs =
       Some (dict_get_default "num_inference_steps" (VInt 5) params)) /\
    (truthy (dict_get_default "multiview" (VBool false) params) = true ->
     dict_get "octree_resolution" kwargs =
       Some (dict_get_default "octree_resolution" (VInt 380) params) /\
     dict_get "num_inference_steps" kwargs =
       Some (dict_get_default "num_inference_steps" (VInt 50) params) /\
     dict_get "num_chunks" kwargs =
       Some (dict_get_default "num_chunks" (VInt 20000) params)).
Proof.
  intros E1 Hmesh Hseed.
  set (is_mv := dict_get_default "multiview" (VBool false) params) in *.
  destruct (input_stage_Ok ext self is_mv params p1 pu w E1) as (Hk & Hfst & _).
  assert (Hd : forall k dflt, k <> "image" -> k <> "generator" ->
            dict_get_default k dflt (dict_set "generator" gen p1) =
            dict_get_default k dflt params).
  { intros k dflt Hi Hg.
    rewrite dict_get_default_set_other by congruence.
    unfold dict_get_default. now rewrite Hk. }
  assert (Hmesh1 : dict_get "mesh" p1 = None) by (rewrite Hk; [assumption | discriminate]).
  destruct (generate_input_returns ext self uid params w p1 pu E1)
    as (c3 & c4 & Hc & F3 & F4).
  fold is_mv in Hc.
  exists (with_defaults is_mv (dict_set "generator" gen p1)).
  split; [|split; [|split]].
  - rewrite Hc. unfold adapter_calls. rewrite !filter_app.
    rewrite (filter_other_kind is_input_call is_adapter_call);
      [|apply input_call_not_adapter | apply only_input_stage].
    rewrite (filter_other_kind is_postprocess_call is_adapter_call c3);
      [|apply postprocess_call_not_adapter | assumption].
    rewrite (filter_other_kind is_export_call is_adapter_call c4);
      [|apply export_call_not_adapter | assumption].
    rewrite (shape_stage_no_mesh ext self is_mv p1 pu _ Hmesh1).
    replace (dict_get_default "seed" (VInt 1234) p1)
      with (dict_get_default "seed" (VInt 1234) params)
      by (unfold dict_get_default; now rewrite Hk).
    rewrite Hseed, Hfst. reflexivity.
  - rewrite with_defaults_guidance_scale. now rewrite Hd.
  - intros Hmv. rewrite with_defaults_octree_resolution,
      with_defaults_num_inference_steps, Hmv. now rewrite !Hd.
  - intros Hmv. rewrite with_defaults_octree_resolution,
      with_defaults_num_inference_steps, (with_defaults_num_chunks _ _ Hmv), Hmv.
    now rewrite !Hd.
Qed.

(** A single-image request with nothing but the image. *)
Lemma C5_single_image_run :
  exists kwargs,
    adapter_calls
      (calls (generate sample_ext (init sample_models "cuda" false false) "job"
                [("image", VStr "aGVsbG8=")] (initial_world 5))) =
      [EvPipeline false kwargs] /\
    dict_get "guidance_scale" kwargs = Some (VFloat 5%float) /\
    dict_get "octree_resolution" kwargs = Some (VInt 128) /\
    dict_get "num_inference_steps" kwargs = Some (VInt 5).
Proof.
  destruct (C5_mode_defaults sample_ext (init sample_models "cuda" false false) "job"
              [("image", VStr "aGVsbG8=")] (initial_world 5)
              [("image", VImage 2)]
              (false, shape_pipeline sample_models) (VOpaque 7)
              eq_refl eq_refl eq_refl)
    as (kwargs & Hc & Hg & Hs & _).
  exists kwargs. destruct (Hs eq_refl) as [Ho Hn].
  repeat split; assumption.
Defined.

(** A multiview request with nothing but the three views. *)
Example multiview_defaults_run :
  adapter_calls
    (calls (generate sample_ext (init sample_models "cuda" false true) "job"
              [("multiview", VBool true);
               ("images", VDict [("front", VStr "Zg=="); ("left", VStr "bA==");
                                 ("back", VStr "Yg==")])]
              (initial_world 5))) =
    [EvPipeline true
       [("multiview", VBool true);
        ("images", VDict [("front", VStr "Zg=="); ("left", VStr "bA==");
                          ("back", VStr "Yg==")]);
        ("image", VDict [("front", VImage 2); ("left", VImage 2);
                         ("back", VImage 2)]);
        ("generator", VOpaque 7);
        ("octree_resolution", VInt 380);
        ("num_inference_steps", VInt 50);
        ("num_chunks", VInt 20000);
        ("guidance_scale", VFloat 5%float)]].
Proof. reflexivity. Qed.

(** ** A request that brings its own mesh *)

Lemma texture_stage_first (ext : Externals) (self : ModelWorker)
  (is_multiview : pyval) (params : dict) (mesh : pyval) (w : World) :
  truthy (dict_get_default "texture" (VBool false) params) = true ->
  exists rest,
    calls (texture_stage ext self is_multiview params mesh w) =
      EvFloaterRemover mesh :: rest.
Proof.
  intros Htex. unfold texture_stage. rewrite Htex.
  destruct (calls_bind_prefix (call (EvFloaterRemover mesh) (FloaterRemover ext mesh))
              (fun mesh0 =>
                 mesh1 <- call (EvDegenerateFaceRemover mesh0)
                            (DegenerateFaceRemover ext mesh0) ;;
                 mesh2 <- call (EvFaceReducer mesh1
                                  (dict_get_default "face_count" (VInt 40000) params))
                            (FaceReducer ext mesh1
                               (dict_get_default "face_count" (VInt 40000) params)) ;;
                 texture_image <-
                   (if truthy is_multiview then
                      image <- lift (py_getitem "image" (VDict params)) ;;
                      lift (py_getitem "front" image)
                    else lift (py_getitem "image" (VDict params))) ;;
                 match pipeline_tex self with
                 | None => raise (no_attribute "pipeline_tex")
                 | Some tex => call (EvPipelineTex mesh2 texture_image)
                                 (tex mesh2 texture_image)
                 end) w) as [rest Hrest].
  exists rest. exact Hrest.
Qed.

(** The mesh-only body of the scenario: rejected by the input part. *)
Lemma generate_without_input (ext : Externals) (self : ModelWorker) (uid : string)
  (params : dict) (w : World) :
  truthy (dict_get_default "multiview" (VBool false) params) = false ->
  dict_get "image" params = None ->
  dict_get "text" params = None ->
  generate ext self uid params w =
    mkRun (Raise (ValueError "No input image or text provided")) w [].
Proof.
  intros Hmv Hi Ht.
  rewrite (generate_input_raises ext self uid params w
             (ValueError "No input image or text provided"));
    unfold input_stage, bind, raise; now rewrite Hmv, Hi, Ht.
Qed.

(** The export asks for the temporary file first, and the mesh it is
    given is the one it writes there. *)
Lemma export_stage_first (ext : Externals) (uid : string) (params : dict)
  (mesh : pyval) (w : World) :
  exists rest,
    calls (export_stage ext uid params mesh w) =
      EvTempFile (temp_suffix ext params) :: rest /\
    (forall tmp, NamedTemporaryFile ext (temp_suffix ext params) = Ok tmp ->
       exists rest', rest = EvExport mesh tmp :: rest').
Proof.
  unfold export_stage. cbv zeta.
  fold (save_path_of ext uid params). fold (temp_suffix ext params).
  destruct (NamedTemporaryFile ext (temp_suffix ext params)) as [tmp|] eqn:Et.
  2:{ rewrite bind_call_Raise. exists []. split; [reflexivity | discriminate]. }
  run_step. run_step.
  destruct (mesh_export ext mesh tmp) as [bs|].
  - run_step. eexists. split; [reflexivity|].
    intros tmp' H. injection H as <-. eexists. reflexivity.
  - rewrite bind_call_Raise. eexists. split; [reflexivity|].
    intros tmp' H. injection H as <-. eexists. reflexivity.
Qed.

(** A run with a mesh that decodes, once the input part has accepted the
    request: the calls of the input part, the decoding, and then
    post-processing and export on the decoded mesh. *)
Lemma generate_with_mesh (ext : Externals) (self : ModelWorker) (uid : string)
  (params : dict) (w : World) (m mesh : pyval) (p1 : dict)
  (pu : bool * (dict -> result pyval)) :
  dict_get "mesh" params = Some m ->
  outcome (input_stage ext self
             (dict_get_default "multiview" (VBool false) params) params w)
    = Ok (p1, pu) ->
  trimesh_load_glb ext m = Ok mesh ->
  calls (generate ext self uid params w) =
    (calls (input_stage ext self
              (dict_get_default "multiview" (VBool false) params) params w) ++
     EvTrimeshLoadGlb m ::
     calls (bind (texture_stage ext self
                    (dict_get_default "multiview" (VBool false) params) p1 mesh)
                 (fun mesh' => export_stage ext uid p1 mesh')
                 (final (input_stage ext self
                           (dict_get_default "multiview" (VBool false) params)
                           params w))))%list.
Proof.
  intros Hm E1 Hload.
  set (is_mv := dict_get_default "multiview" (VBool false) params) in *.
  destruct (input_stage_Ok ext self is_mv params p1 pu w E1) as (Hk & _).
  unfold generate. fold is_mv.
  rewrite (bind_ok (input_stage ext self is_mv params) _ w (p1, pu) E1).
  cbn [calls].
  set (w1 := final (input_stage ext self is_mv params w)).
  assert (E2 : shape_stage ext self is_mv p1 pu w1 =
               mkRun (Ok (p1, mesh)) w1 [EvTrimeshLoadGlb m]).
  { rewrite (shape_stage_mesh ext self is_mv p1 pu m)
      by (rewrite Hk; [assumption | discriminate]).
    now rewrite Hload. }
  rewrite (bind_ok (shape_stage ext self is_mv p1 pu) _ w1 (p1, mesh))
    by (now rewrite E2).
  rewrite E2. cbn [calls final app]. reflexivity.
Qed.

(** C3, as the code has it. A request with a [mesh] field never reaches the
    Model Pipeline Adapter and never seeds a generator. The input part
    still runs first: when it accepts the request and the mesh decodes, the
    decoded mesh is used as it is. If [texture] is set it is the mesh
    floater removal receives; if not, no post-processing step is called
    and it is the mesh the export writes to the temporary file, the next
    call of the run after the decoding being the one for that file. A body
    with [mesh] but neither [image] nor [text] (and no multiview flag)
    ends in [ValueError('No input image or text provided')] before any
    collaborator is called. *)
Theorem C3_mesh_bypasses_generation (ext : Externals) (self : ModelWorker)
  (uid : string) (params : dict) (w : World) (m : pyval) :
  dict_get "mesh" params = Some m ->
  adapter_calls (calls (generate ext self uid params w)) = [] /\
  seed_calls (calls (generate ext self uid params w)) = [] /\
  (forall p1 pu mesh,
     outcome (input_stage ext self
                (dict_get_default "multiview" (VBool false) params) params w)
       = Ok (p1, pu) ->
     trimesh_load_glb ext m = Ok mesh ->
     truthy (dict_get_default "texture" (VBool false) params) = true ->
     exists rest,
       calls (generate ext self uid params w) =
         (calls (input_stage ext self
                   (dict_get_default "multiview" (VBool false) params) params w) ++
          EvTrimeshLoadGlb m :: EvFloaterRemover mesh :: rest)%list) /\
  (truthy (dict_get_default "multiview" (VBool false) params) = false ->
   dict_get "image" params = None ->
   dict_get "text" params = None ->
   generate ext self uid params w =
     mkRun (Raise (ValueError "No input image or text provided")) w []) /\
  (forall p1 pu mesh,
     outcome (input_stage ext self
                (dict_get_default "multiview" (VBool false) params) params w)
       = Ok (p1, pu) ->
     trimesh_load_glb ext m = Ok mesh ->
     truthy (dict_get_default "texture" (VBool false) params) = false ->
     postprocess_calls (calls (generate ext self uid params w)) = [] /\
     exists rest,
       calls (generate ext self uid params w) =
         (calls (input_stage ext self
                   (dict_get_default "multiview" (VBool false) params) params w) ++
          EvTrimeshLoadGlb m :: EvTempFile (temp_suffix ext params) :: rest)%list /\
       (forall tmp, NamedTemporaryFile ext (temp_suffix ext params) = Ok tmp ->
          exists rest', rest = EvExport mesh tmp :: rest')).
Proof.
  intros Hm.
  set (is_mv := dict_get_default "multiview" (VBool false) params).
  assert (Hparts :
    forall Q : event -> bool,
      (forall ev, is_input_call ev = true -> Q ev = false) ->
      (forall ev, is_postprocess_call ev = true -> Q ev = false) ->
      (forall ev, is_export_call ev = true -> Q ev = false) ->
      Q (EvTrimeshLoadGlb m) = false ->
      filter Q (calls (generate ext self uid params w)) = []).
  { intros Q Qi Qp Qe Qm.
    destruct (outcome (input_stage ext self is_mv params w)) as [[p1 pu]|e] eqn:E1.
    - destruct (input_stage_Ok ext self is_mv params p1 pu w E1) as (Hk & _).
      destruct (generate_input_returns ext self uid params w p1 pu E1)
        as (c3 & c4 & Hc & F3 & F4).
      fold is_mv in Hc. rewrite Hc, !filter_app.
      rewrite (filter_other_kind is_input_call Q);
        [|assumption | apply only_input_stage].
      rewrite (filter_other_kind is_postprocess_call Q c3) by assumption.
      rewrite (filter_other_kind is_export_call Q c4) by assumption.
      rewrite (shape_stage_mesh ext self is_mv p1 pu m)
        by (rewrite Hk; [assumption | discriminate]).
      cbn [calls filter app]. now rewrite Qm.
    - rewrite (generate_input_raises ext self uid params w e E1). cbn [calls].
      apply (filter_other_kind is_input_call Q); [assumption|].
      apply only_input_stage. }
  split; [|split; [|split; [|split]]].
  - apply Hparts; auto using input_call_not_adapter, postprocess_call_not_adapter,
      export_call_not_adapter.
  - apply Hparts; auto using input_call_not_seed, postprocess_call_not_seed,
      export_call_not_seed.
  - intros p1 pu mesh E1 Hload Htex.
    destruct (input_stage_Ok ext self is_mv params p1 pu w E1) as (Hk & _).
    unfold generate. fold is_mv.
    rewrite (bind_ok (input_stage ext self is_mv params) _ w (p1, pu) E1).
    cbn [calls].
    set (w1 := final (input_stage ext self is_mv params w)).
    assert (E2 : shape_stage ext self is_mv p1 pu w1 =
                 mkRun (Ok (p1, mesh)) w1 [EvTrimeshLoadGlb m]).
    { rewrite (shape_stage_mesh ext self is_mv p1 pu m)
        by (rewrite Hk; [assumption | discriminate]).
      now rewrite Hload. }
    rewrite (bind_ok (shape_stage ext self is_mv p1 pu) _ w1 (p1, mesh))
      by (now rewrite E2).
    rewrite E2. cbn [calls final app].
    assert (Htex1 : truthy (dict_get_default "texture" (VBool false) p1) = true).
    { unfold dict_get_default. rewrite Hk by discriminate. exact Htex. }
    destruct (calls_bind_prefix (texture_stage ext self is_mv p1 mesh)
                (fun mesh' => export_stage ext uid p1 mesh') w1) as [rest Hrest].
    destruct (texture_stage_first ext self is_mv p1 mesh w1 Htex1) as [rest' Hfirst].
    rewrite Hrest, Hfirst. exists (rest' ++ rest)%list. reflexivity.
  - apply generate_without_input.
  - intros p1 pu mesh E1 Hload Htex.
    destruct (input_stage_Ok ext self is_mv params p1 pu w E1) as (Hk & _).
    assert (Htex1 : truthy (dict_get_default "texture" (VBool false) p1) = false).
    { unfold dict_get_default. rewrite Hk by discriminate. exact Htex. }
    assert (Hsfx : temp_suffix ext p1 = temp_suffix ext params).
    { unfold temp_suffix, dict_get_default. now rewrite Hk by discriminate. }
    rewrite (generate_with_mesh ext self uid params w m mesh p1 pu Hm E1 Hload).
    fold is_mv. set (w1 := final (input_stage ext self is_mv params w)).
    rewrite (bind_ok (texture_stage ext self is_mv p1 mesh) _ w1 mesh)
      by (now rewrite texture_stage_off).
    rewrite (texture_stage_off ext self is_mv p1 mesh w1 Htex1).
    cbn [calls final app].
    destruct (export_stage_first ext uid p1 mesh w1) as (rest & Hc & Hrest).
    rewrite Hsfx in Hc, Hrest. split.
    + unfold postprocess_calls. rewrite filter_app.
      rewrite (filter_other_kind is_input_call is_postprocess_call);
        [|apply input_call_not_postprocess | apply only_input_stage].
      cbn [filter is_postprocess_call step_of app].
      apply (filter_other_kind is_export_call is_postprocess_call);
        [apply export_call_not_postprocess | apply only_export_stage].
    + exists rest. rewrite Hc. split; [reflexivity | exact Hrest].
Qed.

(** The scenario of the claim, as the code runs it: the body holds [mesh]
    and [texture: true] only, the texture pipeline is loaded, and the run
    ends in the input part's [ValueError] with no call made, so the mesh
    never reaches post-processing. *)
Lemma C3_mesh_only_body_is_rejected :
  generate sample_ext (init sample_models "cuda" true false) "job"
    [("mesh", VStr "Z2xURg=="); ("texture", VBool true)] (initial_world 5) =
    mkRun (Raise (ValueError "No input image or text provided")) (initial_world 5) [].
Proof. reflexivity. Qed.

(** The texture-only pipeline: [mesh], [image] and [texture: true]; and the
    same request without [texture], whose decoded mesh goes to the export. *)
Lemma C3_texture_only_run :
  (adapter_calls
     (calls (generate sample_ext (init sample_models "cuda" true false) "job"
               [("image", VStr "aGVsbG8="); ("mesh", VStr "Z2xURg==");
                ("texture", VBool true)] (initial_world 5))) = [] /\
   exists rest,
     calls (generate sample_ext (init sample_models "cuda" true false) "job"
              [("image", VStr "aGVsbG8="); ("mesh", VStr "Z2xURg==");
               ("texture", VBool true)] (initial_world 5)) =
       ([EvLoadImage (VStr "aGVsbG8="); EvRembg (VImage 1)] ++
        EvTrimeshLoadGlb (VStr "Z2xURg==") :: EvFloaterRemover (VMesh 10) :: rest)%list) /\
  (postprocess_calls
     (calls (generate sample_ext (init sample_models "cuda" true false) "job"
               [("image", VStr "aGVsbG8="); ("mesh", VStr "Z2xURg==")]
               (initial_world 5))) = [] /\
   exists rest,
     calls (generate sample_ext (init sample_models "cuda" true false) "job"
              [("image", VStr "aGVsbG8="); ("mesh", VStr "Z2xURg==")]
              (initial_world 5)) =
       ([EvLoadImage (VStr "aGVsbG8="); EvRembg (VImage 1)] ++
        EvTrimeshLoadGlb (VStr "Z2xURg==") :: EvTempFile ".glb" :: rest)%list /\
     (forall tmp, NamedTemporaryFile sample_ext ".glb" = Ok tmp ->
        exists rest', rest = EvExport (VMesh 10) tmp :: rest')).
Proof.
  split.
  - destruct (C3_mesh_bypasses_generation sample_ext
                (init sample_models "cuda" true false) "job"
                [("image", VStr "aGVsbG8="); ("mesh", VStr "Z2xURg==");
                 ("texture", VBool true)] (initial_world 5) (VStr "Z2xURg==")
                eq_refl) as (Ha & _ & Hrun & _).
    split; [exact Ha|].
    exact (Hrun [("image", VImage 2); ("mesh", VStr "Z2xURg=="); ("texture", VBool true)]
             (false, shape_pipeline sample_models) (VMesh 10) eq_refl eq_refl eq_refl).
  - destruct (C3_mesh_bypasses_generation sample_ext
                (init sample_models "cuda" true false) "job"
                [("image", VStr "aGVsbG8="); ("mesh", VStr "Z2xURg==")]
                (initial_world 5) (VStr "Z2xURg==") eq_refl) as (_ & _ & _ & _ & Hrun).
    exact (Hrun [("image", VImage 2); ("mesh", VStr "Z2xURg==")]
             (false, shape_pipeline sample_models) (VMesh 10) eq_refl eq_refl eq_refl).
Defined.

(** The mesh of the request without [texture]: decoded, then exported as
    it is. *)
Example mesh_without_texture_run :
  generate sample_ext (init sample_models "cuda" true false) "job"
    [("image", VStr "aGVsbG8="); ("mesh", VStr "Z2xURg==")] (initial_world 5) =
    mkRun (Ok ("gradio_cache/job.glb", "job"))
      (mkWorld 5 0 [("gradio_cache/job.glb", [x67; x6c; x54; x46]%byte);
                    ("/tmp/tmpabc.glb", [x67; x6c; x54; x46]%byte);
                    ("/tmp/tmpabc.glb", [])])
      [EvLoadImage (VStr "aGVsbG8="); EvRembg (VImage 1);
       EvTrimeshLoadGlb (VStr "Z2xURg=="); EvTempFile ".glb";
       EvExport (VMesh 10) "/tmp/tmpabc.glb"; EvTrimeshLoad "/tmp/tmpabc.glb";
       EvExport (VMesh 14) "gradio_cache/job.glb"; EvEmptyCache].
Proof. reflexivity. Qed.

(** ** Text requests *)

(** C4, what the code does. A request with a [text] field and no [image]
    (and no multiview flag) ends in [AttributeError]: [generate] looks up
    [self.pipeline_t2i], which [__init__] never assigns. No text-to-image
    step runs, no default is applied and the Model Pipeline Adapter is not
    invoked: the run makes no call at all. *)
Theorem C4_text_request_raises (ext : Externals) (self : ModelWorker)
  (uid : string) (params : dict) (w : World) (text : pyval) :
  truthy (dict_get_default "multiview" (VBool false) params) = false ->
  dict_get "image" params = None ->
  dict_get "text" params = Some text ->
  generate ext self uid params w =
    mkRun (Raise (no_attribute "pipeline_t2i")) w [].
Proof.
  intros Hmv Hi Ht.
  rewrite (generate_input_raises ext self uid params w (no_attribute "pipeline_t2i"));
    unfold input_stage, bind, raise; now rewrite Hmv, Hi, Ht.
Qed.

(** The scenario of the claim: [{"text": "a red chair"}]. *)
Lemma C4_red_chair :
  generate sample_ext (init sample_models "cuda" true true) "job"
    [("text", VStr "a red chair")] (initial_world 5) =
    mkRun (Raise (AttributeError "'ModelWorker' object has no attribute 'pipeline_t2i'"))
      (initial_world 5) [].
Proof.
  exact (C4_text_request_raises sample_ext (init sample_models "cuda" true true) "job"
           [("text", VStr "a red chair")] (initial_world 5) (VStr "a red chair")
           eq_refl eq_refl eq_refl).
Defined.

(** ** Multiview requests with a view missing *)







Example missing_left_message :
  generate sample_ext (init sample_models "cuda" false true) "job"
    [("multiview", VBool true);
     ("images", VDict [("front", VStr "Zg=="); ("back", VStr "Yg==")])]
    (initial_world 5) =
    mkRun (Raise (ValueError "Missing left image for multiview generation"))
      (initial_world 5) [EvLoadImage (VStr "Zg=="); EvRembg (VImage 1)].
Proof. reflexivity. Qed.

(** ** Texture without a texture pipeline *)

(** With [enable_tex] off no run with [texture] set returns: texturing is
    not skipped in silence. *)
Lemma texture_never_skipped (ext : Externals) (self : ModelWorker)
  (uid : string) (params : dict) (w : World) :
  pipeline_tex self = None ->
  truthy (dict_get_default "texture" (VBool false) params) = true ->
  exists e, outcome (generate ext self uid params w) = Raise e.
Proof.
  intros Hnone Htex.
  destruct (outcome (generate ext self uid params w)) as [res|e] eqn:Hres.
  - destruct (textured_run_returns ext self uid params w res Htex Hres)
      as (m0 & m1 & m2 & m3 & fc & img & tex & _ & _ & _ & _ & Hsome).
    congruence.
  - now exists e.
Qed.

(** C9, what the code does. A worker started without [enable_tex] gets an
    image request with [texture: true]: the shape is generated, the three
    mesh-cleaning steps run, and the run then ends in the [AttributeError]
    of the missing [self.pipeline_tex], which the handler of [/generate]
    reports through its last clause, the one for unknown errors, and not
    through the [ValueError] clause that reports the multiview pipeline
    when that one is not loaded. *)
Theorem C9_texture_without_pipeline :
  outcome (generate sample_ext (init sample_models "cuda" false false) "job"
             [("image", VStr "aGVsbG8="); ("texture", VBool true)]
             (initial_world 5)) =
    Raise (AttributeError "'ModelWorker' object has no attribute 'pipeline_tex'") /\
  steps_of (calls (generate sample_ext (init sample_models "cuda" false false) "job"
                     [("image", VStr "aGVsbG8="); ("texture", VBool true)]
                     (initial_world 5))) = [Floater; Degenerate; Reducer] /\
  except_clause (no_attribute "pipeline_tex") = "Caught Unknown Error" /\
  except_clause (ValueError "Multiview pipeline not loaded. Enable multiview mode.")
    = "Caught ValueError:".
Proof. repeat split. Qed.

(** The sibling check: a multiview request to a worker started without
    [enable_multiview] is refused with a [ValueError] that names the
    cause, once the views are loaded. *)
Example multiview_without_pipeline :
  outcome (generate sample_ext (init sample_models "cuda" false false) "job"
             [("multiview", VBool true);
              ("images", VDict [("front", VStr "Zg=="); ("left", VStr "bA==");
                                ("back", VStr "Yg==")])]
             (initial_world 5)) =
    Raise (ValueError "Multiview pipeline not loaded. Enable multiview mode.").
Proof. reflexivity. Qed.

(** ** The seed of a multiview request *)

(** A run that gets past its input part without a [mesh] seeds the
    generator once, with the request's [seed] or else 1234. *)
Lemma seed_of_run (ext : Externals) (self : ModelWorker) (uid : string)
  (params : dict) (w : World) (p1 : dict) (pu : bool * (dict -> result pyval)) :
  outcome (input_stage ext self
             (dict_get_default "multiview" (VBool false) params) params w)
    = Ok (p1, pu) ->
  dict_get "mesh" params = None ->
  seed_calls (calls (generate ext self uid params w)) =
    [EvManualSeed (device self) (dict_get_default "seed" (VInt 1234) params)].
Proof.
  intros E1 Hmesh.
  set (is_mv := dict_get_default "multiview" (VBool false) params) in *.
  destruct (input_stage_Ok ext self is_mv params p1 pu w E1) as (Hk & _).
  destruct (generate_input_returns ext self uid params w p1 pu E1)
    as (c3 & c4 & Hc & F3 & F4).
  fold is_mv in Hc. rewrite Hc. unfold seed_calls. rewrite !filter_app.
  rewrite (filter_other_kind is_input_call is_seed_call);
    [|apply input_call_not_seed | apply only_input_stage].
  rewrite (filter_other_kind is_postprocess_call is_seed_call c3);
    [|apply postprocess_call_not_seed | assumption].
  rewrite (filter_other_kind is_export_call is_seed_call c4);
    [|apply export_call_not_seed | assumption].
  rewrite (shape_stage_no_mesh ext self is_mv p1 pu)
    by (rewrite Hk; [assumption | discriminate]).
  replace (dict_get_default "seed" (VInt 1234) p1)
    with (dict_get_default "seed" (VInt 1234) params)
    by (unfold dict_get_default; now rewrite Hk).
  cbn [filter is_seed_call app].
  now destruct (manual_seed ext (device self) _).
Qed.

(** C10. A multiview request in JSON (the body goes to [generate] as it
    is, from [/generate] and from [/send]) with no [mesh] and no [seed],
    once its views are accepted, seeds the generator exactly once and with
    1234, the default of the single-image mode as well. The multiview form
    differs: with its seed field left out it puts 12345 into the request,
    and that is the seed of its run. *)
Theorem C10_json_multiview_seed (ext : Externals) (self : ModelWorker)
  (uid : string) (params : dict) (w : World) (p1 : dict)
  (pu : bool * (dict -> result pyval)) :
  truthy (dict_get_default "multiview" (VBool false) params) = true ->
  dict_get "mesh" params = None ->
  dict_get "seed" params = None ->
  outcome (input_stage ext self
             (dict_get_default "multiview" (VBool false) params) params w)
    = Ok (p1, pu) ->
  seed_calls (calls (generate ext self uid params w)) =
    [EvManualSeed (device self) (VInt 1234)] /\
  (forall f w' p1' pu',
     form_seed f = None ->
     outcome (input_stage ext self (VBool true) (multiview_form_params f) w')
       = Ok (p1', pu') ->
     seed_calls (calls (generate ext self uid (multiview_form_params f) w')) =
       [EvManualSeed (device self) (VInt 12345)]).
Proof.
  intros Hmv Hmesh Hseed E1. split.
  - rewrite (seed_of_run ext self uid params w p1 pu E1 Hmesh).
    unfold dict_get_default. now rewrite Hseed.
  - intros f w' p1' pu' Hf E1'.
    rewrite (seed_of_run ext self uid (multiview_form_params f) w' p1' pu' E1' eq_refl).
    unfold multiview_form_params, dict_get_default. cbn [dict_get String.eqb].
    simpl. now rewrite Hf.
Qed.

(** A JSON multiview request without a seed. *)
Lemma C10_json_seed_run :
  seed_calls
    (calls (generate sample_ext (init sample_models "cuda" false true) "job"
              [("multiview", VBool true);
               ("images", VDict [("front", VStr "Zg=="); ("left", VStr "bA==");
                                 ("back", VStr "Yg==")])]
              (initial_world 5))) =
    [EvManualSeed "cuda" (VInt 1234)].
Proof.
  exact (proj1 (C10_json_multiview_seed sample_ext
                  (init sample_models "cuda" false true) "job"
                  [("multiview", VBool true);
                   ("images", VDict [("front", VStr "Zg=="); ("left", VStr "bA==");
                                     ("back", VStr "Yg==")])]
                  (initial_world 5)
                  [("multiview", VBool true);
                   ("images", VDict [("front", VStr "Zg=="); ("left", VStr "bA==");
                                     ("back", VStr "Yg==")]);
                   ("image", VDict [("front", VImage 2); ("left", VImage 2);
                                    ("back", VImage 2)])]
                  (true, shape_pipeline_mv sample_models)
                  eq_refl eq_refl eq_refl eq_refl)).
Defined.

(** ** Base64 round trip *)

Section Base64Facts.

Import Base64.
Local Open Scope N_scope.

(* Division and remainder by constants, for [lia]. *)
#[local] Ltac Zify.zify_post_hook ::= Z.to_euclidean_division_equations.

Lemma list_ind3 {A} (P : list A -> Prop) :
  P [] -> (forall a, P [a]) -> (forall a b, P [a; b]) ->
  (forall a b c l, P l -> P (a :: b :: c :: l)) ->
  forall l, P l.
Proof.
  intros H0 H1 H2 H3. fix IH 1.
  intros [|a [|b [|c l]]]; [exact H0 | apply H1 | apply H2 | apply H3, IH].
Qed.

(** Every six-bit value is read back from its character. *)
Lemma b64val_b64char (n : N) : n < 64 -> b64val (b64char n) = Some n.
Proof.
  intros Hn.
  assert (Hall : forallb (fun n => match b64val (b64char n) with
                                   | Some m => m =? n
                                   | None => false
                                   end) (map N.of_nat (seq 0 64)) = true)
    by (vm_compute; reflexivity).
  rewrite forallb_forall in Hall.
  specialize (Hall n).
  assert (Hin : In n (map N.of_nat (seq 0 64))).
  { rewrite <- (N2Nat.id n). apply in_map. apply in_seq. lia. }
  specialize (Hall Hin).
  destruct (b64val (b64char n)) as [m|]; [|discriminate].
  apply N.eqb_eq in Hall. now subst.
Qed.

Lemma b64val_pad : b64val pad = None.
Proof. reflexivity. Qed.

Lemma byte_of_to_N (b : byte) : byte_of_N (Byte.to_N b) = b.
Proof. unfold byte_of_N. now rewrite Byte.of_to_N. Qed.

Lemma byte_of_N_eq (n : N) (b : byte) : n = Byte.to_N b -> byte_of_N n = b.
Proof. intros ->. apply byte_of_to_N. Qed.

Lemma to_N_lt (b : byte) : Byte.to_N b < 256.
Proof. pose proof (Byte.to_N_bounded b). lia. Qed.

Lemma decode_group_three (a b c : byte) :
  decode_group (b64char (Byte.to_N a / 4))
    (b64char ((Byte.to_N a mod 4) * 16 + Byte.to_N b / 16))
    (b64char ((Byte.to_N b mod 16) * 4 + Byte.to_N c / 64))
    (b64char (Byte.to_N c mod 64)) = Some [a; b; c].
Proof.
  pose proof (to_N_lt a) as Ha. pose proof (to_N_lt b) as Hb.
  pose proof (to_N_lt c) as Hc.
  unfold decode_group.
  rewrite !b64val_b64char by lia.
  repeat f_equal; apply byte_of_N_eq; lia.
Qed.

Lemma decode_group_two (a b : byte) :
  decode_group (b64char (Byte.to_N a / 4))
    (b64char ((Byte.to_N a mod 4) * 16 + Byte.to_N b / 16))
    (b64char ((Byte.to_N b mod 16) * 4)) pad = Some [a; b].
Proof.
  pose proof (to_N_lt a) as Ha. pose proof (to_N_lt b) as Hb.
  unfold decode_group.
  rewrite !b64val_b64char by lia. rewrite b64val_pad.
  rewrite Ascii.eqb_refl.
  repeat f_equal; apply byte_of_N_eq; lia.
Qed.

Lemma decode_group_one (a : byte) :
  decode_group (b64char (Byte.to_N a / 4)) (b64char ((Byte.to_N a mod 4) * 16))
    pad pad = Some [a].
Proof.
  pose proof (to_N_lt a) as Ha.
  unfold decode_group.
  rewrite !b64val_b64char by lia. rewrite b64val_pad.
  rewrite Ascii.eqb_refl. cbn [andb].
  repeat f_equal; apply byte_of_N_eq; lia.
Qed.

(** Decoding what the encoder wrote gives the bytes back. *)
Lemma b64decode_b64encode (bs : bytes) : b64decode (b64encode bs) = Some bs.
Proof.
  induction bs as [|a|a b|a b c bs IH] using list_ind3.
  - reflexivity.
  - cbn [b64encode b64decode]. now rewrite decode_group_one.
  - cbn [b64encode b64decode]. now rewrite decode_group_two.
  - cbn [b64encode b64decode]. rewrite decode_group_three, IH. reflexivity.
Qed.

End Base64Facts.

(** ** The status endpoint *)

(** C8. [GET /status/{uid}] changes nothing and answers with HTTP 200 in
    both cases: [{"status": "processing"}] while [SAVE_DIR] holds no file
    [{uid}.glb], and [{"status": "completed", "model_base64": ...}] once
    it does, where decoding [model_base64] gives back the bytes of the
    file exactly. *)
Theorem C8_status_round_trip (uid : string) (w : World) :
  final (status uid w) = w /\
  (read_file (os_path_join SAVE_DIR (uid ++ ".glb")) (files w) = None ->
   outcome (status uid w) =
     Ok (JSONResponse [("status", VStr "processing")] 200)) /\
  (forall content,
     read_file (os_path_join SAVE_DIR (uid ++ ".glb")) (files w) = Some content ->
     exists model_base64,
       outcome (status uid w) =
         Ok (JSONResponse [("status", VStr "completed");
                           ("model_base64", VStr model_base64)] 200) /\
       Base64.b64decode model_base64 = Some content).
Proof.
  unfold status.
  destruct (read_file (os_path_join SAVE_DIR (uid ++ ".glb")) (files w)) as [bs|].
  - repeat split; [discriminate|].
    intros content Hc. injection Hc as <-.
    exists (Base64.b64encode bs). split; [reflexivity|].
    apply b64decode_b64encode.
  - repeat split. discriminate.
Qed.

(** Before and after a run on the sample collaborators. *)
Lemma C8_status_of_sample_run :
  outcome (status "job" (initial_world 5)) =
    Ok (JSONResponse [("status", VStr "processing")] 200) /\
  exists model_base64,
    outcome (status "job"
               (final (generate sample_ext (init sample_models "cuda" false false)
                         "job" [("image", VStr "aGVsbG8=")] (initial_world 5)))) =
      Ok (JSONResponse [("status", VStr "completed");
                        ("model_base64", VStr model_base64)] 200) /\
    Base64.b64decode model_base64 = Some [x67; x6c; x54; x46]%byte.
Proof.
  split.
  - exact (proj1 (proj2 (C8_status_round_trip "job" (initial_world 5))) eq_refl).
  - exact (proj2 (proj2 (C8_status_round_trip "job"
                           (final (generate sample_ext
                                     (init sample_models "cuda" false false)
                                     "job" [("image", VStr "aGVsbG8=")]
                                     (initial_world 5)))))
             [x67; x6c; x54; x46]%byte eq_refl).
Defined.

(** ** The stream that feeds the logger *)

Section StreamFacts.

Import StreamToLogger.
Local Open Scope N_scope.
Local Open Scope list_scope.

(** Induction on a text by its length: [splitlines_from] steps over one
    character or over two. *)
Lemma text_length_ind (P : text -> Prop) :
  (forall s, (forall s', (length s' < length s)%nat -> P s') -> P s) ->
  forall s, P s.
Proof.
  intros H s.
  assert (Hn : forall n s, (length s < n)%nat -> P s).
  { induction n as [|n IH]; intros s0 Hs.
    - lia.
    - apply H. intros s' Hs'. apply IH. lia. }
  apply (Hn (S (length s))). lia.
Qed.

Lemma last_in (l : text) (d : N) : l <> [] -> In (last l d) l.
Proof.
  intros Hl. destruct (exists_last Hl) as (l' & a & ->).
  rewrite last_last, in_app_iff. right. now left.
Qed.

Lemma linebreak_LF : is_linebreak LF = true.
Proof. reflexivity. Qed.

Lemma not_linebreak_not_LF (c : N) : is_linebreak c = false -> c <> LF.
Proof. intros H ->. discriminate. Qed.

(** What the loop of [write] does with a list of lines: the ones that end
    in a newline are logged, stripped; the others go to the buffer. *)
Lemma fold_write_line (lines : list text) (self : t) :
  fold_left write_line lines self =
    mk (log_level self)
       (linebuf self ++ concat (filter (fun l => negb (ends_in_LF l)) lines))
       (logged self ++
        map (fun l => (log_level self, rstrip l)) (filter ends_in_LF lines)).
Proof.
  revert self. induction lines as [|line lines IH]; intros self; simpl.
  - rewrite !app_nil_r. now destruct self.
  - rewrite IH. unfold write_line, ends_in_LF.
    destruct (last line 0 =? LF); simpl.
    + now rewrite <- app_assoc.
    + now rewrite <- app_assoc.
Qed.

(** A line of [splitlines] has a newline at its end or nowhere. *)
Lemma splitlines_from_newline (s : text) :
  forall cur, ~ In LF cur ->
  Forall (fun line => ends_in_LF line = true \/ ~ In LF line) (splitlines_from cur s).
Proof.
  induction s as [s IH] using text_length_ind. intros cur Hcur.
  destruct s as [|c s']; simpl.
  - destruct cur; constructor; [now right | constructor].
  - destruct (is_linebreak c) eqn:Hc.
    + destruct s' as [|d s''].
      * constructor; [|constructor].
        destruct (N.eqb_spec c LF) as [->|Hne].
        -- left. unfold ends_in_LF. rewrite last_last. apply N.eqb_refl.
        -- right. rewrite in_app_iff. simpl. intuition congruence.
      * destruct ((c =? CR) && (d =? LF)) eqn:Hcr.
        -- apply andb_true_iff in Hcr. destruct Hcr as [_ Hd].
           apply N.eqb_eq in Hd. subst d.
           constructor.
           ++ left. unfold ends_in_LF.
              change (cur ++ [c; LF]) with (cur ++ [c] ++ [LF]).
              rewrite app_assoc, last_last. apply N.eqb_refl.
           ++ apply IH; [simpl; lia | intros []].
        -- constructor.
           ++ destruct (N.eqb_spec c LF) as [->|Hne].
              ** left. unfold ends_in_LF. rewrite last_last. apply N.eqb_refl.
              ** right. rewrite in_app_iff. simpl. intuition congruence.
           ++ apply IH; [simpl; lia | intros []].
    + apply IH; [simpl; lia|].
      rewrite in_app_iff. simpl.
      pose proof (not_linebreak_not_LF c Hc). intuition congruence.
Qed.

(** [splitlines(True)] loses nothing: the lines, put together again, are
    the text. *)
Lemma splitlines_from_concat (s : text) :
  forall cur, concat (splitlines_from cur s) = cur ++ s.
Proof.
  induction s as [s IH] using text_length_ind. intros cur.
  destruct s as [|c s']; simpl.
  - destruct cur; simpl; now rewrite ?app_nil_r.
  - destruct (is_linebreak c).
    + destruct s' as [|d s''].
      * simpl. now rewrite app_nil_r.
      * destruct ((c =? CR) && (d =? LF)); cbn [concat].
        -- rewrite IH by (simpl; lia). now rewrite <- app_assoc.
        -- rewrite IH by (simpl; lia). now rewrite <- app_assoc.
    + rewrite IH by (simpl; lia). now rewrite <- app_assoc.
Qed.

Lemma no_newline_in_open_lines (lines : list text) :
  Forall (fun line => ends_in_LF line = true \/ ~ In LF line) lines ->
  ~ In LF (concat (filter (fun l => negb (ends_in_LF l)) lines)).
Proof.
  induction 1 as [|line lines Hline _ IH]; simpl.
  - intros [].
  - destruct (ends_in_LF line) eqn:He; simpl.
    + exact IH.
    + rewrite in_app_iff. intros [Hin|Hin]; [|now apply IH].
      destruct Hline as [Ht|Hn]; [discriminate | now apply Hn].
Qed.

(** X1. What [write] does with the text it holds, the buffer followed by
    what is written: the lines [splitlines] cuts it into are the whole
    text; each line that ends in a newline has gone to the logger, once,
    stripped, at the level of the stream and in the order of the text,
    after the records that were there; the other lines, put together, are
    the new buffer; and that buffer holds no newline. *)
Theorem write_leaves_no_newline (self : t) (buf : text) :
  concat (splitlines (linebuf self ++ buf)) = linebuf self ++ buf /\
  logged (write self buf) =
    logged self ++
    map (fun line => (log_level self, rstrip line))
        (filter ends_in_LF (splitlines (linebuf self ++ buf))) /\
  linebuf (write self buf) =
    concat (filter (fun line => negb (ends_in_LF line))
              (splitlines (linebuf self ++ buf))) /\
  ~ In LF (linebuf (write self buf)) /\
  log_level (write self buf) = log_level self.
Proof.
  unfold write. rewrite fold_write_line. cbn [linebuf logged log_level app].
  split; [exact (splitlines_from_concat (linebuf self ++ buf) [])|].
  split; [reflexivity|]. split; [reflexivity|]. split; [|reflexivity].
  apply no_newline_in_open_lines.
  apply (splitlines_from_newline (linebuf self ++ buf) [] (fun H => H)).
Qed.

(** The lines that end in a newline are as many as the newlines. *)
Lemma splitlines_from_count (s : text) :
  forall cur, ~ In LF cur ->
  length (filter ends_in_LF (splitlines_from cur s)) = count_occ N.eq_dec s LF.
Proof.
  induction s as [s IH] using text_length_ind. intros cur Hcur.
  assert (Hlast : forall c, ends_in_LF (cur ++ [c]) = (c =? LF))
    by (intros c; unfold ends_in_LF; now rewrite last_last).
  destruct s as [|c s']; simpl.
  - destruct cur as [|c0 cur']; [reflexivity|]. simpl.
    destruct (ends_in_LF (c0 :: cur')) eqn:He; [|reflexivity].
    exfalso. apply Hcur. unfold ends_in_LF in He. apply N.eqb_eq in He.
    rewrite <- He. now apply last_in.
  - destruct (is_linebreak c) eqn:Hc.
    + destruct s' as [|d s''].
      * simpl. rewrite Hlast.
        destruct (N.eq_dec c LF) as [->|Hne].
        -- now rewrite N.eqb_refl.
        -- apply N.eqb_neq in Hne. now rewrite Hne.
      * destruct ((c =? CR) && (d =? LF)) eqn:Hcr.
        -- apply andb_true_iff in Hcr. destruct Hcr as [Hcc Hd].
           apply N.eqb_eq in Hd, Hcc. subst c d. simpl.
           assert (He : ends_in_LF (cur ++ [CR; LF]) = true).
           { unfold ends_in_LF. change (cur ++ [CR; LF]) with (cur ++ [CR] ++ [LF]).
             rewrite app_assoc, last_last. reflexivity. }
           rewrite He. simpl. f_equal. apply IH; [simpl; lia | intros []].
        -- cbn [filter]. rewrite Hlast.
           rewrite <- (IH (d :: s'') ltac:(simpl; lia) [] (fun H => H)).
           destruct (N.eq_dec c LF) as [->|Hne].
           ++ now rewrite N.eqb_refl.
           ++ apply N.eqb_neq in Hne. now rewrite Hne.
    + pose proof (not_linebreak_not_LF c Hc) as Hne.
      destruct (N.eq_dec c LF) as [->|_]; [congruence|].
      apply IH; [simpl; lia|].
      rewrite in_app_iff. simpl. intuition congruence.
Qed.

(** X2. [write] calls the logger once for every newline in the text it
    holds, the buffer followed by what is written. *)
Theorem write_logs_once_per_newline (self : t) (buf : text) :
  exists new,
    logged (write self buf) = logged self ++ new /\
    length new = count_occ N.eq_dec (linebuf self ++ buf) LF /\
    Forall (fun r => fst r = log_level self) new.
Proof.
  unfold write. rewrite fold_write_line. cbn [logged log_level].
  eexists. split; [reflexivity|]. split.
  - rewrite length_map. apply splitlines_from_count. intros [].
  - apply Forall_map. apply Forall_forall. now intros.
Qed.

(** *** Text whose lines end in newlines only *)

Lemma splitlines_from_plain (s : text) :
  forall cur, plain s ->
  splitlines_from cur s =
    fst (split_nl cur s) ++
    match snd (split_nl cur s) with [] => [] | rest => [rest] end.
Proof.
  induction s as [|c s' IH]; intros cur Hs; simpl.
  - now destruct cur.
  - inversion Hs as [|c0 s0 Hc Hs' Heq]. subst.
    destruct (is_linebreak c) eqn:Hlb.
    + rewrite (Hc eq_refl). cbn [N.eqb Pos.eqb LF CR andb].
      specialize (IH [] Hs').
      destruct s' as [|d s''].
      * reflexivity.
      * rewrite IH. now destruct (split_nl [] (d :: s'')) as [lines rest].
    + pose proof (not_linebreak_not_LF c Hlb) as Hne.
      apply N.eqb_neq in Hne. rewrite Hne. now apply IH.
Qed.

Lemma split_nl_app (s1 s2 cur : text) :
  split_nl cur (s1 ++ s2) =
    (fst (split_nl cur s1) ++ fst (split_nl (snd (split_nl cur s1)) s2),
     snd (split_nl (snd (split_nl cur s1)) s2)).
Proof.
  revert cur. induction s1 as [|c s1 IH]; intros cur; simpl.
  - now destruct (split_nl cur s2).
  - destruct (c =? LF).
    + rewrite (IH []). destruct (split_nl [] s1) as [lines rest]. reflexivity.
    + apply IH.
Qed.

Lemma split_nl_no_newline (s cur : text) :
  ~ In LF s -> split_nl cur s = ([], cur ++ s).
Proof.
  revert cur. induction s as [|c s IH]; intros cur Hs; simpl.
  - now rewrite app_nil_r.
  - destruct (N.eqb_spec c LF) as [->|Hne].
    + exfalso. apply Hs. now left.
    + rewrite IH by (intros H; apply Hs; now right).
      now rewrite <- app_assoc.
Qed.

Lemma split_nl_lines (s cur : text) :
  Forall (fun l => ends_in_LF l = true) (fst (split_nl cur s)).
Proof.
  revert cur. induction s as [|c s IH]; intros cur; simpl.
  - constructor.
  - destruct (N.eqb_spec c LF) as [->|Hne].
    + specialize (IH []). destruct (split_nl [] s) as [lines rest].
      constructor; [|exact IH].
      unfold ends_in_LF. now rewrite last_last.
    + apply IH.
Qed.

Lemma split_nl_rest (P : N -> Prop) (s cur : text) :
  Forall P cur -> Forall P s -> Forall P (snd (split_nl cur s)).
Proof.
  revert cur. induction s as [|c s IH]; intros cur Hcur Hs; simpl.
  - exact Hcur.
  - inversion Hs as [|c0 s0 Hc Hs' Heq]. subst.
    destruct (c =? LF).
    + specialize (IH [] (Forall_nil P) Hs').
      now destruct (split_nl [] s).
    + apply IH; [|exact Hs'].
      apply Forall_app. split; [exact Hcur | now constructor].
Qed.

Lemma split_nl_rest_no_newline (s cur : text) :
  ~ In LF cur -> ~ In LF (snd (split_nl cur s)).
Proof.
  revert cur. induction s as [|c s IH]; intros cur Hcur; simpl.
  - exact Hcur.
  - destruct (N.eqb_spec c LF) as [->|Hne].
    + specialize (IH [] (fun H => H)). now destruct (split_nl [] s).
    + apply IH. rewrite in_app_iff. simpl. intuition congruence.
Qed.

Lemma filter_all (A : Type) (f : A -> bool) (l : list A) :
  Forall (fun x => f x = true) l -> filter f l = l.
Proof.
  induction 1 as [|x l Hx _ IH]; simpl; [reflexivity|]. now rewrite Hx, IH.
Qed.

Lemma filter_none (A : Type) (f : A -> bool) (l : list A) :
  Forall (fun x => f x = true) l -> filter (fun x => negb (f x)) l = [].
Proof.
  induction 1 as [|x l Hx _ IH]; simpl; [reflexivity|]. now rewrite Hx.
Qed.

(** [write] on such text, with a buffer that holds no boundary: the lines
    closed by a newline are logged, what follows the last newline stays. *)
Lemma write_plain (self : t) (buf : text) :
  Forall (fun c => is_linebreak c = false) (linebuf self) ->
  plain buf ->
  write self buf =
    mk (log_level self) (snd (split_nl (linebuf self) buf))
       (logged self ++
        map (fun l => (log_level self, rstrip l)) (fst (split_nl (linebuf self) buf))).
Proof.
  intros Hbuf Hplain.
  assert (Hno : ~ In LF (linebuf self)).
  { intros Hin. rewrite Forall_forall in Hbuf. specialize (Hbuf LF Hin). discriminate. }
  assert (Hp : plain (linebuf self ++ buf)).
  { apply Forall_app. split; [|exact Hplain].
    eapply Forall_impl; [|exact Hbuf]. cbn beta. intros c Hc Ht. congruence. }
  unfold write, splitlines. rewrite fold_write_line. cbn [linebuf logged log_level app].
  rewrite (splitlines_from_plain _ [] Hp), split_nl_app.
  rewrite (split_nl_no_newline (linebuf self) [] Hno). cbn [fst snd app].
  set (lines := fst (split_nl (linebuf self) buf)).
  set (rest := snd (split_nl (linebuf self) buf)).
  assert (Hlines : Forall (fun l => ends_in_LF l = true) lines)
    by apply split_nl_lines.
  assert (Hrest : ~ In LF rest) by now apply split_nl_rest_no_newline.
  rewrite !filter_app, (filter_all _ _ _ Hlines), (filter_none _ _ _ Hlines).
  destruct rest as [|c rest'] eqn:Er.
  - simpl. now rewrite app_nil_r.
  - assert (He : ends_in_LF (c :: rest') = false).
    { unfold ends_in_LF. apply N.eqb_neq. intros Heq. apply Hrest.
      rewrite <- Heq. now apply last_in. }
    cbn [filter]. rewrite He. cbn [negb concat app].
    now rewrite !app_nil_r.
Qed.

(** X3. For text whose only line boundary is the newline, how the text is
    cut into writes does not matter: writing [a] and then [b] logs the
    same records and leaves the same buffer as writing [a ++ b] at once.
    The buffer is one that such writes leave (no boundary in it). *)
Theorem write_chunking (self : t) (a b : text) :
  Forall (fun c => is_linebreak c = false) (linebuf self) ->
  plain a -> plain b ->
  write (write self a) b = write self (a ++ b).
Proof.
  intros Hbuf Ha Hb.
  assert (Hab : plain (a ++ b)) by (apply Forall_app; now split).
  rewrite (write_plain self (a ++ b) Hbuf Hab).
  rewrite (write_plain self a Hbuf Ha).
  set (lines1 := fst (split_nl (linebuf self) a)).
  set (rest1 := snd (split_nl (linebuf self) a)).
  assert (Hrest1 : Forall (fun c => is_linebreak c = false) rest1).
  { assert (Hno : ~ In LF rest1).
    { apply split_nl_rest_no_newline. intros Hin.
      rewrite Forall_forall in Hbuf. specialize (Hbuf LF Hin). discriminate. }
    assert (Hp : plain rest1).
    { apply split_nl_rest; [|exact Ha].
      eapply Forall_impl; [|exact Hbuf]. cbn beta. intros c Hc Ht. congruence. }
    unfold plain in Hp. rewrite Forall_forall in *. intros c Hin.
    destruct (is_linebreak c) eqn:Hc; [|reflexivity].
    exfalso. apply Hno. now rewrite <- (Hp c Hin Hc). }
  rewrite write_plain by assumption. cbn [log_level linebuf logged].
  rewrite split_nl_app. fold lines1 rest1. cbn [fst snd].
  now rewrite map_app, app_assoc.
Qed.

Lemma plain_forallb (s : text) :
  forallb (fun c => negb (is_linebreak c) || (c =? LF)) s = true -> plain s.
Proof.
  rewrite forallb_forall. intros H. apply Forall_forall. intros c Hin Hc.
  specialize (H c Hin). rewrite Hc in H. now apply N.eqb_eq in H.
Qed.

(** Two writes of ordinary output and the one write of both. *)
Lemma write_chunking_hello :
  write (write (mk 20 [] []) (of_string "hel")) (of_string ("lo" ++ String "010" "wor")) =
  write (mk 20 [] []) (of_string "hel" ++ of_string ("lo" ++ String "010" "wor")).
Proof.
  apply write_chunking.
  - constructor.
  - apply plain_forallb. reflexivity.
  - apply plain_forallb. reflexivity.
Defined.

(** With a carriage return in the text the cut does matter: the fragment
    closed by the carriage return waits in the buffer, and a write that
    starts with a newline closes it. *)
Example write_chunking_carriage_return :
  logged (write (write (mk 20 [] []) [117; 13; 118; 10]) [10; 119]) =
    [(20%Z, [118]); (20%Z, [117])] /\
  logged (write (mk 20 [] []) [117; 13; 118; 10; 10; 119]) =
    [(20%Z, [118]); (20%Z, [])].
Proof. split; reflexivity. Qed.

Lemma forallb_Forall_linebreak (s : text) :
  forallb (fun c => negb (is_linebreak c)) s = true ->
  Forall (fun c => is_linebreak c = false) s.
Proof.
  rewrite forallb_forall. intros H. apply Forall_forall. intros c Hin.
  specialize (H c Hin). now destruct (is_linebreak c).
Qed.

(** X18. Text with no line boundary in it is held back: written to a
    stream with an empty buffer it reaches the logger only with [flush],
    which logs it once, stripped of trailing whitespace, and empties the
    buffer. *)
Theorem write_holds_back_until_flush (self : t) (buf : text) :
  linebuf self = [] ->
  buf <> [] ->
  Forall (fun c => is_linebreak c = false) buf ->
  logged (write self buf) = logged self /\
  linebuf (write self buf) = buf /\
  logged (flush (write self buf)) = logged self ++ [(log_level self, rstrip buf)] /\
  linebuf (flush (write self buf)) = [].
Proof.
  intros Hbuf Hne Hno.
  assert (Hplain : plain buf).
  { eapply Forall_impl; [|exact Hno]. cbn beta. intros c Hc Ht. congruence. }
  assert (Hlf : ~ In LF buf).
  { intros Hin. rewrite Forall_forall in Hno. specialize (Hno LF Hin). discriminate. }
  rewrite (write_plain self buf); [|rewrite Hbuf; constructor | exact Hplain].
  rewrite Hbuf, (split_nl_no_newline buf [] Hlf). cbn [fst snd map app logged linebuf].
  rewrite app_nil_r. unfold flush. cbn [linebuf logged log_level].
  destruct buf as [|c buf']; [congruence|]. repeat split.
Qed.

(** A prompt without a newline, then the flush. *)
Lemma write_holds_back_sample :
  logged (write (mk 20 [] []) (of_string "ready> ")) = [] /\
  linebuf (write (mk 20 [] []) (of_string "ready> ")) = of_string "ready> " /\
  logged (flush (write (mk 20 [] []) (of_string "ready> "))) =
    [] ++ [(20%Z, rstrip (of_string "ready> "))] /\
  linebuf (flush (write (mk 20 [] []) (of_string "ready> "))) = [].
Proof.
  apply (write_holds_back_until_flush (mk 20 [] []) (of_string "ready> ")).
  - reflexivity.
  - discriminate.
  - apply forallb_Forall_linebreak. reflexivity.
Defined.

End StreamFacts.


(** ** The files a run writes *)

Lemma keeps_files_ret {A} (a : A) : keeps_files (ret a).
Proof. now intros w. Qed.

Lemma keeps_files_raise {A} (e : exn) : keeps_files (@raise A e).
Proof. now intros w. Qed.

Lemma keeps_files_call {A} (ev : event) (r : result A) : keeps_files (call ev r).
Proof. now intros w. Qed.

Lemma keeps_files_lift {A} (r : result A) : keeps_files (lift r).
Proof. now intros w. Qed.

Lemma keeps_files_bind {A B} (m : M A) (k : A -> M B) :
  keeps_files m -> (forall a, keeps_files (k a)) -> keeps_files (bind m k).
Proof.
  intros Hm Hk w. unfold bind.
  destruct (outcome (m w)) as [a|e]; simpl.
  - now rewrite Hk, Hm.
  - apply Hm.
Qed.

Create HintDb files.
#[local] Hint Resolve keeps_files_ret keeps_files_raise keeps_files_call
  keeps_files_lift : files.

Ltac files_step :=
  match goal with
  | |- keeps_files (bind _ _) => apply keeps_files_bind; [|intros ?]
  | |- keeps_files (if ?b then _ else _) => destruct b
  | |- keeps_files (match ?x with _ => _ end) => destruct x
  | |- keeps_files _ => solve [auto with files]
  end.

Lemma read_file_head (path : string) (bs : bytes) (fs : list (string * bytes)) :
  read_file path ((path, bs) :: fs) = Some bs.
Proof. simpl. now rewrite String.eqb_refl. Qed.

Section FileFacts.

Variable ext : Externals.
Variable self : ModelWorker.

Lemma keeps_files_load_views (imgs : pyval) (vs : list string) (images : dict) :
  keeps_files (load_views ext self imgs vs images).
Proof.
  revert images. induction vs as [|view vs IH]; intros images; simpl.
  - auto with files.
  - repeat files_step.
Qed.

Lemma keeps_files_input_stage (is_multiview : pyval) (params : dict) :
  keeps_files (input_stage ext self is_multiview params).
Proof.
  unfold input_stage.
  destruct (truthy is_multiview).
  - apply keeps_files_bind.
    + destruct (dict_get "images" params).
      * apply keeps_files_bind; [apply keeps_files_load_views | intros; auto with files].
      * auto with files.
    + intros p. repeat files_step.
  - repeat files_step.
Qed.

Lemma keeps_files_shape_stage (is_multiview : pyval) (params : dict)
  (p : bool * (dict -> result pyval)) :
  keeps_files (shape_stage ext self is_multiview params p).
Proof. unfold shape_stage. repeat files_step. Qed.

Lemma keeps_files_texture_stage (is_multiview : pyval) (params : dict) (mesh : pyval) :
  keeps_files (texture_stage ext self is_multiview params mesh).
Proof. unfold texture_stage. repeat files_step. Qed.

(** The export writes the temporary file and the file of the request,
    nothing else, and it starts by asking for the temporary file. *)
Lemma export_stage_writes (uid : string) (params : dict) (mesh : pyval) (w : World) :
  exists new rest,
    files (final (export_stage ext uid params mesh w)) = (new ++ files w)%list /\
    (forall path bs, In (path, bs) new ->
       path = save_path_of ext uid params \/
       NamedTemporaryFile ext (temp_suffix ext params) = Ok path) /\
    calls (export_stage ext uid params mesh w) =
      EvTempFile (temp_suffix ext params) :: rest.
Proof.
  unfold export_stage. cbv zeta.
  fold (save_path_of ext uid params). fold (temp_suffix ext params).
  destruct (NamedTemporaryFile ext (temp_suffix ext params)) as [tmp|] eqn:Et.
  2:{ rewrite bind_call_Raise. exists [], []. repeat split. intros path bs []. }
  run_step. run_step.
  destruct (mesh_export ext mesh tmp) as [bs|].
  2:{ rewrite bind_call_Raise.
      exists [(tmp, [])], [EvExport mesh tmp]. repeat split.
      intros path bs' [H|[]]. injection H as <- <-. now right. }
  run_step. run_step.
  destruct (trimesh_load ext tmp bs) as [mesh'|].
  2:{ rewrite bind_call_Raise.
      exists [(tmp, bs); (tmp, [])], [EvExport mesh tmp; EvTrimeshLoad tmp].
      repeat split.
      intros path bs' [H|[H|[]]]; injection H as <- <-; now right. }
  run_step.
  destruct (mesh_export ext mesh' (save_path_of ext uid params)) as [bs2|].
  2:{ rewrite bind_call_Raise.
      exists [(tmp, bs); (tmp, [])],
        [EvExport mesh tmp; EvTrimeshLoad tmp;
         EvExport mesh' (save_path_of ext uid params)].
      repeat split.
      intros path bs' [H|[H|[]]]; injection H as <- <-; now right. }
  run_step. run_step.
  exists [(save_path_of ext uid params, bs2); (tmp, bs); (tmp, [])],
    [EvExport mesh tmp; EvTrimeshLoad tmp;
     EvExport mesh' (save_path_of ext uid params); EvEmptyCache].
  destruct (empty_cache ext) as [[]|].
  - run_step. repeat split.
    intros path bs' [H|[H|[H|[]]]]; injection H as <- <-; auto.
  - rewrite bind_call_Raise. repeat split.
    intros path bs' [H|[H|[H|[]]]]; injection H as <- <-; auto.
Qed.

(** An export that returns gives the path of the request and the uid, and
    the file at that path holds what the last export wrote. *)
Lemma export_stage_Ok (uid : string) (params : dict) (mesh : pyval) (w : World)
  (res : string * string) :
  outcome (export_stage ext uid params mesh w) = Ok res ->
  res = (save_path_of ext uid params, uid) /\
  exists mesh' bs,
    mesh_export ext mesh' (save_path_of ext uid params) = Ok bs /\
    read_file (save_path_of ext uid params)
      (files (final (export_stage ext uid params mesh w))) = Some bs.
Proof.
  unfold export_stage. cbv zeta.
  fold (save_path_of ext uid params). fold (temp_suffix ext params).
  destruct (NamedTemporaryFile ext (temp_suffix ext params)) as [tmp|];
    [|rewrite bind_call_Raise; discriminate].
  run_step. run_step.
  destruct (mesh_export ext mesh tmp) as [bs|];
    [|rewrite bind_call_Raise; discriminate].
  run_step. run_step.
  destruct (trimesh_load ext tmp bs) as [mesh'|];
    [|rewrite bind_call_Raise; discriminate].
  run_step.
  destruct (mesh_export ext mesh' (save_path_of ext uid params)) as [bs2|] eqn:E;
    [|rewrite bind_call_Raise; discriminate].
  run_step. run_step.
  destruct (empty_cache ext) as [[]|]; [|rewrite bind_call_Raise; discriminate].
  run_step.
  intros H. injection H as <-. split; [reflexivity|].
  exists mesh', bs2. split; [exact E|].
  apply read_file_head.
Qed.

End FileFacts.

(** *** Paths *)

Lemma os_path_join_cases (a b : string) :
  os_path_join a b =
    if starts_with_sep b then b
    else if (String.eqb a "" || ends_with_sep a)%bool then a ++ b
         else a ++ "/" ++ b.
Proof.
  destruct b as [|c b]; [reflexivity|].
  destruct c as [[] [] [] [] [] [] [] []]; reflexivity.
Qed.

Lemma os_path_join_SAVE_DIR (b : string) :
  os_path_join SAVE_DIR b = if starts_with_sep b then b else "gradio_cache/" ++ b.
Proof. rewrite os_path_join_cases. now destruct (starts_with_sep b). Qed.

Lemma string_app_inv_head (s a b : string) : s ++ a = s ++ b -> a = b.
Proof.
  induction s as [|c s IH]; simpl; intros H.
  - exact H.
  - injection H as H. now apply IH.
Qed.

(** Two names in the cache directory are the same file only when they are
    the same name. *)
Lemma os_path_join_SAVE_DIR_inj (b b' : string) :
  os_path_join SAVE_DIR b = os_path_join SAVE_DIR b' -> b = b'.
Proof.
  rewrite !os_path_join_SAVE_DIR.
  destruct (starts_with_sep b) eqn:Hb, (starts_with_sep b') eqn:Hb'; intros H.
  - exact H.
  - subst b. discriminate.
  - subst b'. discriminate.
  - now apply (string_app_inv_head "gradio_cache/").
Qed.

Lemma read_file_app_other (path : string) (new fs : list (string * bytes)) :
  (forall p bs, In (p, bs) new -> p <> path) ->
  read_file path (new ++ fs) = read_file path fs.
Proof.
  induction new as [|[p bs] new IH]; intros H; simpl.
  - reflexivity.
  - destruct (String.eqb_spec path p) as [->|Hne].
    + exfalso. apply (H p bs); [now left | reflexivity].
    + apply IH. intros p' bs' Hin. apply (H p' bs'). now right.
Qed.

(** *** What a run leaves on disk *)

Section RunFiles.

Variable ext : Externals.
Variable self : ModelWorker.
Variable uid : string.
Variable params : dict.
Variable w : World.

(** The keys that decide the export reach it as the request has them. *)
Lemma run_params_key (p1 p2 : dict) (pu : bool * (dict -> result pyval))
  (mesh : pyval) (w1 w2 : World) (k : string) :
  outcome (input_stage ext self
             (dict_get_default "multiview" (VBool false) params) params w1)
    = Ok (p1, pu) ->
  outcome (shape_stage ext self
             (dict_get_default "multiview" (VBool false) params) p1 pu w2)
    = Ok (p2, mesh) ->
  k <> "image" -> ~ In k shape_keys ->
  dict_get k p2 = dict_get k params.
Proof.
  intros E1 E2 Hi Hs.
  rewrite (shape_stage_Ok ext self _ p1 p2 pu mesh w2 k E2 Hs).
  destruct (input_stage_Ok ext self _ params p1 pu w1 E1) as (Hk & _).
  now apply Hk.
Qed.

Lemma run_save_path (p1 p2 : dict) (pu : bool * (dict -> result pyval))
  (mesh : pyval) (w1 w2 : World) :
  outcome (input_stage ext self
             (dict_get_default "multiview" (VBool false) params) params w1)
    = Ok (p1, pu) ->
  outcome (shape_stage ext self
             (dict_get_default "multiview" (VBool false) params) p1 pu w2)
    = Ok (p2, mesh) ->
  save_path_of ext uid p2 = save_path_of ext uid params /\
  temp_suffix ext p2 = temp_suffix ext params.
Proof.
  intros E1 E2.
  assert (Ht : dict_get "type" p2 = dict_get "type" params).
  { apply (run_params_key p1 p2 pu mesh w1 w2 "type" E1 E2); [discriminate|].
    unfold shape_keys. simpl. intuition discriminate. }
  unfold save_path_of, temp_suffix, dict_get_default. now rewrite Ht.
Qed.

(** The files of a run: nothing removed, and what is new is the temporary
    file or the file of the request. *)
Lemma run_files :
  exists new,
    files (final (generate ext self uid params w)) = (new ++ files w)%list /\
    (forall path bs, In (path, bs) new ->
       path = save_path_of ext uid params \/
       NamedTemporaryFile ext (temp_suffix ext params) = Ok path) /\
    ((forall suffix, ~ In (EvTempFile suffix) (calls (generate ext self uid params w))) ->
     new = []).
Proof.
  destruct (generate_run_spec ext self uid params w) as
    [e is_mv r1 E1 | p1 pu e is_mv r1 r2 E1 E2
     | p1 pu p2 mesh e is_mv r1 r2 r3 E1 E2 E3
     | p1 pu p2 mesh mesh' is_mv r1 r2 r3 r4 E1 E2 E3];
    cbn [final calls].
  - exists []. repeat split; [apply keeps_files_input_stage | intros ? ? []].
  - exists []. repeat split; [|intros ? ? []].
    unfold r2. rewrite keeps_files_shape_stage. apply keeps_files_input_stage.
  - exists []. repeat split; [|intros ? ? []].
    unfold r3. rewrite keeps_files_texture_stage.
    unfold r2. rewrite keeps_files_shape_stage. apply keeps_files_input_stage.
  - destruct (export_stage_writes ext uid p2 mesh' (final r3))
      as (new & rest & Hf & Hp & Hc).
    destruct (run_save_path p1 p2 pu mesh w (final r1) E1 E2) as [Hs Ht].
    rewrite Hs, Ht in *.
    exists new. split; [|split].
    + fold r4 in Hf. rewrite Hf. f_equal.
      unfold r3. rewrite keeps_files_texture_stage.
      unfold r2. rewrite keeps_files_shape_stage. apply keeps_files_input_stage.
    + exact Hp.
    + intros Hno. exfalso. apply (Hno (temp_suffix ext params)).
      fold r4 in Hc. rewrite Hc, !in_app_iff. right. right. right. now left.
Qed.

(** The result of a run that returns. *)
Lemma run_artifact (res : string * string) :
  outcome (generate ext self uid params w) = Ok res ->
  res = (save_path_of ext uid params, uid) /\
  exists mesh bs,
    mesh_export ext mesh (save_path_of ext uid params) = Ok bs /\
    read_file (save_path_of ext uid params)
      (files (final (generate ext self uid params w))) = Some bs.
Proof.
  destruct (generate_run_spec ext self uid params w) as
    [e is_mv r1 E1 | p1 pu e is_mv r1 r2 E1 E2
     | p1 pu p2 mesh e is_mv r1 r2 r3 E1 E2 E3
     | p1 pu p2 mesh mesh' is_mv r1 r2 r3 r4 E1 E2 E3];
    cbn [outcome final]; try discriminate.
  intros Hres.
  destruct (run_save_path p1 p2 pu mesh w (final r1) E1 E2) as [Hs _].
  destruct (export_stage_Ok ext uid p2 mesh' (final r3) res Hres)
    as (Hr & m & bs & He & Hf).
  rewrite Hs in *. split; [exact Hr|]. now exists m, bs.
Qed.

End RunFiles.

(** X4. The files [generate] writes itself, the log apart (a run that gets
    past the pipeline sends a record to the logger, line 272, and the
    handlers put it into [gradio_cache/controller.log]; the state has no
    log). A run removes no file and writes to at most two paths: the
    temporary file it asked for, and the file of the request,
    [SAVE_DIR/{uid}.{type}]. A run that never asks for the temporary file
    (it ended before the export) creates and writes no file of its own. *)
Theorem generate_writes_two_paths (ext : Externals) (self : ModelWorker)
  (uid : string) (params : dict) (w : World) :
  exists new,
    files (final (generate ext self uid params w)) = (new ++ files w)%list /\
    (forall path bs, In (path, bs) new ->
       path = save_path_of ext uid params \/
       NamedTemporaryFile ext (temp_suffix ext params) = Ok path) /\
    ((forall suffix, ~ In (EvTempFile suffix) (calls (generate ext self uid params w))) ->
     new = []).
Proof. apply run_files. Qed.

(** X5. A run that returns gives back [SAVE_DIR/{uid}.{type}] and the uid
    it was given, and the file at that path is on disk, holding the bytes
    that [mesh.export] wrote there. *)
Theorem generate_returns_artifact (ext : Externals) (self : ModelWorker)
  (uid : string) (params : dict) (w : World) (res : string * string) :
  outcome (generate ext self uid params w) = Ok res ->
  res = (save_path_of ext uid params, uid) /\
  exists mesh bs,
    mesh_export ext mesh (save_path_of ext uid params) = Ok bs /\
    read_file (save_path_of ext uid params)
      (files (final (generate ext self uid params w))) = Some bs.
Proof. apply run_artifact. Qed.

(** A single-image run on the sample collaborators and what it returns. *)
Lemma generate_returns_artifact_sample :
  ("gradio_cache/job.glb", "job") =
    (save_path_of sample_ext "job" [("image", VStr "aGVsbG8=")], "job") /\
  exists mesh bs,
    mesh_export sample_ext mesh
      (save_path_of sample_ext "job" [("image", VStr "aGVsbG8=")]) = Ok bs /\
    read_file (save_path_of sample_ext "job" [("image", VStr "aGVsbG8=")])
      (files (final (generate sample_ext (init sample_models "cuda" false false)
                       "job" [("image", VStr "aGVsbG8=")] (initial_world 5))))
      = Some bs.
Proof.
  exact (generate_returns_artifact sample_ext (init sample_models "cuda" false false)
           "job" [("image", VStr "aGVsbG8=")] (initial_world 5)
           ("gradio_cache/job.glb", "job") eq_refl).
Defined.

(** X6. After a run that returns for a request of type [glb] (the default),
    [/status/{uid}] answers completed, and its [model_base64] decodes to
    the bytes [mesh.export] wrote for that request. *)
Theorem status_after_run (ext : Externals) (self : ModelWorker) (uid : string)
  (params : dict) (w : World) (res : string * string) :
  outcome (generate ext self uid params w) = Ok res ->
  dict_get_default "type" (VStr "glb") params = VStr "glb" ->
  exists model_base64 mesh bs,
    outcome (status uid (final (generate ext self uid params w))) =
      Ok (JSONResponse [("status", VStr "completed");
                        ("model_base64", VStr model_base64)] 200) /\
    Base64.b64decode model_base64 = Some bs /\
    mesh_export ext mesh (os_path_join SAVE_DIR (uid ++ ".glb")) = Ok bs.
Proof.
  intros Hres Htype.
  destruct (run_artifact ext self uid params w res Hres)
    as (_ & mesh & bs & He & Hf).
  assert (Hp : save_path_of ext uid params = os_path_join SAVE_DIR (uid ++ ".glb")).
  { unfold save_path_of. rewrite Htype. reflexivity. }
  rewrite Hp in *.
  exists (Base64.b64encode bs), mesh, bs.
  unfold status. rewrite Hf. cbn [outcome].
  repeat split; [apply b64decode_b64encode | exact He].
Qed.

(** X7. A request of another type never shows in [/status/{uid}]: whether
    its run returns or raises, the endpoint answers after the run what it
    answered before. (The temporary file is not the [.glb] of the uid.) *)
Theorem status_blind_to_other_types (ext : Externals) (self : ModelWorker)
  (uid : string) (params : dict) (w : World) :
  fstr ext (dict_get_default "type" (VStr "glb") params) <> "glb" ->
  NamedTemporaryFile ext (temp_suffix ext params)
    <> Ok (os_path_join SAVE_DIR (uid ++ ".glb")) ->
  outcome (status uid (final (generate ext self uid params w))) =
    outcome (status uid w).
Proof.
  intros Htype Htmp.
  destruct (run_files ext self uid params w) as (new & Hf & Hp & _).
  unfold status. rewrite Hf.
  rewrite read_file_app_other;
    [now destruct (read_file (os_path_join SAVE_DIR (uid ++ ".glb")) (files w))|].
  intros p bs Hin Heq. subst p.
  destruct (Hp _ _ Hin) as [Hs|Ht].
  - unfold save_path_of in Hs. apply os_path_join_SAVE_DIR_inj in Hs.
    apply string_app_inv_head in Hs.
    change (".glb" = "." ++ fstr ext (dict_get_default "type" (VStr "glb") params)) in Hs.
    injection Hs as Hs. now apply Htype.
  - now apply Htmp.
Qed.

(** A returned run of the default type, then the status of its uid. *)
Lemma status_after_run_sample :
  exists model_base64 mesh bs,
    outcome (status "job"
               (final (generate sample_ext (init sample_models "cuda" false false)
                         "job" [("image", VStr "aGVsbG8=")] (initial_world 5)))) =
      Ok (JSONResponse [("status", VStr "completed");
                        ("model_base64", VStr model_base64)] 200) /\
    Base64.b64decode model_base64 = Some bs /\
    mesh_export sample_ext mesh (os_path_join SAVE_DIR ("job" ++ ".glb")) = Ok bs.
Proof.
  exact (status_after_run sample_ext (init sample_models "cuda" false false)
           "job" [("image", VStr "aGVsbG8=")] (initial_world 5)
           ("gradio_cache/job.glb", "job") eq_refl eq_refl).
Defined.

(** A request for an [obj] file: it is saved, and the status of its uid
    still says processing. *)
Lemma status_blind_to_obj :
  outcome (status "job"
             (final (generate sample_ext (init sample_models "cuda" false false)
                       "job" [("image", VStr "aGVsbG8="); ("type", VStr "obj")]
                       (initial_world 5)))) =
    outcome (status "job" (initial_world 5)).
Proof.
  apply status_blind_to_other_types; discriminate.
Defined.

Example obj_run_is_saved :
  outcome (generate sample_ext (init sample_models "cuda" false false)
             "job" [("image", VStr "aGVsbG8="); ("type", VStr "obj")]
             (initial_world 5)) = Ok ("gradio_cache/job.obj", "job") /\
  outcome (status "job" (initial_world 5)) =
    Ok (JSONResponse [("status", VStr "processing")] 200).
Proof. split; reflexivity. Qed.

(** ** Where the saved mesh comes from *)

(** An export that returns: the mesh goes to the temporary file, is read
    back from it, and what was read goes to the file of the request. *)
Lemma export_stage_returns (ext : Externals) (uid : string) (params : dict)
  (mesh : pyval) (w : World) (res : string * string) :
  outcome (export_stage ext uid params mesh w) = Ok res ->
  exists tmp bs mesh2 bs2,
    NamedTemporaryFile ext (temp_suffix ext params) = Ok tmp /\
    mesh_export ext mesh tmp = Ok bs /\
    trimesh_load ext tmp bs = Ok mesh2 /\
    mesh_export ext mesh2 (save_path_of ext uid params) = Ok bs2 /\
    calls (export_stage ext uid params mesh w) =
      [EvTempFile (temp_suffix ext params); EvExport mesh tmp; EvTrimeshLoad tmp;
       EvExport mesh2 (save_path_of ext uid params); EvEmptyCache] /\
    files (final (export_stage ext uid params mesh w)) =
      (save_path_of ext uid params, bs2) :: (tmp, bs) :: (tmp, []) :: files w.
Proof.
  unfold export_stage. cbv zeta.
  fold (save_path_of ext uid params). fold (temp_suffix ext params).
  destruct (NamedTemporaryFile ext (temp_suffix ext params)) as [tmp|] eqn:E1;
    [|rewrite bind_call_Raise; discriminate].
  run_step. run_step.
  destruct (mesh_export ext mesh tmp) as [bs|] eqn:E2;
    [|rewrite bind_call_Raise; discriminate].
  run_step. run_step.
  destruct (trimesh_load ext tmp bs) as [mesh2|] eqn:E3;
    [|rewrite bind_call_Raise; discriminate].
  run_step.
  destruct (mesh_export ext mesh2 (save_path_of ext uid params)) as [bs2|] eqn:E4;
    [|rewrite bind_call_Raise; discriminate].
  run_step. run_step.
  destruct (empty_cache ext) as [[]|]; [|rewrite bind_call_Raise; discriminate].
  run_step. intros _.
  exists tmp, bs, mesh2, bs2. repeat split; assumption.
Qed.

(** A shape part that returns: its mesh is the decoded mesh of the request,
    or what the pipeline gave for the parameters with the defaults. *)
Lemma shape_stage_returns (ext : Externals) (self : ModelWorker)
  (is_multiview : pyval) (p1 p2 : dict) (pu : bool * (dict -> result pyval))
  (mesh : pyval) (w : World) :
  outcome (shape_stage ext self is_multiview p1 pu w) = Ok (p2, mesh) ->
  match dict_get "mesh" p1 with
  | Some m => trimesh_load_glb ext m = Ok mesh
  | None =>
      exists gen,
        manual_seed ext (device self) (dict_get_default "seed" (VInt 1234) p1) = Ok gen /\
        snd pu (with_defaults is_multiview (dict_set "generator" gen p1)) = Ok mesh
  end.
Proof.
  unfold shape_stage. destruct (dict_get "mesh" p1) as [m|]; intros H.
  - destruct (trimesh_load_glb ext m) as [mesh0|] eqn:E;
      [|rewrite bind_call_Raise in H; discriminate].
    rewrite bind_call_Ok in H. cbn in H. now injection H as _ <-.
  - cbv zeta in H.
    destruct (manual_seed ext (device self) _) as [gen|] eqn:E1;
      [|rewrite bind_call_Raise in H; discriminate].
    rewrite bind_call_Ok in H. cbn [after_call outcome] in H.
    destruct (snd pu (with_defaults is_multiview (dict_set "generator" gen p1)))
      as [mesh0|] eqn:E2; [|rewrite bind_call_Raise in H; discriminate].
    rewrite bind_call_Ok in H. cbn in H. injection H as _ <-.
    exists gen. now split.
Qed.

(** X19. The file a returned run saves, traced back. It holds the export
    of the mesh read back from the temporary file; the temporary file
    holds the export of the mesh the stages before made; that mesh is the
    result of the texture pipeline on the cleaned and reduced mesh when
    [texture] is set, and the mesh of the shape part as it is when not;
    and the mesh of the shape part is the decoded [mesh] of the request
    or, without one, what the pipeline of the mode returned for the
    parameters with their defaults and the seeded generator. *)
Theorem saved_mesh_provenance (ext : Externals) (self : ModelWorker) (uid : string)
  (params : dict) (w : World) (res : string * string) :
  outcome (generate ext self uid params w) = Ok res ->
  exists p1 pu mesh0 mesh1 tmp bs mesh2 bs2,
    outcome (input_stage ext self
               (dict_get_default "multiview" (VBool false) params) params w)
      = Ok (p1, pu) /\
    match dict_get "mesh" params with
    | Some m => trimesh_load_glb ext m = Ok mesh0
    | None =>
        exists gen,
          manual_seed ext (device self)
            (dict_get_default "seed" (VInt 1234) params) = Ok gen /\
          snd pu (with_defaults (dict_get_default "multiview" (VBool false) params)
                    (dict_set "generator" gen p1)) = Ok mesh0
    end /\
    (if truthy (dict_get_default "texture" (VBool false) params)
     then exists m1 m2 m3 img tex,
            FloaterRemover ext mesh0 = Ok m1 /\
            DegenerateFaceRemover ext m1 = Ok m2 /\
            FaceReducer ext m2
              (dict_get_default "face_count" (VInt 40000) params) = Ok m3 /\
            pipeline_tex self = Some tex /\
            tex m3 img = Ok mesh1
     else mesh1 = mesh0) /\
    NamedTemporaryFile ext (temp_suffix ext params) = Ok tmp /\
    mesh_export ext mesh1 tmp = Ok bs /\
    trimesh_load ext tmp bs = Ok mesh2 /\
    mesh_export ext mesh2 (save_path_of ext uid params) = Ok bs2 /\
    read_file (save_path_of ext uid params)
      (files (final (generate ext self uid params w))) = Some bs2.
Proof.
  destruct (generate_run_spec ext self uid params w) as
    [e is_mv r1 E1 | p1 pu e is_mv r1 r2 E1 E2
     | p1 pu p2 mesh e is_mv r1 r2 r3 E1 E2 E3
     | p1 pu p2 mesh mesh' is_mv r1 r2 r3 r4 E1 E2 E3];
    cbn [outcome final]; try discriminate.
  intros Hres.
  destruct (input_stage_Ok ext self is_mv params p1 pu w E1) as (Hk & _).
  destruct (run_save_path ext self uid params p1 p2 pu mesh w (final r1) E1 E2)
    as [Hs Ht].
  destruct (export_stage_returns ext uid p2 mesh' (final r3) res Hres)
    as (tmp & bs & mesh2 & bs2 & F1 & F2 & F3 & F4 & _ & Hf).
  rewrite Hs in *. rewrite Ht in *.
  exists p1, pu, mesh, mesh', tmp, bs, mesh2, bs2.
  split; [exact E1|]. split; [|split].
  - pose proof (shape_stage_returns ext self is_mv p1 p2 pu mesh (final r1) E2) as Hsh.
    rewrite (Hk "mesh") in Hsh by discriminate.
    destruct (dict_get "mesh" params) as [m|]; [exact Hsh|].
    unfold dict_get_default in Hsh. rewrite (Hk "seed") in Hsh by discriminate.
    exact Hsh.
  - assert (Hkey : forall k, k <> "image" -> ~ In k shape_keys ->
                     dict_get k p2 = dict_get k params)
      by (intros k; apply (run_params_key ext self params p1 p2 pu mesh w (final r1) k E1 E2)).
    assert (Htex : dict_get_default "texture" (VBool false) p2 =
                   dict_get_default "texture" (VBool false) params).
    { unfold dict_get_default. rewrite Hkey; [reflexivity | discriminate |].
      unfold shape_keys. simpl. intuition discriminate. }
    assert (Hfc : dict_get_default "face_count" (VInt 40000) p2 =
                  dict_get_default "face_count" (VInt 40000) params).
    { unfold dict_get_default. rewrite Hkey; [reflexivity | discriminate |].
      unfold shape_keys. simpl. intuition discriminate. }
    rewrite <- Htex, <- Hfc.
    destruct (truthy (dict_get_default "texture" (VBool false) p2)) eqn:Hon.
    + destruct (texture_stage_Ok ext self is_mv p2 mesh mesh' (final r2) Hon E3)
        as (m1 & m2 & m3 & img & tex & G1 & G2 & G3 & G4 & G5 & _).
      exists m1, m2, m3, img, tex. now repeat split.
    + unfold r3 in E3. rewrite (texture_stage_off ext self is_mv p2 mesh (final r2) Hon) in E3.
      cbn [outcome] in E3. now injection E3.
  - repeat split; try assumption.
    fold r4 in Hf. rewrite Hf. apply read_file_head.
Qed.

(** A textured single-image run on the sample collaborators, traced. *)
Lemma saved_mesh_sample :
  exists p1 pu mesh0 mesh1 tmp bs mesh2 bs2,
    outcome (input_stage sample_ext (init sample_models "cuda" true false)
               (dict_get_default "multiview" (VBool false)
                  [("image", VStr "aGVsbG8="); ("texture", VBool true)])
               [("image", VStr "aGVsbG8="); ("texture", VBool true)] (initial_world 5))
      = Ok (p1, pu) /\
    match dict_get "mesh" [("image", VStr "aGVsbG8="); ("texture", VBool true)] with
    | Some m => trimesh_load_glb sample_ext m = Ok mesh0
    | None =>
        exists gen,
          manual_seed sample_ext (device (init sample_models "cuda" true false))
            (dict_get_default "seed" (VInt 1234)
               [("image", VStr "aGVsbG8="); ("texture", VBool true)]) = Ok gen /\
          snd pu (with_defaults
                    (dict_get_default "multiview" (VBool false)
                       [("image", VStr "aGVsbG8="); ("texture", VBool true)])
                    (dict_set "generator" gen p1)) = Ok mesh0
    end /\
    (if truthy (dict_get_default "texture" (VBool false)
                  [("image", VStr "aGVsbG8="); ("texture", VBool true)])
     then exists m1 m2 m3 img tex,
            FloaterRemover sample_ext mesh0 = Ok m1 /\
            DegenerateFaceRemover sample_ext m1 = Ok m2 /\
            FaceReducer sample_ext m2
              (dict_get_default "face_count" (VInt 40000)
                 [("image", VStr "aGVsbG8="); ("texture", VBool true)]) = Ok m3 /\
            pipeline_tex (init sample_models "cuda" true false) = Some tex /\
            tex m3 img = Ok mesh1
     else mesh1 = mesh0) /\
    NamedTemporaryFile sample_ext
      (temp_suffix sample_ext [("image", VStr "aGVsbG8="); ("texture", VBool true)])
      = Ok tmp /\
    mesh_export sample_ext mesh1 tmp = Ok bs /\
    trimesh_load sample_ext tmp bs = Ok mesh2 /\
    mesh_export sample_ext mesh2
      (save_path_of sample_ext "job" [("image", VStr "aGVsbG8="); ("texture", VBool true)])
      = Ok bs2 /\
    read_file
      (save_path_of sample_ext "job" [("image", VStr "aGVsbG8="); ("texture", VBool true)])
      (files (final (generate sample_ext (init sample_models "cuda" true false) "job"
                       [("image", VStr "aGVsbG8="); ("texture", VBool true)]
                       (initial_world 5)))) = Some bs2.
Proof.
  exact (saved_mesh_provenance sample_ext (init sample_models "cuda" true false) "job"
           [("image", VStr "aGVsbG8="); ("texture", VBool true)] (initial_world 5)
           ("gradio_cache/job.glb", "job") eq_refl).
Defined.

(** ** The synchronous handlers *)

(** The [try] around [worker.generate], for a body that is a dictionary. *)
Lemma respond_outcome (ext : Externals) (worker : option ModelWorker)
  (uid : string) (params : dict) (w : World) :
  outcome (respond ext worker uid params w) =
    Ok (match worker with
        | Some self =>
            match outcome (generate ext self uid params w) with
            | Ok _ => FileResponse (save_path_of ext uid params)
            | Raise _ =>
                JSONResponse [("text", VStr server_error_msg); ("error_code", VInt 1)] 404
            end
        | None =>
            JSONResponse [("text", VStr server_error_msg); ("error_code", VInt 1)] 404
        end).
Proof.
  unfold respond. destruct worker as [self|]; [|reflexivity].
  destruct (outcome (generate ext self uid params w)) as [[path uid']|e] eqn:Hres;
    [|reflexivity].
  destruct (run_artifact ext self uid params w _ Hres) as (Hr & _).
  injection Hr as -> ->. reflexivity.
Qed.

(** X8. [POST /generate] raises in one case only: the body is not JSON, and
    the exception of [request.json()], which stands before the [try],
    leaves the handler. For a body that decodes, the handler answers the
    file of the request, [SAVE_DIR/{uid}.{type}], when the body is an
    object and the run returns, and one and the same 404 envelope in every
    other case: the run raised (whichever exception of the model, all of
    them classes derived from [Exception]), the body is JSON but no
    object, or the name [worker] is not bound. On an object the handler is
    [route_generate]. *)
Theorem post_generate_answers (ext : Externals) (worker : option ModelWorker)
  (uid : string) (body : result pyval) (w : World) :
  outcome (post_generate ext worker uid body w) =
    match body with
    | Raise e => Raise e
    | Ok (VDict params) =>
        Ok (match worker with
            | Some self =>
                match outcome (generate ext self uid params w) with
                | Ok _ => FileResponse (save_path_of ext uid params)
                | Raise _ =>
                    JSONResponse [("text", VStr server_error_msg);
                                  ("error_code", VInt 1)] 404
                end
            | None =>
                JSONResponse [("text", VStr server_error_msg); ("error_code", VInt 1)] 404
            end)
    | Ok _ =>
        Ok (JSONResponse [("text", VStr server_error_msg); ("error_code", VInt 1)] 404)
    end /\
  ((exists e, outcome (post_generate ext worker uid body w) = Raise e) <->
   (exists e, body = Raise e)) /\
  (forall params,
     post_generate ext worker uid (Ok (VDict params)) w =
       route_generate ext worker uid params w).
Proof.
  assert (Hdict : forall params,
             post_generate ext worker uid (Ok (VDict params)) w =
               route_generate ext worker uid params w).
  { intros params. unfold post_generate, route_generate, respond, generate_body.
    reflexivity. }
  assert (Hout : outcome (post_generate ext worker uid body w) =
                 match body with
                 | Raise e => Raise e
                 | Ok (VDict params) => outcome (respond ext worker uid params w)
                 | Ok _ => Ok error_response
                 end).
  { destruct body as [v|e]; [|reflexivity].
    destruct v; unfold post_generate; now destruct worker. }
  split; [|split; [|exact Hdict]].
  - rewrite Hout. destruct body as [v|e]; [|reflexivity].
    destruct v; try reflexivity. apply respond_outcome.
  - rewrite Hout. split.
    + intros [e He]. destruct body as [v|e']; [|now exists e'].
      destruct v; try discriminate.
      rewrite respond_outcome in He. discriminate.
    + intros [e ->]. now exists e.
Qed.

(** A body that is no JSON, one that is a list, and the handler without a
    worker. *)
Example post_generate_bodies :
  outcome (post_generate sample_ext (Some (init sample_models "cuda" false false)) "job"
             (Raise (ValueError "Expecting value: line 1 column 1 (char 0)"))
             (initial_world 5)) =
    Raise (ValueError "Expecting value: line 1 column 1 (char 0)") /\
  outcome (post_generate sample_ext (Some (init sample_models "cuda" false false)) "job"
             (Ok (VList [VInt 1])) (initial_world 5)) = Ok error_response /\
  outcome (post_generate sample_ext shipped_worker "job"
             (Ok (VDict [("image", VStr "aGVsbG8=")])) (initial_world 5)) =
    Ok error_response /\
  outcome (post_generate sample_ext (Some (init sample_models "cuda" false false)) "job"
             (Ok (VDict [("image", VStr "aGVsbG8=")])) (initial_world 5)) =
    Ok (FileResponse "gradio_cache/job.glb").
Proof. repeat split. Qed.

(** ** A worker without the multiview pipeline *)

(** X9. A worker started without [enable_multiview] serves no multiview
    request: every request with the flag set ends in an exception, and
    neither the Model Pipeline Adapter nor the generator is reached. *)
Theorem no_multiview_without_pipeline (ext : Externals) (models : Pretrained)
  (dev : string) (enable_tex : bool) (uid : string) (params : dict) (w : World) :
  truthy (dict_get_default "multiview" (VBool false) params) = true ->
  (exists e,
     outcome (generate ext (init models dev enable_tex false) uid params w) = Raise e) /\
  adapter_calls (calls (generate ext (init models dev enable_tex false) uid params w)) = [] /\
  seed_calls (calls (generate ext (init models dev enable_tex false) uid params w)) = [].
Proof.
  intros Hmv.
  set (self := init models dev enable_tex false).
  destruct (outcome (input_stage ext self
                       (dict_get_default "multiview" (VBool false) params) params w))
    as [[p1 pu]|e] eqn:E1.
  - destruct (input_stage_Ok ext self _ params p1 pu w E1) as (_ & _ & Hp).
    rewrite Hmv in Hp. discriminate.
  - rewrite (generate_input_raises ext self uid params w e E1). cbn [outcome calls].
    split; [now exists e|]. split.
    + apply (filter_other_kind is_input_call is_adapter_call);
        [apply input_call_not_adapter | apply only_input_stage].
    + apply (filter_other_kind is_input_call is_seed_call);
        [apply input_call_not_seed | apply only_input_stage].
Qed.

(** The three views are there and load; the worker has no pipeline for them. *)
Lemma no_multiview_sample :
  (exists e,
     outcome (generate sample_ext (init sample_models "cuda" true false) "job"
                [("multiview", VBool true);
                 ("images", VDict [("front", VStr "Zg=="); ("left", VStr "bA==");
                                   ("back", VStr "Yg==")])]
                (initial_world 5)) = Raise e) /\
  adapter_calls
    (calls (generate sample_ext (init sample_models "cuda" true false) "job"
              [("multiview", VBool true);
               ("images", VDict [("front", VStr "Zg=="); ("left", VStr "bA==");
                                 ("back", VStr "Yg==")])]
              (initial_world 5))) = [] /\
  seed_calls
    (calls (generate sample_ext (init sample_models "cuda" true false) "job"
              [("multiview", VBool true);
               ("images", VDict [("front", VStr "Zg=="); ("left", VStr "bA==");
                                 ("back", VStr "Yg==")])]
              (initial_world 5))) = [].
Proof.
  exact (no_multiview_without_pipeline sample_ext sample_models "cuda" true "job"
           [("multiview", VBool true);
            ("images", VDict [("front", VStr "Zg=="); ("left", VStr "bA==");
                              ("back", VStr "Yg==")])]
           (initial_world 5) eq_refl).
Defined.

(** ** What reaches the pipeline *)

(** X13. Every key of the request goes to the Model Pipeline Adapter as a
    keyword argument with the value the request gave it, the keys that
    [generate] assigns itself apart ([image] and those of [shape_keys]):
    [texture], [face_count], [type], [seed], [multiview], [images] and
    keys the worker knows nothing of are all handed on. *)
Theorem request_keys_reach_adapter (ext : Externals) (self : ModelWorker)
  (uid : string) (params : dict) (w : World) (mv : bool) (kwargs : dict)
  (k : string) (v : pyval) :
  In (EvPipeline mv kwargs) (calls (generate ext self uid params w)) ->
  dict_get k params = Some v ->
  k <> "image" -> ~ In k shape_keys ->
  dict_get k kwargs = Some v.
Proof.
  intros Hin Hk Hi Hs.
  set (is_mv := dict_get_default "multiview" (VBool false) params).
  destruct (outcome (input_stage ext self is_mv params w)) as [[p1 pu]|e] eqn:E1.
  - destruct (input_stage_Ok ext self is_mv params p1 pu w E1) as (Hkeys & _).
    destruct (generate_input_returns ext self uid params w p1 pu E1)
      as (c3 & c4 & Hc & F3 & F4).
    fold is_mv in Hc. rewrite Hc, !in_app_iff in Hin.
    destruct Hin as [Hin|[Hin|[Hin|Hin]]].
    + pose proof (only_input_stage ext self is_mv params w) as F1.
      rewrite Forall_forall in F1. specialize (F1 _ Hin). discriminate.
    + destruct (dict_get "mesh" p1) as [m|] eqn:Hm.
      * rewrite (shape_stage_mesh ext self is_mv p1 pu m _ Hm) in Hin.
        destruct Hin as [Hin|[]]. discriminate.
      * rewrite (shape_stage_no_mesh ext self is_mv p1 pu _ Hm) in Hin.
        destruct Hin as [Hin|Hin]; [discriminate|].
        destruct (manual_seed ext (device self) _) as [gen|]; [|destruct Hin].
        destruct Hin as [Hin|[]]. injection Hin as _ <-.
        rewrite with_defaults_other by assumption.
        rewrite dict_get_set_other.
        -- rewrite Hkeys by assumption. exact Hk.
        -- intros <-. apply Hs. simpl. auto.
    + rewrite Forall_forall in F3. specialize (F3 _ Hin). discriminate.
    + rewrite Forall_forall in F4. specialize (F4 _ Hin). discriminate.
  - rewrite (generate_input_raises ext self uid params w e E1) in Hin.
    cbn [calls] in Hin.
    pose proof (only_input_stage ext self is_mv params w) as F1.
    rewrite Forall_forall in F1. specialize (F1 _ Hin). discriminate.
Qed.

(** A key of the caller's own, and [texture], in the arguments of the call. *)
Lemma request_keys_sample :
  dict_get "watermark" 
    [("image", VImage 2); ("watermark", VStr "draft"); ("texture", VBool false);
     ("generator", VOpaque 7); ("octree_resolution", VInt 128);
     ("num_inference_steps", VInt 5); ("mc_algo", VStr "mc");
     ("guidance_scale", VFloat 5%float)] = Some (VStr "draft").
Proof.
  apply (request_keys_reach_adapter sample_ext (init sample_models "cuda" false false)
           "job"
           [("image", VStr "aGVsbG8="); ("watermark", VStr "draft");
            ("texture", VBool false)]
           (initial_world 5) false _ "watermark" (VStr "draft")).
  - vm_compute. right. right. right. left. reflexivity.
  - reflexivity.
  - discriminate.
  - unfold shape_keys. simpl. intuition discriminate.
Defined.

(** ** The server as a whole *)

Lemma keeps_gate_respond (ext : Externals) (worker : option ModelWorker)
  (uid : string) (params : dict) :
  keeps_gate (respond ext worker uid params).
Proof.
  intros w. unfold respond. destruct worker as [self|]; [|now split].
  pose proof (keeps_gate_generate ext self uid params w) as Hg.
  destruct (outcome (generate ext self uid params w)) as [[path uid']|e]; exact Hg.
Qed.

Lemma keeps_gate_status (uid : string) : keeps_gate (status uid).
Proof.
  intros w. unfold status.
  now destruct (read_file (os_path_join SAVE_DIR (uid ++ ".glb")) (files w)).
Qed.

Lemma server_step_keeps_gate (ext : Externals) (worker : option ModelWorker)
  (s s' : Server) :
  server_step ext worker s s' ->
  sem_value (world s') = sem_value (world s) /\
  sem_waiters (world s') = sem_waiters (world s).
Proof.
  intros Hstep. destruct Hstep as [uid params s|i s|uid params s|uid f s|uid f s|uid s];
    cbn [world].
  - unfold route_send. now destruct worker.
  - unfold thread_exit. destruct worker as [self|]; [|now split].
    destruct (nth_error (running s) i) as [[uid params]|]; [|now split].
    cbn [world]. apply keeps_gate_generate.
  - apply keeps_gate_respond.
  - apply keeps_gate_respond.
  - apply keeps_gate_respond.
  - apply keeps_gate_status.
Qed.

(** X12. However requests and thread exits follow one another, the
    semaphore of the server stays as the main block made it, and
    [get_status] reports a queue length of zero: that is what every state
    the server can reach shows, with any number of runs in progress. *)
Theorem queue_length_always_zero (ext : Externals) (worker : option ModelWorker)
  (limit_model_concurrency : Z) (s : Server) :
  reachable ext worker limit_model_concurrency s ->
  sem_value (world s) = limit_model_concurrency /\
  get_status limit_model_concurrency (world s) =
    [("speed", VInt 1); ("queue_length", VInt 0)].
Proof.
  intros Hr.
  assert (H : sem_value (world s) = limit_model_concurrency /\
              sem_waiters (world s) = 0).
  { induction Hr as [|s s' _ [IHv IHq] Hstep].
    - now split.
    - destruct (server_step_keeps_gate ext worker s s' Hstep) as [Hv Hq].
      split; congruence. }
  destruct H as [Hv Hq]. split; [exact Hv|].
  unfold get_status, get_queue_length. rewrite Hv, Hq.
  repeat f_equal. lia.
Qed.

(** Three submissions with capacity one, the first of them ended. *)
Lemma queue_length_sample :
  sem_value (world (thread_exit sample_ext (Some (init sample_models "cuda" false false)) 0
                      (burst (Some (init sample_models "cuda" false false))
                         [("a", [("image", VStr "aGVsbG8=")]);
                          ("b", [("image", VStr "aGVsbG8=")]);
                          ("c", [("image", VStr "aGVsbG8=")])]
                         (initial_server 1)))) = 1 /\
  get_status 1
    (world (thread_exit sample_ext (Some (init sample_models "cuda" false false)) 0
              (burst (Some (init sample_models "cuda" false false))
                 [("a", [("image", VStr "aGVsbG8=")]);
                  ("b", [("image", VStr "aGVsbG8=")]);
                  ("c", [("image", VStr "aGVsbG8=")])]
                 (initial_server 1)))) =
    [("speed", VInt 1); ("queue_length", VInt 0)].
Proof.
  apply (queue_length_always_zero sample_ext
           (Some (init sample_models "cuda" false false)) 1).
  eapply reachable_step; [|apply step_thread_exit].
  eapply reachable_step; [|apply (step_send _ _ "c" [("image", VStr "aGVsbG8=")])].
  eapply reachable_step; [|apply (step_send _ _ "b" [("image", VStr "aGVsbG8=")])].
  eapply reachable_step; [|apply (step_send _ _ "a" [("image", VStr "aGVsbG8=")])].
  apply reachable_start.
Defined.

(** ** Runs and capacity in the server as it is started *)







(** ** Failures behind [/send] *)



(** ** The images of a request *)

Lemma bind_lift_Ok {A B} (a : A) (k : A -> M B) (w : World) :
  bind (lift (Ok a)) k w = rerun (k a w).
Proof. reflexivity. Qed.

Lemma bind_lift_Raise {A B} (e : exn) (k : A -> M B) (w : World) :
  bind (@lift A (Raise e)) k w = mkRun (Raise e) w [].
Proof. reflexivity. Qed.

Lemma bind_raise_first {A B} (e : exn) (k : A -> M B) (w : World) :
  bind (@raise A e) k w = mkRun (Raise e) w [].
Proof. reflexivity. Qed.

(** One step of a sequence whose first part has returned, and the end of
    one whose first part has raised, in the goal and in a hypothesis. *)
Ltac run_on :=
  first [ rewrite bind_call_Ok | rewrite bind_lift_Ok | rewrite bind_write_file
        | rewrite bind_ret ];
  cbn [after_call rerun outcome final calls files].

Ltac run_on_in H :=
  first [ rewrite bind_call_Ok in H | rewrite bind_lift_Ok in H
        | rewrite bind_write_file in H | rewrite bind_ret in H ];
  cbn [after_call rerun outcome final calls files] in H.

Ltac run_off_in H :=
  first [ rewrite bind_call_Raise in H | rewrite bind_lift_Raise in H
        | rewrite bind_raise_first in H ];
  cbn [after_call rerun outcome final calls files] in H.

Section Images.

Variable ext : Externals.
Variable self : ModelWorker.

(** One turn of the loop over the views, when the loop returns. *)
Lemma load_views_turn (imgs : pyval) (view : string) (vs : list string)
  (images result : dict) (w : World) :
  outcome (load_views ext self imgs (view :: vs) images w) = Ok result ->
  exists raw img img',
    py_getitem view imgs = Ok raw /\
    load_image_from_base64 ext raw = Ok img /\
    rembg self img = Ok img' /\
    outcome (load_views ext self imgs vs (dict_set view img' images) w) = Ok result /\
    calls (load_views ext self imgs (view :: vs) images w) =
      EvLoadImage raw :: EvRembg img ::
      calls (load_views ext self imgs vs (dict_set view img' images) w).
Proof.
  cbn [load_views]. intros H.
  destruct (py_contains view imgs) as [[]|];
    [| run_on_in H; discriminate | run_off_in H; discriminate].
  run_on_in H. run_on.
  destruct (py_getitem view imgs) as [raw|] eqn:G; [|run_off_in H; discriminate].
  run_on_in H. run_on.
  destruct (load_image_from_base64 ext raw) as [img|] eqn:L;
    [|run_off_in H; discriminate].
  run_on_in H. run_on.
  destruct (rembg self img) as [img'|] eqn:R; [|run_off_in H; discriminate].
  run_on_in H. run_on.
  exists raw, img, img'. repeat split; assumption.
Qed.

(** The loop over the views, when it returns: each view was looked up,
    loaded and freed of its background, front first. *)
Lemma load_views_Ok (imgs : pyval) (images : dict) (w : World) :
  outcome (load_views ext self imgs views [] w) = Ok images ->
  exists r1 r2 r3 i1 i2 i3 j1 j2 j3,
    py_getitem "front" imgs = Ok r1 /\ load_image_from_base64 ext r1 = Ok i1 /\
    rembg self i1 = Ok j1 /\
    py_getitem "left" imgs = Ok r2 /\ load_image_from_base64 ext r2 = Ok i2 /\
    rembg self i2 = Ok j2 /\
    py_getitem "back" imgs = Ok r3 /\ load_image_from_base64 ext r3 = Ok i3 /\
    rembg self i3 = Ok j3 /\
    images = [("front", j1); ("left", j2); ("back", j3)] /\
    calls (load_views ext self imgs views [] w) =
      [EvLoadImage r1; EvRembg i1; EvLoadImage r2; EvRembg i2;
       EvLoadImage r3; EvRembg i3].
Proof.
  unfold views. intros H.
  destruct (load_views_turn imgs "front" ["left"; "back"] [] images w H)
    as (r1 & i1 & j1 & G1 & L1 & R1 & H1 & C1).
  destruct (load_views_turn imgs "left" ["back"] _ images w H1)
    as (r2 & i2 & j2 & G2 & L2 & R2 & H2 & C2).
  destruct (load_views_turn imgs "back" [] _ images w H2)
    as (r3 & i3 & j3 & G3 & L3 & R3 & H3 & C3).
  exists r1, r2, r3, i1, i2, i3, j1, j2, j3.
  repeat split; try assumption.
  - cbn in H3. now injection H3 as <-.
  - rewrite C1, C2, C3. reflexivity.
Qed.

(** The image an accepted request carries on: the request's image, loaded
    and freed of its background, or the three views so treated. *)
Lemma input_stage_image (is_multiview : pyval) (params p1 : dict)
  (pu : bool * (dict -> result pyval)) (w : World) :
  outcome (input_stage ext self is_multiview params w) = Ok (p1, pu) ->
  if truthy is_multiview then
    exists imgs r1 i1 j1 j2 j3,
      dict_get "images" params = Some imgs /\
      py_getitem "front" imgs = Ok r1 /\
      load_image_from_base64 ext r1 = Ok i1 /\ rembg self i1 = Ok j1 /\
      dict_get "image" p1 = Some (VDict [("front", j1); ("left", j2); ("back", j3)])
  else
    exists raw i j,
      dict_get "image" params = Some raw /\
      load_image_from_base64 ext raw = Ok i /\ rembg self i = Ok j /\
      dict_get "image" p1 = Some j.
Proof.
  unfold input_stage. destruct (truthy is_multiview); intros H.
  - apply bind_Ok_inv in H. destruct H as (p & Hp & H).
    destruct (pipeline_mv self) as [mv|]; [|discriminate].
    injection H as <- <-.
    destruct (dict_get "images" params) as [imgs|]; [|discriminate].
    apply bind_Ok_inv in Hp. destruct Hp as (images & Hl & Hp).
    injection Hp as <-.
    destruct (load_views_Ok imgs images w Hl)
      as (r1 & r2 & r3 & i1 & i2 & i3 & j1 & j2 & j3 &
          G1 & L1 & R1 & _ & _ & _ & _ & _ & _ & -> & _).
    exists imgs, r1, i1, j1, j2, j3.
    repeat split; try assumption. apply dict_get_set_same.
  - apply bind_Ok_inv in H. destruct H as (p & Hp & H).
    injection H as <- <-.
    destruct (dict_get "image" params) as [raw|].
    + destruct (load_image_from_base64 ext raw) as [i|] eqn:L;
        [|run_off_in Hp; discriminate].
      run_on_in Hp.
      destruct (rembg self i) as [j|] eqn:R; [|run_off_in Hp; discriminate].
      run_on_in Hp. cbn in Hp. injection Hp as <-.
      exists raw, i, j. repeat split; try assumption. apply dict_get_set_same.
    + destruct (dict_get "text" params); discriminate.
Qed.

End Images.
Section Images2.

Variable ext : Externals.
Variable self : ModelWorker.

(** The image the texture pipeline is called with: [params['image']], or
    its [front] for a multiview request. *)
Lemma texture_stage_image (is_multiview : pyval) (params : dict) (mesh mesh' : pyval)
  (w : World) :
  truthy (dict_get_default "texture" (VBool false) params) = true ->
  outcome (texture_stage ext self is_multiview params mesh w) = Ok mesh' ->
  exists m img,
    In (EvPipelineTex m img) (calls (texture_stage ext self is_multiview params mesh w)) /\
    (if truthy is_multiview then
       exists image, py_getitem "image" (VDict params) = Ok image /\
                     py_getitem "front" image = Ok img
     else py_getitem "image" (VDict params) = Ok img).
Proof.
  intros Htex. unfold texture_stage, bind, call, lift, ret, raise. rewrite Htex.
  cbn [outcome final calls].
  destruct (FloaterRemover ext mesh) as [m1|]; [|discriminate].
  cbn [outcome final calls].
  destruct (DegenerateFaceRemover ext m1) as [m2|]; [|discriminate].
  cbn [outcome final calls].
  destruct (FaceReducer ext m2 _) as [m3|]; [|discriminate].
  cbn [outcome final calls].
  destruct (truthy is_multiview); cbn [outcome final calls].
  - destruct (py_getitem "image" (VDict params)) as [image|];
      cbn [outcome final calls]; [|discriminate].
    destruct (py_getitem "front" image) as [img|] eqn:Hf;
      cbn [outcome final calls]; [|discriminate].
    destruct (pipeline_tex self) as [tex|]; [|discriminate].
    cbn [outcome final calls]. intros _.
    exists m3, img. split; [simpl; auto 10|].
    exists image. now split.
  - destruct (py_getitem "image" (VDict params)) as [img|];
      cbn [outcome final calls]; [|discriminate].
    destruct (pipeline_tex self) as [tex|]; [|discriminate].
    cbn [outcome final calls]. intros _.
    exists m3, img. split; [simpl; auto 10 | reflexivity].
Qed.

(** One turn of the loop over the views, for a view that is there and
    loads. *)
Lemma load_views_next (imgs : pyval) (view : string) (vs : list string)
  (images : dict) (w : World) (raw img img' : pyval) :
  py_contains view imgs = Ok true ->
  py_getitem view imgs = Ok raw ->
  load_image_from_base64 ext raw = Ok img ->
  rembg self img = Ok img' ->
  outcome (load_views ext self imgs (view :: vs) images w) =
    outcome (load_views ext self imgs vs (dict_set view img' images) w) /\
  final (load_views ext self imgs (view :: vs) images w) =
    final (load_views ext self imgs vs (dict_set view img' images) w) /\
  calls (load_views ext self imgs (view :: vs) images w) =
    EvLoadImage raw :: EvRembg img ::
    calls (load_views ext self imgs vs (dict_set view img' images) w).
Proof.
  intros Hc Hg Hl Hr. cbn [load_views].
  rewrite Hc. run_on. rewrite Hg. run_on. rewrite Hl. run_on. rewrite Hr. run_on.
  repeat split.
Qed.

(** The input part of a multiview request whose three views load: six
    calls, then the test of the multiview pipeline. *)
Lemma input_stage_views (is_multiview : pyval) (params : dict) (imgs : pyval)
  (w : World) (r1 r2 r3 i1 i2 i3 j1 j2 j3 : pyval) :
  truthy is_multiview = true ->
  dict_get "images" params = Some imgs ->
  py_contains "front" imgs = Ok true -> py_getitem "front" imgs = Ok r1 ->
  py_contains "left" imgs = Ok true -> py_getitem "left" imgs = Ok r2 ->
  py_contains "back" imgs = Ok true -> py_getitem "back" imgs = Ok r3 ->
  load_image_from_base64 ext r1 = Ok i1 -> rembg self i1 = Ok j1 ->
  load_image_from_base64 ext r2 = Ok i2 -> rembg self i2 = Ok j2 ->
  load_image_from_base64 ext r3 = Ok i3 -> rembg self i3 = Ok j3 ->
  input_stage ext self is_multiview params w =
    mkRun (match pipeline_mv self with
           | None =>
               Raise (ValueError "Multiview pipeline not loaded. Enable multiview mode.")
           | Some p =>
               Ok (dict_set "image" (VDict [("front", j1); ("left", j2); ("back", j3)])
                     params, (true, p))
           end)
      w [EvLoadImage r1; EvRembg i1; EvLoadImage r2; EvRembg i2;
         EvLoadImage r3; EvRembg i3].
Proof.
  intros Hmv Hi C1 G1 C2 G2 C3 G3 L1 R1 L2 R2 L3 R3.
  destruct (load_views_next imgs "front" ["left"; "back"] [] w r1 i1 j1 C1 G1 L1 R1)
    as (O1 & F1 & K1).
  destruct (load_views_next imgs "left" ["back"] (dict_set "front" j1 []) w
              r2 i2 j2 C2 G2 L2 R2) as (O2 & F2 & K2).
  destruct (load_views_next imgs "back" [] (dict_set "left" j2 (dict_set "front" j1 []))
              w r3 i3 j3 C3 G3 L3 R3) as (O3 & F3 & K3).
  assert (O : outcome (load_views ext self imgs views [] w) =
              Ok [("front", j1); ("left", j2); ("back", j3)])
    by (unfold views; rewrite O1, O2, O3; reflexivity).
  assert (F : final (load_views ext self imgs views [] w) = w)
    by (unfold views; rewrite F1, F2, F3; reflexivity).
  assert (K : calls (load_views ext self imgs views [] w) =
              [EvLoadImage r1; EvRembg i1; EvLoadImage r2; EvRembg i2;
               EvLoadImage r3; EvRembg i3])
    by (unfold views; rewrite K1, K2, K3; reflexivity).
  assert (E : bind (load_views ext self imgs views [])
                (fun images => ret (dict_set "image" (VDict images) params)) w =
              mkRun (Ok (dict_set "image"
                           (VDict [("front", j1); ("left", j2); ("back", j3)]) params))
                w [EvLoadImage r1; EvRembg i1; EvLoadImage r2; EvRembg i2;
                   EvLoadImage r3; EvRembg i3]).
  { rewrite (bind_ok _ _ w [("front", j1); ("left", j2); ("back", j3)] O).
    unfold ret. cbn [outcome final calls].
    f_equal; [exact F | rewrite app_nil_r; exact K]. }
  unfold input_stage. rewrite Hmv, Hi.
  unfold bind at 1. rewrite E. cbn [outcome final calls].
  destruct (pipeline_mv self); reflexivity.
Qed.

End Images2.

(** X14. In a run that returns with [texture] set, the texture pipeline is
    called with the image of the request as background removal returned
    it; for a multiview request that is the front view, the other two
    views taking no part in the texture. *)
Theorem texture_image_source (ext : Externals) (self : ModelWorker) (uid : string)
  (params : dict) (w : World) (res : string * string) :
  truthy (dict_get_default "texture" (VBool false) params) = true ->
  outcome (generate ext self uid params w) = Ok res ->
  exists mesh img raw loaded,
    In (EvPipelineTex mesh img) (calls (generate ext self uid params w)) /\
    load_image_from_base64 ext raw = Ok loaded /\
    rembg self loaded = Ok img /\
    (if truthy (dict_get_default "multiview" (VBool false) params) then
       exists imgs, dict_get "images" params = Some imgs /\
                    py_getitem "front" imgs = Ok raw
     else dict_get "image" params = Some raw).
Proof.
  intros Htex.
  destruct (generate_run_spec ext self uid params w) as
    [e is_mv r1 E1 | p1 pu e is_mv r1 r2 E1 E2
     | p1 pu p2 mesh e is_mv r1 r2 r3 E1 E2 E3
     | p1 pu p2 mesh mesh' is_mv r1 r2 r3 r4 E1 E2 E3];
    cbn [outcome calls]; try discriminate.
  intros _.
  assert (Hkey : forall k, k <> "image" -> ~ In k shape_keys ->
                           dict_get k p2 = dict_get k params).
  { intros k Hi Hs.
    rewrite (shape_stage_Ok ext self is_mv p1 p2 pu mesh (final r1) k E2 Hs).
    destruct (input_stage_Ok ext self is_mv params p1 pu w E1) as (Hk & _).
    now apply Hk. }
  assert (Himg : dict_get "image" p2 = dict_get "image" p1).
  { apply (shape_stage_Ok ext self is_mv p1 p2 pu mesh (final r1) "image" E2).
    unfold shape_keys. simpl. intuition discriminate. }
  assert (Htex2 : truthy (dict_get_default "texture" (VBool false) p2) = true).
  { unfold dict_get_default. rewrite Hkey; [exact Htex | discriminate |].
    unfold shape_keys. simpl. intuition discriminate. }
  destruct (texture_stage_image ext self is_mv p2 mesh mesh' (final r2) Htex2 E3)
    as (m & img & Hin & Hsrc).
  pose proof (input_stage_image ext self is_mv params p1 pu w E1) as Hinput.
  fold is_mv. destruct (truthy is_mv).
  - destruct Hinput as (imgs & raw & i1 & j1 & j2 & j3 & Hi & Hg & Hl & Hr & Hp1).
    destruct Hsrc as (image & Him & Hfront).
    cbn [py_getitem] in Him. rewrite Himg, Hp1 in Him. injection Him as <-.
    cbn in Hfront. injection Hfront as <-.
    exists m, j1, raw, i1. repeat split; try assumption.
    + rewrite !in_app_iff. fold r3. auto.
    + now exists imgs.
  - destruct Hinput as (raw & i & j & Hi & Hl & Hr & Hp1).
    cbn [py_getitem] in Hsrc. rewrite Himg, Hp1 in Hsrc. injection Hsrc as <-.
    exists m, j, raw, i. repeat split; try assumption.
    rewrite !in_app_iff. fold r3. auto.
Qed.

(** A textured multiview run on the sample collaborators. *)
Lemma texture_image_sample :
  exists mesh img raw loaded,
    In (EvPipelineTex mesh img)
       (calls (generate sample_ext (init sample_models "cuda" true true) "job"
                 [("multiview", VBool true);
                  ("images", VDict [("front", VStr "Zg=="); ("left", VStr "bA==");
                                    ("back", VStr "Yg==")]);
                  ("texture", VBool true)]
                 (initial_world 5))) /\
    load_image_from_base64 sample_ext raw = Ok loaded /\
    rembg (init sample_models "cuda" true true) loaded = Ok img /\
    exists imgs,
      dict_get "images"
        [("multiview", VBool true);
         ("images", VDict [("front", VStr "Zg=="); ("left", VStr "bA==");
                           ("back", VStr "Yg==")]);
         ("texture", VBool true)] = Some imgs /\
      py_getitem "front" imgs = Ok raw.
Proof.
  exact (texture_image_source sample_ext (init sample_models "cuda" true true) "job"
           [("multiview", VBool true);
            ("images", VDict [("front", VStr "Zg=="); ("left", VStr "bA==");
                              ("back", VStr "Yg==")]);
            ("texture", VBool true)]
           (initial_world 5) ("gradio_cache/job.glb", "job") eq_refl eq_refl).
Defined.

(** ** The form endpoints *)

(** X10. The multiview form hands its three uploads to the image loader in
    the order front, left, back, each as Base64 text that decodes to the
    uploaded bytes, and each loaded image goes through background removal
    before the next view is read. *)
Theorem multiview_form_uploads (ext : Externals) (self : ModelWorker) (uid : string)
  (f : MultiviewForm) (w : World) (i1 i2 i3 j1 j2 j3 : pyval) :
  load_image_from_base64 ext (VStr (Base64.b64encode (front_image f))) = Ok i1 ->
  rembg self i1 = Ok j1 ->
  load_image_from_base64 ext (VStr (Base64.b64encode (left_image f))) = Ok i2 ->
  rembg self i2 = Ok j2 ->
  load_image_from_base64 ext (VStr (Base64.b64encode (back_image f))) = Ok i3 ->
  rembg self i3 = Ok j3 ->
  exists front left back rest,
    calls (generate ext self uid (multiview_form_params f) w) =
      ([EvLoadImage (VStr front); EvRembg i1; EvLoadImage (VStr left); EvRembg i2;
        EvLoadImage (VStr back); EvRembg i3] ++ rest)%list /\
    Base64.b64decode front = Some (front_image f) /\
    Base64.b64decode left = Some (left_image f) /\
    Base64.b64decode back = Some (back_image f).
Proof.
  intros L1 R1 L2 R2 L3 R3.
  exists (Base64.b64encode (front_image f)), (Base64.b64encode (left_image f)),
    (Base64.b64encode (back_image f)).
  unfold generate.
  destruct (calls_bind_prefix
              (input_stage ext self
                 (dict_get_default "multiview" (VBool false) (multiview_form_params f))
                 (multiview_form_params f))
              (fun x => let '(params, pipeline_to_use) := x in
                 ' (params0, mesh) <-
                   shape_stage ext self
                     (dict_get_default "multiview" (VBool false) (multiview_form_params f))
                     params pipeline_to_use ;;
                 mesh0 <-
                   texture_stage ext self
                     (dict_get_default "multiview" (VBool false) (multiview_form_params f))
                     params0 mesh ;;
                 export_stage ext uid params0 mesh0) w) as [rest Hrest].
  exists rest. split; [|repeat split; apply b64decode_b64encode].
  rewrite Hrest. f_equal.
  rewrite (input_stage_views ext self
             (dict_get_default "multiview" (VBool false) (multiview_form_params f))
             (multiview_form_params f)
             (VDict [("front", VStr (Base64.b64encode (front_image f)));
                     ("left", VStr (Base64.b64encode (left_image f)));
                     ("back", VStr (Base64.b64encode (back_image f)))])
             w _ _ _ i1 i2 i3 j1 j2 j3
             eq_refl eq_refl eq_refl eq_refl eq_refl eq_refl eq_refl eq_refl
             L1 R1 L2 R2 L3 R3).
  reflexivity.
Qed.

(** Three one-byte uploads through the multiview form. *)
Lemma multiview_form_sample :
  exists front left back rest,
    calls (generate sample_ext (init sample_models "cuda" false true) "job"
             (multiview_form_params
                (mkMultiviewForm [x66]%byte [x6c]%byte [x62]%byte
                   None None None None None None None))
             (initial_world 5)) =
      ([EvLoadImage (VStr front); EvRembg (VImage 1); EvLoadImage (VStr left);
        EvRembg (VImage 1); EvLoadImage (VStr back); EvRembg (VImage 1)] ++ rest)%list /\
    Base64.b64decode front = Some [x66]%byte /\
    Base64.b64decode left = Some [x6c]%byte /\
    Base64.b64decode back = Some [x62]%byte.
Proof.
  exact (multiview_form_uploads sample_ext (init sample_models "cuda" false true) "job"
           (mkMultiviewForm [x66]%byte [x6c]%byte [x62]%byte
              None None None None None None None)
           (initial_world 5) (VImage 1) (VImage 1) (VImage 1)
           (VImage 2) (VImage 2) (VImage 2)
           eq_refl eq_refl eq_refl eq_refl eq_refl eq_refl).
Defined.

(** X11. A single-image form is generated with the values of the form and
    with no default of [generate]: the loader gets the upload as Base64
    text that decodes to the uploaded bytes, the generator is seeded with
    the form's seed, and the Model Pipeline Adapter is called with the
    form's [octree_resolution], [num_inference_steps] and
    [guidance_scale]; a field the form leaves out has the value 1234, 128,
    5 and 5.0 in that order. *)
Theorem image_form_run (ext : Externals) (self : ModelWorker) (uid : string)
  (f : ImageForm) (w : World) (i j gen : pyval) :
  load_image_from_base64 ext (VStr (Base64.b64encode (image_upload f))) = Ok i ->
  rembg self i = Ok j ->
  manual_seed ext (device self) (VInt (Form 1234 (image_seed f))) = Ok gen ->
  exists upload kwargs rest,
    calls (generate ext self uid (image_form_params f) w) =
      ([EvLoadImage (VStr upload); EvRembg i;
        EvManualSeed (device self) (VInt (Form 1234 (image_seed f)));
        EvPipeline false kwargs] ++ rest)%list /\
    Base64.b64decode upload = Some (image_upload f) /\
    dict_get "octree_resolution" kwargs =
      Some (VInt (Form 128 (image_octree_resolution f))) /\
    dict_get "num_inference_steps" kwargs =
      Some (VInt (Form 5 (image_num_inference_steps f))) /\
    dict_get "guidance_scale" kwargs =
      Some (VFloat (Form 5%float (image_guidance_scale f))).
Proof.
  intros L R S.
  set (params := image_form_params f).
  set (p1 := dict_set "image" j params).
  assert (E : input_stage ext self (dict_get_default "multiview" (VBool false) params)
                params w =
              mkRun (Ok (p1, (false, pipeline self))) w
                [EvLoadImage (VStr (Base64.b64encode (image_upload f))); EvRembg i]).
  { unfold input_stage, params, image_form_params.
    cbn [dict_get_default dict_get String.eqb Ascii.eqb Bool.eqb truthy].
    unfold bind, call, ret. cbn [outcome final calls].
    rewrite L. cbn [outcome final calls]. rewrite R. reflexivity. }
  destruct (generate_input_returns ext self uid params w p1 (false, pipeline self))
    as (c3 & c4 & Hc & _ & _); [now rewrite E|].
  rewrite E in Hc. cbn [calls final] in Hc.
  rewrite (shape_stage_no_mesh ext self _ p1 (false, pipeline self) w eq_refl) in Hc.
  change (dict_get_default "seed" (VInt 1234) p1)
    with (VInt (Form 1234 (image_seed f))) in Hc.
  rewrite S in Hc. cbn [fst] in Hc.
  exists (Base64.b64encode (image_upload f)).
  eexists. exists (c3 ++ c4)%list.
  split; [exact Hc|].
  split; [apply b64decode_b64encode|].
  rewrite with_defaults_octree_resolution, with_defaults_num_inference_steps,
    with_defaults_guidance_scale.
  repeat split.
Qed.

(** An upload with every other field left out. *)
Lemma image_form_sample :
  exists upload kwargs rest,
    calls (generate sample_ext (init sample_models "cuda" false false) "job"
             (image_form_params
                (mkImageForm [x68; x69]%byte None None None None None None))
             (initial_world 5)) =
      ([EvLoadImage (VStr upload); EvRembg (VImage 1);
        EvManualSeed "cuda" (VInt 1234); EvPipeline false kwargs] ++ rest)%list /\
    Base64.b64decode upload = Some [x68; x69]%byte /\
    dict_get "octree_resolution" kwargs = Some (VInt 128) /\
    dict_get "num_inference_steps" kwargs = Some (VInt 5) /\
    dict_get "guidance_scale" kwargs = Some (VFloat 5%float).
Proof.
  exact (image_form_run sample_ext (init sample_models "cuda" false false) "job"
           (mkImageForm [x68; x69]%byte None None None None None None)
           (initial_world 5) (VImage 1) (VImage 2) (VOpaque 7)
           eq_refl eq_refl eq_refl).
Defined.

(** ** Face count and the order of the multiview checks *)

(** X16. In a run that returns with [texture] set, face reduction is asked
    for the [face_count] of the request, and for 40000 when the request
    has none. *)
Theorem face_count_of_run (ext : Externals) (self : ModelWorker) (uid : string)
  (params : dict) (w : World) (res : string * string) :
  truthy (dict_get_default "texture" (VBool false) params) = true ->
  outcome (generate ext self uid params w) = Ok res ->
  exists mesh,
    In (EvFaceReducer mesh (dict_get_default "face_count" (VInt 40000) params))
       (calls (generate ext self uid params w)).
Proof.
  intros Htex.
  destruct (generate_run_spec ext self uid params w) as
    [e is_mv r1 E1 | p1 pu e is_mv r1 r2 E1 E2
     | p1 pu p2 mesh e is_mv r1 r2 r3 E1 E2 E3
     | p1 pu p2 mesh mesh' is_mv r1 r2 r3 r4 E1 E2 E3];
    cbn [outcome calls]; try discriminate.
  intros _.
  assert (Hkey : forall k, k <> "image" -> ~ In k shape_keys ->
                           dict_get k p2 = dict_get k params).
  { intros k Hi Hs.
    rewrite (shape_stage_Ok ext self is_mv p1 p2 pu mesh (final r1) k E2 Hs).
    destruct (input_stage_Ok ext self is_mv params p1 pu w E1) as (Hk & _).
    now apply Hk. }
  assert (Htex2 : truthy (dict_get_default "texture" (VBool false) p2) = true).
  { unfold dict_get_default. rewrite Hkey; [exact Htex | discriminate |].
    unfold shape_keys. simpl. intuition discriminate. }
  assert (Hfc : dict_get_default "face_count" (VInt 40000) p2 =
                dict_get_default "face_count" (VInt 40000) params).
  { unfold dict_get_default. rewrite Hkey; [reflexivity | discriminate |].
    unfold shape_keys. simpl. intuition discriminate. }
  destruct (texture_stage_Ok ext self is_mv p2 mesh mesh' (final r2) Htex2 E3)
    as (m1 & m2 & m3 & img & tex & _ & _ & _ & _ & _ & Hc).
  exists m2. fold r3 in Hc. rewrite !in_app_iff, Hc, <- Hfc. simpl. auto 10.
Qed.

(** A textured run that asks for five thousand faces. *)
Lemma face_count_sample :
  exists mesh,
    In (EvFaceReducer mesh (VInt 5000))
       (calls (generate sample_ext (init sample_models "cuda" true false) "job"
                 [("image", VStr "aGVsbG8="); ("texture", VBool true);
                  ("face_count", VInt 5000)]
                 (initial_world 5))).
Proof.
  exact (face_count_of_run sample_ext (init sample_models "cuda" true false) "job"
           [("image", VStr "aGVsbG8="); ("texture", VBool true);
            ("face_count", VInt 5000)]
           (initial_world 5) ("gradio_cache/job.glb", "job") eq_refl eq_refl).
Defined.

(** X17. [generate] looks for the multiview pipeline only after the loop
    over the views: a worker without that pipeline loads the three views
    of a complete multiview request and removes their backgrounds, six
    calls in all, before it raises the [ValueError] that says the pipeline
    is not loaded. *)
Theorem multiview_check_after_loading (ext : Externals) (self : ModelWorker)
  (uid : string) (params d : dict) (w : World) (r1 r2 r3 i1 i2 i3 j1 j2 j3 : pyval) :
  pipeline_mv self = None ->
  truthy (dict_get_default "multiview" (VBool false) params) = true ->
  dict_get "images" params = Some (VDict d) ->
  dict_get "front" d = Some r1 -> dict_get "left" d = Some r2 ->
  dict_get "back" d = Some r3 ->
  load_image_from_base64 ext r1 = Ok i1 -> rembg self i1 = Ok j1 ->
  load_image_from_base64 ext r2 = Ok i2 -> rembg self i2 = Ok j2 ->
  load_image_from_base64 ext r3 = Ok i3 -> rembg self i3 = Ok j3 ->
  generate ext self uid params w =
    mkRun (Raise (ValueError "Multiview pipeline not loaded. Enable multiview mode."))
      w [EvLoadImage r1; EvRembg i1; EvLoadImage r2; EvRembg i2;
         EvLoadImage r3; EvRembg i3].
Proof.
  intros Hnone Hmv Hi G1 G2 G3 L1 R1 L2 R2 L3 R3.
  assert (E : input_stage ext self (dict_get_default "multiview" (VBool false) params)
                params w =
              mkRun (Raise (ValueError
                              "Multiview pipeline not loaded. Enable multiview mode."))
                w [EvLoadImage r1; EvRembg i1; EvLoadImage r2; EvRembg i2;
                   EvLoadImage r3; EvRembg i3]).
  { rewrite (input_stage_views ext self _ params (VDict d) w r1 r2 r3
               i1 i2 i3 j1 j2 j3 Hmv Hi); try assumption.
    - now rewrite Hnone.
    - cbn [py_contains]. unfold dict_mem. now rewrite G1.
    - cbn [py_getitem]. now rewrite G1.
    - cbn [py_contains]. unfold dict_mem. now rewrite G2.
    - cbn [py_getitem]. now rewrite G2.
    - cbn [py_contains]. unfold dict_mem. now rewrite G3.
    - cbn [py_getitem]. now rewrite G3. }
  rewrite (generate_input_raises ext self uid params w
             (ValueError "Multiview pipeline not loaded. Enable multiview mode."))
    by (now rewrite E).
  now rewrite E.
Qed.

(** A complete multiview request to a worker started without multiview. *)
Lemma multiview_check_sample :
  generate sample_ext (init sample_models "cuda" false false) "job"
    [("multiview", VBool true);
     ("images", VDict [("front", VStr "Zg=="); ("left", VStr "bA==");
                       ("back", VStr "Yg==")])]
    (initial_world 5) =
    mkRun (Raise (ValueError "Multiview pipeline not loaded. Enable multiview mode."))
      (initial_world 5)
      [EvLoadImage (VStr "Zg=="); EvRembg (VImage 1); EvLoadImage (VStr "bA==");
       EvRembg (VImage 1); EvLoadImage (VStr "Yg=="); EvRembg (VImage 1)].
Proof.
  exact (multiview_check_after_loading sample_ext
           (init sample_models "cuda" false false) "job"
           [("multiview", VBool true);
            ("images", VDict [("front", VStr "Zg=="); ("left", VStr "bA==");
                              ("back", VStr "Yg==")])]
           [("front", VStr "Zg=="); ("left", VStr "bA=="); ("back", VStr "Yg==")]
           (initial_world 5)
           (VStr "Zg==") (VStr "bA==") (VStr "Yg==")
           (VImage 1) (VImage 1) (VImage 1) (VImage 2) (VImage 2) (VImage 2)
           eq_refl eq_refl eq_refl eq_refl eq_refl eq_refl
           eq_refl eq_refl eq_refl eq_refl eq_refl eq_refl).
Defined.
